(** * CV-Mailer: the mail-dispatch core of [code_sender.py] and the
      request handlers of [app.py], embedded in Rocq.

    Conventions of the embedding.
    - A Python [str] is the list of its Unicode code points ([list N]);
      [py "..."] turns a literal into such a list.  A Python [bytes] is a
      [list byte].
    - A decoded JSON body is a [pyval]; JSON numbers are taken to be
      integers.  Method calls on a value of the wrong type raise
      [AttributeError] / [TypeError], as the interpreter does.
    - Library calls whose result is decided outside the program (the file
      system, the SMTP relay, [time.sleep]) are events of a trace; their
      outcome is read from an environment [Env].  Logging is not modelled.
    - [str.format], the [repr] of non-string values and [Path.name] are
      library functions the development does not define: they are fields
      of [Env] too.
    - A [str] may hold surrogate code points, as a JSON request can carry
      them: encoding the HTML body as UTF-8 in [MIMEText] then raises
      [UnicodeEncodeError], with the text CPython gives it. *)

From Stdlib Require Import ZArith NArith QArith List String Ascii Lia DecimalString.
From Stdlib.Strings Require Import Byte.
From stdpp Require Import base option list gmap.

Local Open Scope N_scope.

(** ** Python strings *)

Abbreviation pystr := (list N) (only parsing).
Abbreviation bytes := (list byte) (only parsing).

Definition py (s : string) : pystr :=
  List.map N_of_ascii (list_ascii_of_string s).

(** [str.isspace] of one character: the code points CPython's
    [_PyUnicode_IsWhitespace] accepts. *)
Definition isspace (c : N) : bool :=
  ((0x09 <=? c) && (c <=? 0x0D)) || ((0x1C <=? c) && (c <=? 0x20))
  || (c =? 0x85) || (c =? 0xA0) || (c =? 0x1680)
  || ((0x2000 <=? c) && (c <=? 0x200A))
  || (c =? 0x2028) || (c =? 0x2029) || (c =? 0x202F) || (c =? 0x205F)
  || (c =? 0x3000).

Fixpoint lstrip (s : pystr) : pystr :=
  match s with
  | [] => []
  | c :: s' => if isspace c then lstrip s' else s
  end.

Definition rstrip (s : pystr) : pystr := rev (lstrip (rev s)).

(** [s.strip()] *)
Definition strip (s : pystr) : pystr := rstrip (lstrip s).

(** [str(n)] for a non-negative integer. *)
Definition str_of_nat (n : nat) : pystr :=
  py (NilZero.string_of_uint (Nat.to_uint n)).

(** ** Python values (decoded JSON) and exceptions *)

#[warnings="-register-all"]
Inductive pyval : Type :=
| VNone
| VBool (b : bool)
| VInt (z : Z)
| VStr (s : pystr)
| VList (l : list pyval)
| VDict (d : gmap pystr pyval).

Inductive exn_class : Set :=
| SMTPException      (* smtplib.SMTPException and its subclasses, but for *)
| SMTPServerDisconnected   (* smtplib.SMTPServerDisconnected *)
| AttributeError
| TypeError
| ValueError
| UnicodeEncodeError
| BinasciiError      (* binascii.Error *)
| FileNotFoundError
| RuntimeError
| KeyError
| OtherException.    (* any other subclass of Exception *)

Record exn : Type := Exn { exn_cls : exn_class; exn_str : pystr }.

(** [isinstance(e, smtplib.SMTPException)] *)
Definition is_SMTPException (e : exn) : bool :=
  match exn_cls e with
  | SMTPException | SMTPServerDisconnected => true
  | _ => false
  end.

(** [isinstance(e, smtplib.SMTPServerDisconnected)] *)
Definition is_SMTPServerDisconnected (e : exn) : bool :=
  match exn_cls e with SMTPServerDisconnected => true | _ => false end.

Inductive result (A : Type) : Type :=
| Ok (a : A)
| Raise (e : exn).
Arguments Ok {A} a.
Arguments Raise {A} e.

Definition type_name (v : pyval) : pystr :=
  match v with
  | VNone => py "NoneType"
  | VBool _ => py "bool"
  | VInt _ => py "int"
  | VStr _ => py "str"
  | VList _ => py "list"
  | VDict _ => py "dict"
  end.

Definition no_attribute (v : pyval) (attr : string) : exn :=
  Exn AttributeError
      (py "'" ++ type_name v ++ py "' object has no attribute '" ++ py attr ++ py "'").

(** [bool(v)] *)
Definition truthy (v : pyval) : bool :=
  match v with
  | VNone => false
  | VBool b => b
  | VInt z => negb (z =? 0)%Z
  | VStr s => negb (Nat.eqb (length s) 0)
  | VList l => negb (Nat.eqb (length l) 0)
  | VDict d => negb (Nat.eqb (size d) 0)
  end.

(** [v.get(key, default)] *)
Definition py_get (v : pyval) (key : string) (default : pyval) : result pyval :=
  match v with
  | VDict d => Ok (match d !! py key with Some x => x | None => default end)
  | _ => Raise (no_attribute v "get")
  end.

(** [v.strip()] *)
Definition py_strip (v : pyval) : result pystr :=
  match v with
  | VStr s => Ok (strip s)
  | _ => Raise (no_attribute v "strip")
  end.

(** Truth value of a [str]: [not s] is [is_empty s]. *)
Definition is_empty (s : pystr) : bool :=
  match s with [] => true | _ => false end.

Definition rbind {A B} (r : result A) (k : A -> result B) : result B :=
  match r with Ok a => k a | Raise e => Raise e end.

(** [v.get(key, default).strip()] *)
Definition field (v : pyval) (key default : string) : result pystr :=
  rbind (py_get v key (VStr (py default))) py_strip.

(** ** Encoding a [str] as UTF-8 *)

(** A surrogate code point: the one kind of character of a [str] that
    [s.encode("utf-8")] refuses. *)
Definition is_surrogate (c : N) : bool := (0xD800 <=? c) && (c <=? 0xDFFF).

(** One digit of ["%x"]. *)
Definition hex_digit (d : N) : N := if d <? 10 then 48 + d else 87 + d.

(** ["%04x" % c] *)
Definition hex4 (c : N) : pystr :=
  [hex_digit (c / 4096 mod 16); hex_digit (c / 256 mod 16);
   hex_digit (c / 16 mod 16); hex_digit (c mod 16)].

(** The length of the run of surrogates [s] starts with. *)
Fixpoint surrogate_run (s : pystr) : nat :=
  match s with
  | c :: rest => if is_surrogate c then S (surrogate_run rest) else O
  | [] => O
  end.

(** The error of the encoder on [s], whose first character has index [i]:
    it reports the first run of surrogates. *)
Fixpoint utf8_error_from (s : pystr) (i : nat) : option exn :=
  match s with
  | [] => None
  | c :: rest =>
      if is_surrogate c then
        Some (Exn UnicodeEncodeError
                (match surrogate_run rest with
                 | O =>
                     py "'utf-8' codec can't encode character '\u" ++ hex4 c
                     ++ py "' in position " ++ str_of_nat i
                     ++ py ": surrogates not allowed"
                 | S k =>
                     py "'utf-8' codec can't encode characters in position "
                     ++ str_of_nat i ++ py "-" ++ str_of_nat (i + S k)
                     ++ py ": surrogates not allowed"
                 end))
      else utf8_error_from rest (S i)
  end.

(** What [s.encode("utf-8")] raises, if it raises. *)
Definition utf8_encode_error (s : pystr) : option exn := utf8_error_from s 0.

(** ** [code_sender.create_greeting] *)

Definition create_greeting (recipient : pyval) : result pystr :=
  rbind (field recipient "company" "")
        (fun company =>
           if negb (is_empty company)
           then Ok (company ++ py " Hiring Team")
           else Ok (py "Hiring Team")).


(** ** Base64, as in CPython's [binascii] and [base64] modules *)

Definition b64_alphabet : pystr :=
  py "ABCDEFGHIJKLMNOPQRSTUVWXYZabcdefghijklmnopqrstuvwxyz0123456789+/".

Definition BASE64_PAD : N := 61.   (* '=' *)
Definition NEWLINE : N := 10.

(** [table_b2a_base64[v]] *)
Definition table_b2a (v : N) : N := nth (N.to_nat v) b64_alphabet 0.

(** [table_a2b_base64[c]]; [None] for the entries that are not a digit. *)
Definition table_a2b (c : N) : option N :=
  if (65 <=? c) && (c <=? 90) then Some (c - 65)
  else if (97 <=? c) && (c <=? 122) then Some (c - 71)
  else if (48 <=? c) && (c <=? 57) then Some (c + 4)
  else if c =? 43 then Some 62
  else if c =? 47 then Some 63
  else None.

(** Storing into an [unsigned char]. *)
Definition byte_of (n : N) : byte :=
  match Byte.of_N (n mod 256) with Some b => b | None => x00 end.

(** The output of [b2a_base64] before the newline, three bytes at a time. *)
Fixpoint b2a_groups (data : bytes) : pystr :=
  match data with
  | [] => []
  | [x] =>
      let x := Byte.to_N x in
      [table_b2a (N.shiftr x 2); table_b2a (N.shiftl (N.land x 3) 4);
       BASE64_PAD; BASE64_PAD]
  | [x; y] =>
      let x := Byte.to_N x in
      let y := Byte.to_N y in
      [table_b2a (N.shiftr x 2);
       table_b2a (N.lor (N.shiftl (N.land x 3) 4) (N.shiftr y 4));
       table_b2a (N.shiftl (N.land y 15) 2); BASE64_PAD]
  | x :: y :: z :: rest =>
      let x := Byte.to_N x in
      let y := Byte.to_N y in
      let z := Byte.to_N z in
      [table_b2a (N.shiftr x 2);
       table_b2a (N.lor (N.shiftl (N.land x 3) 4) (N.shiftr y 4));
       table_b2a (N.lor (N.shiftl (N.land y 15) 2) (N.shiftr z 6));
       table_b2a (N.land z 63)] ++ b2a_groups rest
  end.

(** [binascii.b2a_base64(data)] (with the trailing newline) *)
Definition b2a_base64 (data : bytes) : pystr := b2a_groups data ++ [NEWLINE].

(** [base64.b64encode(data)]: no newline. *)
Definition b64encode (data : bytes) : pystr := b2a_groups data.

Definition MAXBINSIZE : nat := 57.

(** [base64.encodebytes(s)]:
    [pieces = [b2a_base64(s[i : i + 57]) for i in range(0, len(s), 57)]],
    joined. *)
Definition encodebytes (s : bytes) : pystr :=
  List.flat_map
    (fun k => b2a_base64 (firstn MAXBINSIZE (skipn (MAXBINSIZE * k) s)))
    (seq 0 ((length s + (MAXBINSIZE - 1)) / MAXBINSIZE)).

(** The loop of [binascii.a2b_base64] (non-strict mode).  It returns the
    bytes written and the [quad_pos] that the check after the loop sees;
    [goto done] skips that check, which is what a final [quad_pos] of 0
    does. *)
Fixpoint a2b_loop (data : pystr) (quad_pos : nat) (leftchar : N) (pads : nat)
  : bytes * nat :=
  match data with
  | [] => ([], quad_pos)
  | this_ch :: rest =>
      if this_ch =? BASE64_PAD then
        if (2 <=? quad_pos)%nat then
          if (4 <=? quad_pos + S pads)%nat then ([], 0%nat)
          else a2b_loop rest quad_pos leftchar (S pads)
        else a2b_loop rest quad_pos leftchar pads
      else
        match table_a2b this_ch with
        | None => a2b_loop rest quad_pos leftchar pads
        | Some v =>
            match quad_pos with
            | 0%nat => a2b_loop rest 1 v 0
            | 1%nat =>
                let '(out, q) := a2b_loop rest 2 (N.land v 0x0f) 0 in
                (byte_of (N.lor (N.shiftl leftchar 2) (N.shiftr v 4)) :: out, q)
            | 2%nat =>
                let '(out, q) := a2b_loop rest 3 (N.land v 0x03) 0 in
                (byte_of (N.lor (N.shiftl leftchar 4) (N.shiftr v 2)) :: out, q)
            | _ =>
                let '(out, q) := a2b_loop rest 0 0 0 in
                (byte_of (N.lor (N.shiftl leftchar 6) v) :: out, q)
            end
        end
  end.

(** [binascii.a2b_base64(data)] *)
Definition a2b_base64 (data : pystr) : result bytes :=
  let '(out, q) := a2b_loop data 0 0 0 in
  match q with
  | 0%nat => Ok out
  | 1%nat =>
      Raise (Exn BinasciiError
               (py "Invalid base64-encoded string: number of data characters ("
                ++ str_of_nat (length out / 3 * 4 + 1)
                ++ py ") cannot be 1 more than a multiple of 4"))
  | _ => Raise (Exn BinasciiError (py "Incorrect padding"))
  end.

(** [base64.b64decode(s)] *)
Definition b64decode (s : pyval) : result bytes :=
  match s with
  | VStr t =>
      if forallb (fun c => c <? 128) t then a2b_base64 t
      else Raise (Exn ValueError
                    (py "string argument should contain only ASCII characters"))
  | _ =>
      Raise (Exn TypeError
               (py "argument should be a bytes-like object or ASCII string, not '"
                ++ type_name s ++ py "'"))
  end.


(** ** MIME messages ([email.mime]) *)

Abbreviation headers := (list (pystr * pystr)) (only parsing).

Inductive payload : Type :=
| PNone
| PBytes (b : bytes)                        (* raw bytes given to [set_payload] *)
| PStr (s : pystr)                          (* a transfer-encoded payload *)
| PText (text : pystr) (charset : pystr).   (* the text of a [MIMEText] part *)

(** A non-multipart part: its content type, the headers added to it (in
    order) and its payload. *)
Record MIMEPart : Type := mkPart {
  part_maintype : pystr;
  part_subtype : pystr;
  part_headers : headers;
  part_payload : payload
}.

(** A [MIMEMultipart] message: its headers in the order they were set and
    the parts attached to it. *)
Record Message : Type := mkMessage {
  msg_headers : headers;
  msg_parts : list MIMEPart
}.

(** [MIMEMultipart()] *)
Definition MIMEMultipart : Message := mkMessage [] [].

(** [msg[name] = value] appends a header. *)
Definition set_item (msg : Message) (name : string) (value : pystr) : Message :=
  mkMessage (msg_headers msg ++ [(py name, value)]) (msg_parts msg).

(** [msg.attach(part)] *)
Definition attach (msg : Message) (part : MIMEPart) : Message :=
  mkMessage (msg_headers msg) (msg_parts msg ++ [part]).

(** The part [MIMEText] constructs when it returns. *)
Definition text_part (text : pystr) (subtype charset : string) : MIMEPart :=
  mkPart (py "text") (py subtype) [] (PText text (py charset)).

(** [MIMEText(text, subtype, "utf-8")]: [set_payload] encodes the text
    with the charset ([payload.encode(charset.output_charset)], for the
    charset utf-8 that the program passes), which raises on a surrogate. *)
Definition MIMEText (text : pystr) (subtype charset : string) : result MIMEPart :=
  match utf8_encode_error text with
  | Some e => Raise e
  | None => Ok (text_part text subtype charset)
  end.

(** [MIMEBase(maintype, subtype)] *)
Definition MIMEBase (maintype subtype : string) : MIMEPart :=
  mkPart (py maintype) (py subtype) [] PNone.

(** [part.set_payload(data)] for [bytes] *)
Definition set_payload (part : MIMEPart) (data : bytes) : MIMEPart :=
  mkPart (part_maintype part) (part_subtype part) (part_headers part) (PBytes data).

(** [part.add_header(name, value)] *)
Definition add_header (part : MIMEPart) (name : string) (value : pystr) : MIMEPart :=
  mkPart (part_maintype part) (part_subtype part)
         (part_headers part ++ [(py name, value)]) (part_payload part).

(** [email.encoders.encode_base64(part)]: the payload becomes
    [str(encodebytes(orig), 'ascii')] and the part is marked
    [Content-Transfer-Encoding: base64].  [build_message] calls it on a part
    whose payload it has just set from bytes; other payloads are left as
    they are. *)
Definition encode_base64 (part : MIMEPart) : MIMEPart :=
  match part_payload part with
  | PBytes orig =>
      mkPart (part_maintype part) (part_subtype part)
             (part_headers part ++ [(py "Content-Transfer-Encoding", py "base64")])
             (PStr (encodebytes orig))
  | _ => part
  end.

Definition QUOTE : N := 34.   (* the double quote *)

(** *** Reading a message back *)

(** The values of the headers called [name], in order. *)
Definition get_all (hs : headers) (name : string) : list pystr :=
  List.map snd (List.filter (fun h => bool_decide (fst h = py name)) hs).

Definition is_html_part (p : MIMEPart) : bool :=
  bool_decide (part_maintype p = py "text") && bool_decide (part_subtype p = py "html").

(** A part is an attachment when it carries a [Content-Disposition]. *)
Definition is_attachment (p : MIMEPart) : bool :=
  negb (Nat.eqb (length (get_all (part_headers p) "Content-Disposition")) 0).

(** What a receiver gets from the attachment of a message: the Base64
    payload of its attachment part, decoded. *)
Definition redecoded_attachment (msg : Message) : option (result bytes) :=
  match List.filter is_attachment (msg_parts msg) with
  | p :: _ =>
      match part_payload p, get_all (part_headers p) "Content-Transfer-Encoding" with
      | PStr s, [cte] => if bool_decide (cte = py "base64") then Some (a2b_base64 s) else None
      | _, _ => None
      end
  | [] => None
  end.

(** The message of section 4.2: the three address headers, one HTML part
    in UTF-8 and one attachment part, Base64-encoded, typed
    [application/octet-stream] and named [filename]. *)
Definition message_as_specified (msg : Message)
    (sender to_email subject body_text filename : pystr) : Prop :=
  get_all (msg_headers msg) "From" = [sender]
  /\ get_all (msg_headers msg) "To" = [to_email]
  /\ get_all (msg_headers msg) "Subject" = [subject]
  /\ List.filter is_html_part (msg_parts msg) = [text_part body_text "html" "utf-8"]
  /\ exists part,
       List.filter is_attachment (msg_parts msg) = [part]
       /\ get_all (part_headers part) "Content-Transfer-Encoding" = [py "base64"]
       /\ part_maintype part = py "application"
       /\ part_subtype part = py "octet-stream"
       /\ get_all (part_headers part) "Content-Disposition"
          = [py "attachment; filename=" ++ [QUOTE] ++ filename ++ [QUOTE]].

(** ** Effects: the trace of library calls and the environment *)

Inductive Event : Type :=
| EPathExists (path : pystr)
| EReadText (path : pystr)
| EReadBytes (path : pystr)
| ESMTPConnect (host : pystr) (port : Z)
| EEhlo
| EStartTLS
| ELogin (user password : pystr)
| ESendmail (from_addr : pystr) (to_addrs : list pystr) (msg : Message)
| EQuit
| ESleep (seconds : Q).

(** What the program does not decide.  [None] is a call that returns,
    [Some e] one that raises [e]. *)
Record Env : Type := mkEnv {
  (* template.format(name=value, ...) *)
  str_format : pystr -> list (string * pystr) -> result pystr;
  (* repr(v), used for values that are not a str *)
  py_repr : pyval -> pystr;
  (* Path(p).name *)
  path_name : pystr -> pystr;
  (* the answer to the n-th Path(p).exists() of the call *)
  path_exists : nat -> pystr -> bool;
  (* open(p, "r", encoding="utf-8").read() and open(p, "rb").read() *)
  read_text : pystr -> result pystr;
  read_bytes : pystr -> result bytes;
  (* smtplib.SMTP(host, port) *)
  smtp_connect : pystr -> Z -> option exn;
  smtp_ehlo : option exn;
  smtp_starttls : option exn;
  smtp_login : pystr -> pystr -> option exn;
  (* the n-th send of the session: msg.as_string() and smtp.sendmail *)
  smtp_sendmail : nat -> pystr -> list pystr -> Message -> option exn;
  (* the QUIT that SMTP.__exit__ sends *)
  smtp_quit : option exn
}.

Definition M (A : Type) : Type := Env -> list Event -> result A * list Event.

Definition ret {A} (a : A) : M A := fun _ tr => (Ok a, tr).

Definition bind {A B} (m : M A) (k : A -> M B) : M B :=
  fun env tr =>
    match m env tr with
    | (Ok a, tr') => k a env tr'
    | (Raise e, tr') => (Raise e, tr')
    end.

Definition raise {A} (e : exn) : M A := fun _ tr => (Raise e, tr).

Definition lift {A} (r : result A) : M A := fun _ tr => (r, tr).

(** [try: m] with the exception, if any, as a value. *)
Definition try {A} (m : M A) : M (result A) :=
  fun env tr => let '(r, tr') := m env tr in (Ok r, tr').

(** [try: m  except C as e: h e] for the classes [C] that [catches] accepts. *)
Definition try_except {A} (m : M A) (catches : exn -> bool) (h : exn -> M A) : M A :=
  fun env tr =>
    match m env tr with
    | (Ok a, tr') => (Ok a, tr')
    | (Raise e, tr') => if catches e then h e env tr' else (Raise e, tr')
    end.

Notation "x <- m ;; k" := (bind m (fun x => k))
  (at level 100, m at next level, right associativity).
Notation "m ;;; k" := (bind m (fun _ => k))
  (at level 100, right associativity).

(** A call to the outside: the event is recorded, then the reply applies. *)
Definition call (ev : Event) (reply : Env -> list Event -> option exn) : M unit :=
  fun env tr =>
    match reply env tr with
    | None => (Ok tt, tr ++ [ev])
    | Some e => (Raise e, tr ++ [ev])
    end.

Definition is_path_exists (ev : Event) : bool :=
  match ev with EPathExists _ => true | _ => false end.

Definition is_sendmail (ev : Event) : bool :=
  match ev with ESendmail _ _ _ => true | _ => false end.

Definition is_sleep (ev : Event) : bool :=
  match ev with ESleep _ => true | _ => false end.

Definition count (f : Event -> bool) (tr : list Event) : nat :=
  length (List.filter f tr).

(** [Path(p).exists()] *)
Definition exists_ (p : pystr) : M bool :=
  fun env tr => (Ok (path_exists env (count is_path_exists tr) p), tr ++ [EPathExists p]).

Definition file_read_text (p : pystr) : M pystr :=
  fun env tr => (read_text env p, tr ++ [EReadText p]).

Definition file_read_bytes (p : pystr) : M bytes :=
  fun env tr => (read_bytes env p, tr ++ [EReadBytes p]).

(** [time.sleep(seconds)] *)
Definition sleep (seconds : Q) : M unit := call (ESleep seconds) (fun _ _ => None).

(** [smtp.sendmail(sender, [recipient], msg.as_string())] *)
Definition sendmail (from_addr : pystr) (to_addrs : list pystr) (msg : Message) : M unit :=
  call (ESendmail from_addr to_addrs msg)
       (fun env tr => smtp_sendmail env (count is_sendmail tr) from_addr to_addrs msg).

(** [with smtplib.SMTP(host, port) as smtp: body].  A failed constructor
    raises before the block is entered; otherwise [__exit__] runs however
    the block ends.  [SMTP.__exit__] sends QUIT and swallows a
    [SMTPServerDisconnected]; anything else that QUIT raises (a reply
    other than 221, say) replaces the block's outcome. *)
Definition with_SMTP {A} (host : pystr) (port : Z) (body : M A) : M A :=
  call (ESMTPConnect host port) (fun env _ => smtp_connect env host port) ;;;
  r <- try body ;;
  q <- try (call EQuit (fun env _ => smtp_quit env)) ;;
  match q with
  | Raise e => if is_SMTPServerDisconnected e then lift r else raise e
  | Ok _ => lift r
  end.

Definition ehlo : M unit := call EEhlo (fun env _ => smtp_ehlo env).
Definition starttls : M unit := call EStartTLS (fun env _ => smtp_starttls env).
Definition login (user password : pystr) : M unit :=
  call (ELogin user password) (fun env _ => smtp_login env user password).

(** ** [code_sender.py] *)

Definition SMTP_SERVER : pystr := py "smtp.gmail.com".
Definition SMTP_PORT : Z := 587.
Definition SEND_DELAY : Q := 1.
Definition TEMPLATE_PATH : pystr := py "email_template.html".
Definition RECIPIENTS : list pyval := [].

(** [f"{v}"]: [str(v)], which is [v] for a str and [repr(v)] otherwise. *)
Definition format_value (env : Env) (v : pyval) : pystr :=
  match v with
  | VStr s => s
  | _ => py_repr env v
  end.

Definition load_email_template (template_path : pystr) : M pystr :=
  ex <- exists_ template_path ;;
  if negb ex
  then raise (Exn FileNotFoundError (py "Email template not found: " ++ template_path))
  else file_read_text template_path.

(** Truth value of an [Optional[bytes]] or [Optional[str]] argument:
    [None] and the empty sequence are false. *)
Definition opt_truthy {A} (o : option (list A)) : bool :=
  match o with
  | Some (_ :: _) => true
  | _ => false
  end.

Definition opt_value {A} (o : option (list A)) : list A :=
  match o with
  | Some l => l
  | None => []
  end.

(** The attachment part both branches of [build_message] construct. *)
Definition attachment_part (data : bytes) (filename : pystr) : MIMEPart :=
  let part := MIMEBase "application" "octet-stream" in
  let part := set_payload part data in
  let part := encode_base64 part in
  add_header part "Content-Disposition"
             (py "attachment; filename=" ++ [QUOTE] ++ filename ++ [QUOTE]).

Definition build_message (sender to_email subject body_text : pystr)
    (attachment_path : option pystr) (attachment_data : option bytes)
    (attachment_filename : pyval) : M Message :=
  let msg := MIMEMultipart in
  let msg := set_item msg "From" sender in
  let msg := set_item msg "To" to_email in
  let msg := set_item msg "Subject" subject in
  html <- lift (MIMEText body_text "html" "utf-8") ;;
  let msg := attach msg html in
  if opt_truthy attachment_data then
    fun env =>
      ret (attach msg (attachment_part (opt_value attachment_data)
                         (format_value env attachment_filename))) env
  else if opt_truthy attachment_path then
    let attachment_file := opt_value attachment_path in
    ex <- exists_ attachment_file ;;
    if negb ex
    then raise (Exn FileNotFoundError (py "Attachment not found: " ++ attachment_file))
    else
      data <- file_read_bytes attachment_file ;;
      fun env =>
        ret (attach msg (attachment_part data (path_name env attachment_file))) env
  else ret msg.

(** The message before any attachment, when the HTML part could be
    made: headers and the HTML part. *)
Definition base_message (sender to_email subject body_text : pystr) : Message :=
  attach (set_item (set_item (set_item MIMEMultipart "From" sender) "To" to_email)
                   "Subject" subject)
         (text_part body_text "html" "utf-8").

(** The message builder called with an attachment given as bytes and a
    file name returns the message of section 4.2. *)
Definition builds_specified_message (env : Env)
    (sender to_email subject body_text : pystr) (attachment_path : option pystr)
    (attachment_data : bytes) (filename : pystr) : Prop :=
  exists msg,
    build_message sender to_email subject body_text attachment_path
                  (Some attachment_data) (VStr filename) env [] = (Ok msg, [])
    /\ message_as_specified msg sender to_email subject body_text filename.

(** The attachment [b], sent as the Base64 payload [b64encode b], decoded by
    the handler and attached by the message builder, is what the receiver
    decodes from the message. *)
Definition attachment_round_trip (env : Env)
    (sender to_email subject body_text : pystr) (filename : pyval) (b : bytes) : Prop :=
  exists pdf_data msg,
    b64decode (VStr (b64encode b)) = Ok pdf_data
    /\ build_message sender to_email subject body_text None
                     (Some pdf_data) filename env [] = (Ok msg, [])
    /\ redecoded_attachment msg = Some (Ok b).

Definition send_one (sender recipient subject body : pystr)
    (attachment : option pystr) (attachment_data : option bytes)
    (attachment_filename : pyval) : M unit :=
  msg <- build_message sender recipient subject body
                       attachment attachment_data attachment_filename ;;
  sendmail sender [recipient] msg.

Definition validate_configuration (check_recipients : bool) : M unit :=
  if check_recipients && negb (truthy (VList RECIPIENTS))
  then raise (Exn RuntimeError
                (py "No recipients configured. Please add at least one recipient."))
  else
    ex <- exists_ TEMPLATE_PATH ;;
    if negb ex
    then raise (Exn FileNotFoundError (py "Email template not found: " ++ TEMPLATE_PATH))
    else ret tt.

(** ** [app.py] *)

(** One entry of the [results] array. *)
Record SendResult : Type := mkResult {
  r_email : pystr;
  r_status : pystr;
  r_message : pystr
}.

Record Summary : Type := mkSummary {
  successful : nat;
  failed : nat;
  total : nat
}.

(** The JSON bodies the handlers build with [jsonify]. *)
Inductive Body : Type :=
| JError (error : pystr)                     (* {"error": ...} *)
| JFailure (error : pystr)                   (* {"success": False, "error": ...} *)
| JSuccess (message : pystr)                 (* {"success": True, "message": ...} *)
| JBatch (message : pystr) (results : list SendResult) (summary : Summary).
                                             (* {"success": True, "message", "results", "summary"} *)

(** A body with its HTTP status. *)
Definition Response : Type := Body * nat.

(** [for x in v].  A dict iterates over its keys (in insertion order in
    Python, in the order of [map_to_list] here; the loop of [send_emails]
    raises on the first key, whichever it is). *)
Definition py_iter (v : pyval) : result (list pyval) :=
  match v with
  | VList l => Ok l
  | VStr s => Ok (List.map (fun c => VStr [c]) s)
  | VDict d => Ok (List.map (fun kv => VStr (fst kv)) (map_to_list d))
  | _ => Raise (Exn TypeError (py "'" ++ type_name v ++ py "' object is not iterable"))
  end.

(** [len(v)] *)
Definition py_len (v : pyval) : result nat :=
  match v with
  | VList l => Ok (length l)
  | VStr s => Ok (length s)
  | VDict d => Ok (size d)
  | _ => Raise (Exn TypeError (py "object of type '" ++ type_name v ++ py "' has no len()"))
  end.

Definition get_strip (v : pyval) (key default : string) : M pystr :=
  lift (field v key default).

(** The locals the batch loop updates. *)
Record LoopState : Type := mkLoop {
  results : list SendResult;
  successful_sends : nat;
  failed_sends : nat
}.

Definition any_exception (e : exn) : bool := true.

Section BatchLoop.
(* the locals of [send_emails] the loop reads *)
Variables (recipients : pyval)
  (sender_email job_title subject name phone_number : pystr)
  (pdf_data : bytes) (pdf_filename : pyval) (email_template : pystr).

(** [for recipient in recipients: ...] of [send_emails], on the
    recipients still to visit. *)
Fixpoint send_loop (todo : list pyval) (st : LoopState) : M LoopState :=
  match todo with
  | [] => ret st
  | recipient :: rest =>
      to_email <- get_strip recipient "email" "" ;;
      if is_empty to_email then send_loop rest st      (* continue *)
      else
        greeting <- lift (create_greeting recipient) ;;
        body <- (fun env =>
                   lift (str_format env email_template
                           [("greeting", greeting); ("job_title", job_title);
                            ("name", name); ("phone_number", phone_number);
                            ("email", sender_email)]%string) env) ;;
        r <- try (send_one sender_email to_email subject body
                           None (Some pdf_data) pdf_filename) ;;
        let st' :=
          match r with
          | Ok _ =>
              mkLoop (results st ++ [mkResult to_email (py "success")
                                              (py "Email sent successfully")])
                     (successful_sends st + 1) (failed_sends st)
          | Raise e =>
              mkLoop (results st ++ [mkResult to_email (py "error") (exn_str e)])
                     (successful_sends st) (failed_sends st + 1)
          end in
        n <- lift (py_len recipients) ;;
        (if (1 <? n)%nat then sleep SEND_DELAY else ret tt) ;;;
        send_loop rest st'
  end.
End BatchLoop.

(** Lines 116-188 of [send_emails]: the relay session of a batch, with
    its [except smtplib.SMTPException] handler. *)
Definition send_emails_session
    (recipients : pyval)
    (sender_email app_password job_title subject name phone_number : pystr)
    (pdf_data : bytes) (pdf_filename : pyval) (email_template : pystr) : M Response :=
  try_except (
    with_SMTP SMTP_SERVER SMTP_PORT (
      ehlo ;;;
      starttls ;;;
      login sender_email app_password ;;;
      todo <- lift (py_iter recipients) ;;
      st <- send_loop recipients sender_email job_title subject name phone_number
                      pdf_data pdf_filename email_template
                      todo (mkLoop [] 0 0) ;;
      n <- lift (py_len recipients) ;;
      ret (JBatch (py "Email sending completed. Success: "
                   ++ str_of_nat (successful_sends st)
                   ++ py ", Failed: " ++ str_of_nat (failed_sends st))
                  (results st)
                  (mkSummary (successful_sends st) (failed_sends st) n),
           200%nat)))
    is_SMTPException
    (fun e => ret (JError (py "SMTP error: " ++ exn_str e), 500%nat)).

(** [POST /api/recipients] *)
Definition send_emails (data : pyval) : M Response :=
  try_except (
    recipients <- lift (py_get data "recipients" (VList [])) ;;
    sender_email <- get_strip data "sender_email" "" ;;
    app_password <- get_strip data "app_password" "" ;;
    job_title <- get_strip data "job_title" "" ;;
    subject <- get_strip data "subject" "" ;;
    pdf_file_base64 <- lift (py_get data "pdf_file" (VStr (py ""))) ;;
    pdf_filename <- lift (py_get data "pdf_filename" (VStr (py "CV.pdf"))) ;;
    name <- get_strip data "name" "" ;;
    phone_number <- get_strip data "phone_number" "" ;;
    if negb (truthy recipients) then ret (JError (py "No recipients provided"), 400%nat)
    else if is_empty sender_email then ret (JError (py "Sender email is required"), 400%nat)
    else if is_empty app_password then ret (JError (py "App password is required"), 400%nat)
    else if is_empty job_title then ret (JError (py "Job title is required"), 400%nat)
    else if is_empty subject then ret (JError (py "Subject is required"), 400%nat)
    else if negb (truthy pdf_file_base64) then ret (JError (py "PDF file is required"), 400%nat)
    else if is_empty name then ret (JError (py "Name is required"), 400%nat)
    else if is_empty phone_number then ret (JError (py "Phone number is required"), 400%nat)
    else
    match b64decode pdf_file_base64 with
    | Raise e => ret (JError (py "Invalid PDF file data: " ++ exn_str e), 400%nat)
    | Ok pdf_data =>
    cfg <- try (validate_configuration false) ;;
    match cfg with
    | Raise e => ret (JError (py "Configuration error: " ++ exn_str e), 500%nat)
    | Ok _ =>
    tpl <- try (load_email_template TEMPLATE_PATH) ;;
    match tpl with
    | Raise e => ret (JError (py "Template loading error: " ++ exn_str e), 500%nat)
    | Ok email_template =>
    send_emails_session recipients sender_email app_password job_title subject
                        name phone_number pdf_data pdf_filename email_template
    end end end)
  any_exception
  (fun e => ret (JError (py "Unexpected error: " ++ exn_str e), 500%nat)).

(** Lines 269-304 of [send_single_email]: the body is rendered, then the
    message is sent in a session of its own. *)
Definition send_single_render_and_send
    (recipient : pyval)
    (to_email sender_email app_password job_title subject name phone_number : pystr)
    (pdf_data : bytes) (pdf_filename : pyval) (email_template : pystr) : M Response :=
  greeting <- lift (create_greeting recipient) ;;
  body <- (fun env =>
             lift (str_format env email_template
                     [("greeting", greeting); ("job_title", job_title);
                      ("name", name); ("phone_number", phone_number);
                      ("email", sender_email)]%string) env) ;;
  try_except (
    with_SMTP SMTP_SERVER SMTP_PORT (
      ehlo ;;;
      starttls ;;;
      login sender_email app_password ;;;
      send_one sender_email to_email subject body None (Some pdf_data) pdf_filename ;;;
      ret (JSuccess (py "Email sent successfully to " ++ to_email), 200%nat)))
    any_exception
    (fun e => ret (JFailure (py "Failed to send email: " ++ exn_str e), 500%nat)).

(** [POST /api/send-single] *)
Definition send_single_email (data : pyval) : M Response :=
  try_except (
    recipient <- lift (py_get data "recipient" (VDict ∅)) ;;
    to_email <- get_strip recipient "email" "" ;;
    sender_email <- get_strip data "sender_email" "" ;;
    app_password <- get_strip data "app_password" "" ;;
    job_title <- get_strip data "job_title" "" ;;
    subject <- get_strip data "subject" "" ;;
    pdf_file_base64 <- lift (py_get data "pdf_file" (VStr (py ""))) ;;
    pdf_filename <- lift (py_get data "pdf_filename" (VStr (py "CV.pdf"))) ;;
    name <- get_strip data "name" "" ;;
    phone_number <- get_strip data "phone_number" "" ;;
    if is_empty to_email then ret (JFailure (py "Email address is required"), 400%nat)
    else if is_empty sender_email then ret (JFailure (py "Sender email is required"), 400%nat)
    else if is_empty app_password then ret (JFailure (py "App password is required"), 400%nat)
    else if is_empty job_title then ret (JFailure (py "Job title is required"), 400%nat)
    else if is_empty subject then ret (JFailure (py "Subject is required"), 400%nat)
    else if negb (truthy pdf_file_base64) then ret (JFailure (py "PDF file is required"), 400%nat)
    else if is_empty name then ret (JFailure (py "Name is required"), 400%nat)
    else if is_empty phone_number then ret (JFailure (py "Phone number is required"), 400%nat)
    else
    match b64decode pdf_file_base64 with
    | Raise e => ret (JFailure (py "Invalid PDF file data: " ++ exn_str e), 400%nat)
    | Ok pdf_data =>
    cfg <- try (validate_configuration false) ;;
    match cfg with
    | Raise e => ret (JFailure (py "Configuration error: " ++ exn_str e), 500%nat)
    | Ok _ =>
    tpl <- try (load_email_template TEMPLATE_PATH) ;;
    match tpl with
    | Raise e => ret (JFailure (py "Template loading error: " ++ exn_str e), 500%nat)
    | Ok email_template =>
    send_single_render_and_send recipient to_email sender_email app_password job_title
                                subject name phone_number pdf_data pdf_filename
                                email_template
    end end end)
  any_exception
  (fun e => ret (JFailure (py "Unexpected error: " ++ exn_str e), 500%nat)).

(** Lines 360-387 of [test_email]: the recipient record is built from the
    request, the body is rendered, then the message is sent. *)
Definition test_email_render_and_send
    (data : pyval) (test_email sender_email app_password job_title subject : pystr)
    (pdf_data : bytes) (pdf_filename : pyval) (email_template : pystr) : M Response :=
  company <- lift (py_get data "company" (VStr (py ""))) ;;
  let recipient := VDict (<[py "company" := company]> {[ py "email" := VStr test_email ]}) in
  greeting <- lift (create_greeting recipient) ;;
  body <- (fun env =>
             lift (str_format env email_template
                     [("greeting", greeting); ("job_title", job_title)]%string) env) ;;
  try_except (
    with_SMTP SMTP_SERVER SMTP_PORT (
      ehlo ;;;
      starttls ;;;
      login sender_email app_password ;;;
      send_one sender_email test_email subject body None (Some pdf_data) pdf_filename ;;;
      ret (JSuccess (py "Test email sent successfully to " ++ test_email), 200%nat)))
    any_exception
    (fun e => ret (JError (py "Failed to send email: " ++ exn_str e), 500%nat)).

(** [POST /api/test-email] *)
Definition test_email (data : pyval) : M Response :=
  try_except (
    test_email <- get_strip data "email" "" ;;
    sender_email <- get_strip data "sender_email" "" ;;
    app_password <- get_strip data "app_password" "" ;;
    job_title <- get_strip data "job_title" "" ;;
    subject <- get_strip data "subject" "" ;;
    pdf_file_base64 <- lift (py_get data "pdf_file" (VStr (py ""))) ;;
    pdf_filename <- lift (py_get data "pdf_filename" (VStr (py "CV.pdf"))) ;;
    if is_empty test_email then ret (JError (py "Email address is required"), 400%nat)
    else if is_empty sender_email then ret (JError (py "Sender email is required"), 400%nat)
    else if is_empty app_password then ret (JError (py "App password is required"), 400%nat)
    else if is_empty job_title then ret (JError (py "Job title is required"), 400%nat)
    else if is_empty subject then ret (JError (py "Subject is required"), 400%nat)
    else if negb (truthy pdf_file_base64) then ret (JError (py "PDF file is required"), 400%nat)
    else
    match b64decode pdf_file_base64 with
    | Raise e => ret (JError (py "Invalid PDF file data: " ++ exn_str e), 400%nat)
    | Ok pdf_data =>
    cfg <- try (validate_configuration false) ;;
    match cfg with
    | Raise e => ret (JError (py "Configuration error: " ++ exn_str e), 500%nat)
    | Ok _ =>
    tpl <- try (load_email_template TEMPLATE_PATH) ;;
    match tpl with
    | Raise e => ret (JError (py "Template loading error: " ++ exn_str e), 500%nat)
    | Ok email_template =>
    test_email_render_and_send data test_email sender_email app_password job_title
                               subject pdf_data pdf_filename email_template
    end end end)
  any_exception
  (fun e => ret (JError (py "Unexpected error: " ++ exn_str e), 500%nat)).

(** ** Vocabulary of the statements about the handlers *)

(** The string holds no surrogate: it can be encoded as UTF-8. *)
Definition encodable (s : pystr) : bool := forallb (fun c => negb (is_surrogate c)) s.

(** [t] is [s] without its leading and its trailing white space: [s] is
    [t] between two runs of white space, and [t] neither starts nor ends
    with white space. *)
Definition trims_to (s t : pystr) : Prop :=
  exists before after,
    s = before ++ t ++ after
    /\ forallb isspace before = true
    /\ forallb isspace after = true
    /\ (forall c, hd_error t = Some c -> isspace c = false)
    /\ (forall c, hd_error (rev t) = Some c -> isspace c = false).

(** What [SMTP.__exit__] raises, if it raises: what QUIT raised, unless
    that is an [SMTPServerDisconnected]. *)
Definition exit_raises (env : Env) : option exn :=
  match smtp_quit env with
  | Some e => if is_SMTPServerDisconnected e then None else Some e
  | None => None
  end.

(** The first exception of reads made in order. *)
Fixpoint first_raise {A} (reads : list (result A)) : option exn :=
  match reads with
  | [] => None
  | Raise e :: _ => Some e
  | Ok _ :: rest => first_raise rest
  end.

(** The message [send_one] builds for one recipient of a request, when
    it can be built ([attachment] is [None] in every call of [app.py]). *)
Definition request_message (env : Env) (sender_email to_email subject body : pystr)
    (pdf_data : bytes) (pdf_filename : pyval) : Message :=
  if opt_truthy (Some pdf_data)
  then attach (base_message sender_email to_email subject body)
              (attachment_part pdf_data (format_value env pdf_filename))
  else base_message sender_email to_email subject body.

(** The keyword arguments of the batch and single-send rendering. *)
Definition full_kwargs (greeting job_title name phone_number sender_email : pystr)
  : list (string * pystr) :=
  [("greeting", greeting); ("job_title", job_title); ("name", name);
   ("phone_number", phone_number); ("email", sender_email)]%string.

(** The two updates of the loop state. *)
Definition record_success (st : LoopState) (to_email : pystr) : LoopState :=
  mkLoop (results st ++ [mkResult to_email (py "success") (py "Email sent successfully")])
         (successful_sends st + 1) (failed_sends st).

Definition record_failure (st : LoopState) (to_email : pystr) (e : exn) : LoopState :=
  mkLoop (results st ++ [mkResult to_email (py "error") (exn_str e)])
         (successful_sends st) (failed_sends st + 1).

(** The [try] block of the batch loop for one recipient, lines 142-167:
    the state and the trace it leaves.  When the message cannot be built
    nothing is submitted and the failure is recorded; otherwise the
    message is submitted and the reply of the relay is recorded. *)
Definition attempt (env : Env) (sender_email to_email subject body : pystr)
    (pdf_data : bytes) (pdf_filename : pyval) (st : LoopState) (tr : list Event)
  : LoopState * list Event :=
  match utf8_encode_error body with
  | Some e => (record_failure st to_email e, tr)
  | None =>
      let msg := request_message env sender_email to_email subject body
                   pdf_data pdf_filename in
      (match smtp_sendmail env (count is_sendmail tr) sender_email [to_email] msg with
       | None => record_success st to_email
       | Some e => record_failure st to_email e
       end,
       tr ++ [ESendmail sender_email [to_email] msg])
  end.

(** The pause that follows a send in a batch of [n] entries. *)
Definition pause_after_send (n : nat) : list Event :=
  if (1 <? n)%nat then [ESleep SEND_DELAY] else [].

(** The locals of [send_emails] once the request has been read. *)
Record BatchLocals : Type := mkLocals {
  l_recipients : pyval;
  l_sender_email : pystr;
  l_app_password : pystr;
  l_job_title : pystr;
  l_subject : pystr;
  l_pdf_data : bytes;
  l_pdf_filename : pyval;
  l_name : pystr;
  l_phone_number : pystr
}.

(** The request [data] passes lines 63-102 of [send_emails] and leaves the
    locals [L]. *)
Definition reads_batch (data : pyval) (L : BatchLocals) : Prop :=
  py_get data "recipients" (VList []) = Ok (l_recipients L)
  /\ field data "sender_email" "" = Ok (l_sender_email L)
  /\ field data "app_password" "" = Ok (l_app_password L)
  /\ field data "job_title" "" = Ok (l_job_title L)
  /\ field data "subject" "" = Ok (l_subject L)
  /\ (exists pdf_file,
        py_get data "pdf_file" (VStr (py "")) = Ok pdf_file
        /\ truthy pdf_file = true
        /\ b64decode pdf_file = Ok (l_pdf_data L))
  /\ py_get data "pdf_filename" (VStr (py "CV.pdf")) = Ok (l_pdf_filename L)
  /\ field data "name" "" = Ok (l_name L)
  /\ field data "phone_number" "" = Ok (l_phone_number L)
  /\ truthy (l_recipients L) = true
  /\ is_empty (l_sender_email L) = false
  /\ is_empty (l_app_password L) = false
  /\ is_empty (l_job_title L) = false
  /\ is_empty (l_subject L) = false
  /\ is_empty (l_name L) = false
  /\ is_empty (l_phone_number L) = false.

(** The template file is there at both checks and reads as [template]. *)
Definition template_loads (env : Env) (tr : list Event) (template : pystr) : Prop :=
  path_exists env (count is_path_exists tr) TEMPLATE_PATH = true
  /\ path_exists env (S (count is_path_exists tr)) TEMPLATE_PATH = true
  /\ read_text env TEMPLATE_PATH = Ok template.

(** The events of a handler up to a loaded template. *)
Definition template_events : list Event :=
  [EPathExists TEMPLATE_PATH; EPathExists TEMPLATE_PATH; EReadText TEMPLATE_PATH].

(** The relay session opens: connect, greeting, encryption upgrade and
    authentication all return. *)
Definition session_opens (env : Env) (user password : pystr) : Prop :=
  smtp_connect env SMTP_SERVER SMTP_PORT = None
  /\ smtp_ehlo env = None
  /\ smtp_starttls env = None
  /\ smtp_login env user password = None.

(** Opening the relay session fails at one of its four steps, for the
    credentials of the request. *)
Definition session_open_fails (env : Env) (data : pyval) : Prop :=
  smtp_connect env SMTP_SERVER SMTP_PORT <> None
  \/ smtp_ehlo env <> None
  \/ smtp_starttls env <> None
  \/ (forall user password,
        field data "sender_email" "" = Ok user ->
        field data "app_password" "" = Ok password ->
        smtp_login env user password <> None).

(** The outermost [except Exception] of the handlers of [app.py] that
    answer [{"error": ...}]. *)
Definition unexpected (m : M Response) : M Response :=
  try_except m any_exception
    (fun e => ret (JError (py "Unexpected error: " ++ exn_str e), 500%nat)).

Definition batch_session_of (L : BatchLocals) (email_template : pystr) : M Response :=
  send_emails_session (l_recipients L) (l_sender_email L) (l_app_password L)
                      (l_job_title L) (l_subject L) (l_name L) (l_phone_number L)
                      (l_pdf_data L) (l_pdf_filename L) email_template.

Definition loop_of (L : BatchLocals) (email_template : pystr)
  : list pyval -> LoopState -> M LoopState :=
  send_loop (l_recipients L) (l_sender_email L) (l_job_title L) (l_subject L)
            (l_name L) (l_phone_number L) (l_pdf_data L) (l_pdf_filename L)
            email_template.

(** The events that only read the file system. *)
Definition is_file_event (ev : Event) : bool :=
  match ev with
  | EPathExists _ | EReadText _ | EReadBytes _ => true
  | _ => false
  end.

(** A handler that stops before the relay: an error body, and nothing but
    file events added to the trace. *)
Definition stops_early (run : result Response * list Event) (tr : list Event)
    (mk : pystr -> Body) : Prop :=
  exists msg code tr',
    run = (Ok (mk msg, code), tr')
    /\ (exists fs, tr' = tr ++ fs /\ forallb is_file_event fs = true)
    /\ (code = 400 \/ code = 500)%nat.

(** The block under [with smtplib.SMTP(...)] of [send_emails], for the
    locals [L]. *)
Definition batch_block (L : BatchLocals) (email_template : pystr) : M Response :=
  ehlo ;;;
  starttls ;;;
  login (l_sender_email L) (l_app_password L) ;;;
  todo <- lift (py_iter (l_recipients L)) ;;
  st <- loop_of L email_template todo (mkLoop [] 0 0) ;;
  n <- lift (py_len (l_recipients L)) ;;
  ret (JBatch (py "Email sending completed. Success: "
               ++ str_of_nat (successful_sends st)
               ++ py ", Failed: " ++ str_of_nat (failed_sends st))
              (results st)
              (mkSummary (successful_sends st) (failed_sends st) n),
       200%nat).

(** The answer of [send_emails] to an exception raised in the session:
    the handler of [smtplib.SMTPException] or, for the others, the
    outermost one. *)
Definition batch_error (e : exn) : Response :=
  (JError ((if is_SMTPException e then py "SMTP error: " else py "Unexpected error: ")
           ++ exn_str e), 500%nat).

(** The trimmed email of a recipient record ([""] when it cannot be read). *)
Definition trimmed_email (recipient : pyval) : pystr :=
  match field recipient "email" "" with
  | Ok s => s
  | Raise _ => []
  end.

(** The emails that get a [SendResult]: the non-empty trimmed ones, in
    input order. *)
Definition kept_emails (recipients : list pyval) : list pystr :=
  List.filter (fun s => negb (is_empty s)) (List.map trimmed_email recipients).

Definition has_status (status : string) (r : SendResult) : bool :=
  bool_decide (r_status r = py status).

(** Every [ESendmail] is directly followed by the pause [SEND_DELAY]. *)
Fixpoint paced (tr : list Event) : bool :=
  match tr with
  | [] => true
  | ESendmail _ _ _ :: rest =>
      match rest with
      | ESleep d :: _ => Qeq_bool d SEND_DELAY && paced rest
      | _ => false
      end
  | _ :: rest => paced rest
  end.

(** The pacing of a batch of [n] entries, on the events a run added:
    with more than one entry every send is directly followed by the pause,
    so there are at least as many pauses as sends (a pause also follows a
    message that could not be built); otherwise there is no pause. *)
Definition well_paced (n : nat) (added : list Event) : Prop :=
  ((1 < n)%nat ->
   paced added = true /\ (count is_sendmail added <= count is_sleep added)%nat)
  /\ ((n <= 1)%nat -> count is_sleep added = 0%nat).

(** An event that is neither a send nor a pause. *)
Definition is_quiet (ev : Event) : bool := negb (is_sendmail ev) && negb (is_sleep ev).

(** The recipient record has the non-blank trimmed email [to_email], and
    the template renders for it as [body]. *)
Definition renders (env : Env) (L : BatchLocals) (email_template : pystr)
    (recipient : pyval) (to_email body : pystr) : Prop :=
  field recipient "email" "" = Ok to_email
  /\ is_empty to_email = false
  /\ exists greeting,
       create_greeting recipient = Ok greeting
       /\ str_format env email_template
            (full_kwargs greeting (l_job_title L) (l_name L) (l_phone_number L)
                         (l_sender_email L)) = Ok body.

(** The recipient record can be processed by the loop: its email reads as
    a string and, when that is not blank, the template renders for it. *)
Definition renderable (env : Env) (L : BatchLocals) (email_template : pystr)
    (recipient : pyval) : Prop :=
  exists to_email,
    field recipient "email" "" = Ok to_email
    /\ (is_empty to_email = false ->
        exists body, renders env L email_template recipient to_email body).

(** The text field [key] is missing or blank: it reads, after trimming, as
    the empty string. *)
Definition blank_field (v : pyval) (key : string) : Prop :=
  field v key "" = Ok [].

(** The field [key] is missing or holds a false value. *)
Definition falsy_field (v : pyval) (key : string) (default : pyval) : Prop :=
  exists x, py_get v key default = Ok x /\ truthy x = false.

(** The text fields the batch and the single-send handlers require, and
    those the test-send handler requires. *)
Definition batch_text_keys : list string :=
  ["sender_email"; "app_password"; "job_title"; "subject"; "name"; "phone_number"]%string.

Definition test_text_keys : list string :=
  ["email"; "sender_email"; "app_password"; "job_title"; "subject"]%string.

(** The reads of the text fields of a request, in the order each handler
    makes them. *)
Definition batch_text_reads (data : pyval) : list (result pystr) :=
  List.map (fun key => field data key "") batch_text_keys.

Definition single_text_reads (data : pyval) : list (result pystr) :=
  rbind (py_get data "recipient" (VDict ∅)) (fun recipient => field recipient "email" "")
  :: batch_text_reads data.

Definition test_text_reads (data : pyval) : list (result pystr) :=
  List.map (fun key => field data key "") test_text_keys.

(** A required field of the request is missing or empty, per handler. *)
Definition batch_field_missing (data : pyval) : Prop :=
  falsy_field data "recipients" (VList [])
  \/ falsy_field data "pdf_file" (VStr (py ""))
  \/ Exists (blank_field data) batch_text_keys.

Definition single_field_missing (data : pyval) : Prop :=
  (exists recipient,
     py_get data "recipient" (VDict ∅) = Ok recipient /\ blank_field recipient "email")
  \/ falsy_field data "pdf_file" (VStr (py ""))
  \/ Exists (blank_field data) batch_text_keys.

Definition test_field_missing (data : pyval) : Prop :=
  falsy_field data "pdf_file" (VStr (py ""))
  \/ Exists (blank_field data) test_text_keys.

(** The text fields [keys] of the request are strings where present. *)
Definition text_fields_are_strings (data : pyval) (keys : list string) : Prop :=
  Forall (fun key => exists s, field data key "" = Ok s) keys.

(** The recipient of a single-send request is an object whose email is a
    string where present. *)
Definition recipient_email_is_string (data : pyval) : Prop :=
  forall recipient,
    py_get data "recipient" (VDict ∅) = Ok recipient ->
    exists s, field recipient "email" "" = Ok s.

(** The run ended in an error answer, status 400 or 500, with a body built
    by [mk], and nothing was added to the trace. *)
Definition error_without_effect (run : result Response * list Event)
    (tr : list Event) (mk : pystr -> Body) : Prop :=
  exists msg code, run = (Ok (mk msg, code), tr) /\ (code = 400 \/ code = 500)%nat.

(** The run ended in a validation error: status 400 with an error body
    built by [mk], and nothing was added to the trace. *)
Definition validation_rejects (run : result Response * list Event)
    (tr : list Event) (mk : pystr -> Body) : Prop :=
  exists msg, run = (Ok (mk msg, 400%nat), tr).

(** A body with a [success] flag and a [message]. *)
Definition reports_success_and_message (b : Body) : bool :=
  match b with
  | JSuccess _ | JBatch _ _ _ => true
  | JError _ | JFailure _ => false
  end.

Definition has_results_array (b : Body) : bool :=
  match b with
  | JBatch _ _ _ => true
  | _ => false
  end.

(** The text of the HTML part of a message. *)
Definition html_text (msg : Message) : option pystr :=
  match List.filter is_html_part (msg_parts msg) with
  | p :: _ =>
      match part_payload p with
      | PText text _ => Some text
      | _ => None
      end
  | [] => None
  end.

(** The recipient record [test_email] builds from the request. *)
Definition test_recipient (test_email : pystr) (company : pyval) : pyval :=
  VDict (<[py "company" := company]> {[ py "email" := VStr test_email ]}).

(** The message is a test-send of [data] with the template [template]:
    its HTML text is the template rendered with the two keyword arguments
    [greeting] and [job_title], and nothing else. *)
Definition test_rendering (env : Env) (data : pyval) (template : pystr)
    (msg : Message) : Prop :=
  exists test_email company job_title greeting rendered,
    field data "email" "" = Ok test_email
    /\ py_get data "company" (VStr (py "")) = Ok company
    /\ field data "job_title" "" = Ok job_title
    /\ create_greeting (test_recipient test_email company) = Ok greeting
    /\ str_format env template
         [("greeting", greeting); ("job_title", job_title)]%string = Ok rendered
    /\ html_text msg = Some rendered.

(** The two shapes of a test-send response: [{success: true, message}]
    with status 200, or [{error}] with status 400 or 500. *)
Definition test_response (r : result Response) : Prop :=
  (exists message, r = Ok (JSuccess message, 200%nat))
  \/ (exists error code, r = Ok (JError error, code) /\ (code = 400 \/ code = 500)%nat).

(** ** A concrete environment for examples *)

(** A [str.format] for templates whose only markup is [{name}]: the field
    is replaced by the keyword argument of that name, and a name that was
    not passed raises [KeyError]. *)
Fixpoint lookup_kw (name : pystr) (kwargs : list (string * pystr)) : option pystr :=
  match kwargs with
  | [] => None
  | (k, v) :: rest => if decide (py k = name) then Some v else lookup_kw name rest
  end.

Fixpoint format_fields (template : pystr) (field : option pystr)
    (kwargs : list (string * pystr)) : result pystr :=
  match template with
  | [] =>
      match field with
      | None => Ok []
      | Some _ => Raise (Exn ValueError (py "expected '}' before end of string"))
      end
  | c :: rest =>
      match field with
      | None =>
          if c =? 123 (* { *) then format_fields rest (Some []) kwargs
          else rbind (format_fields rest None kwargs) (fun out => Ok (c :: out))
      | Some name =>
          if c =? 125 (* } *) then
            match lookup_kw name kwargs with
            | Some v => rbind (format_fields rest None kwargs) (fun out => Ok (v ++ out))
            | None => Raise (Exn KeyError (py "'" ++ name ++ py "'"))
            end
          else format_fields rest (Some (name ++ [c])) kwargs
      end
  end.

Definition example_format (template : pystr) (kwargs : list (string * pystr))
  : result pystr :=
  format_fields template None kwargs.

Definition example_template : pystr :=
  py "<p>Dear {greeting},</p><p>I apply for {job_title}.</p><p>{name}, {phone_number}, {email}</p>".

(** An environment in which the template exists and the relay accepts
    everything, except the sends whose index [fails] selects. *)
Definition example_env (template : pystr) (fails : nat -> option exn) : Env :=
  mkEnv example_format
        (fun _ => py "None")
        (fun p => p)
        (fun _ _ => true)
        (fun _ => Ok template)
        (fun _ => Ok [])
        (fun _ _ => None) None None (fun _ _ => None)
        (fun n _ _ _ => fails n)
        None.

Definition str_map (kvs : list (string * string)) : gmap pystr pyval :=
  list_to_map (List.map (fun kv => (py (fst kv), VStr (py (snd kv)))) kvs).

Definition str_dict (kvs : list (string * string)) : pyval := VDict (str_map kvs).

(** A well-formed batch request, given its [recipients] value. *)
Definition example_request (recipients : pyval) : pyval :=
  match str_dict [("sender_email", "me@example.org"); ("app_password", "secret");
                  ("job_title", "Engineer"); ("subject", "Application");
                  ("pdf_file", "TWFu"); ("pdf_filename", "CV.pdf");
                  ("name", "Ada"); ("phone_number", "123")]%string with
  | VDict d => VDict (<[py "recipients" := recipients]> d)
  | v => v
  end.

(** ** Checks by enumeration, used in the Base64 proofs *)

(** The numbers below [n]. *)
Definition below (n : nat) : list N := List.map N.of_nat (seq 0 n).

(** The sextets of a three-byte group, as [b2a_groups] computes them. *)
Definition sextet0 (x : N) : N := N.shiftr x 2.
Definition sextet1 (x y : N) : N := N.lor (N.shiftl (N.land x 3) 4) (N.shiftr y 4).
Definition sextet2 (y z : N) : N := N.lor (N.shiftl (N.land y 15) 2) (N.shiftr z 6).
Definition sextet3 (z : N) : N := N.land z 63.

Definition digit_ok (v : N) : bool :=
  match table_a2b (table_b2a v) with
  | Some w => w =? v
  | None => false
  end && negb (table_b2a v =? BASE64_PAD).

Definition first_byte_ok (x y : N) : bool :=
  (sextet0 x <? 64) && (sextet1 x y <? 64)
  && (N.lor (N.shiftl (sextet0 x) 2) (N.shiftr (sextet1 x y) 4) mod 256 =? x)
  && (N.land (sextet1 x y) 15 =? N.shiftr y 4).

Definition next_bytes_ok (y z : N) : bool :=
  (sextet2 y z <? 64) && (sextet3 z <? 64)
  && (N.lor (N.shiftl (N.shiftr y 4) 4) (N.shiftr (sextet2 y z) 2) mod 256 =? y)
  && (N.land (sextet2 y z) 3 =? N.shiftr z 6)
  && (N.lor (N.shiftl (N.shiftr z 6) 6) (sextet3 z) mod 256 =? z).

Definition ascii_bytes (s : string) : bytes := list_byte_of_string s.

(** A relay that refuses the credentials. *)
Definition refusing_env (template : pystr) : Env :=
  mkEnv example_format
        (fun _ => py "None")
        (fun p => p)
        (fun _ _ => true)
        (fun _ => Ok template)
        (fun _ => Ok [])
        (fun _ _ => None) None None
        (fun _ _ => Some (Exn SMTPException (py "(535, b'bad credentials')")))
        (fun _ _ _ _ => None)
        None.

(** The locals [example_request] leaves. *)
Definition example_locals (recipients : pyval) : BatchLocals :=
  mkLocals recipients (py "me@example.org") (py "secret") (py "Engineer")
           (py "Application") (ascii_bytes "Man") (VStr (py "CV.pdf"))
           (py "Ada") (py "123").

Definition recipient_a : pyval := str_dict [("email", "a@x.org"); ("company", "Acme")]%string.
Definition recipient_b : pyval := str_dict [("email", "b@x.org")]%string.
Definition recipient_c : pyval := str_dict [("email", " c@x.org "); ("company", " ")]%string.
Definition recipient_blank : pyval := str_dict [("email", "  "); ("company", "Nowhere")]%string.


(** The second send of the session is refused. *)
Definition second_fails (n : nat) : option exn :=
  if Nat.eqb n 1 then Some (Exn SMTPException (py "(550, b'mailbox unavailable')"))
  else None.

(** A test-send request, given its [email] and its [pdf_file]. *)
Definition example_test_request (email pdf_file : string) : pyval :=
  str_dict [("email", email); ("company", "Acme"); ("sender_email", "me@example.org");
            ("app_password", "secret"); ("job_title", "Engineer");
            ("subject", "Application"); ("pdf_file", pdf_file)]%string.

(** A batch request without a subject and with [null] as name. *)
Definition example_untyped_request : pyval :=
  match str_dict [("sender_email", "me@example.org"); ("app_password", "secret");
                  ("job_title", "Engineer"); ("pdf_file", "TWFu");
                  ("phone_number", "123")]%string with
  | VDict d => VDict (<[py "name" := VNone]> (<[py "recipients" := VList [recipient_a]]> d))
  | v => v
  end.

(** A single-send request without a subject. *)
Definition example_single_request : pyval :=
  match str_dict [("sender_email", "me@example.org"); ("app_password", "secret");
                  ("job_title", "Engineer"); ("subject", " ");
                  ("pdf_file", "TWFu"); ("name", "Ada"); ("phone_number", "123")]%string with
  | VDict d => VDict (<[py "recipient" := recipient_a]> d)
  | v => v
  end.

(** ** Vocabulary of the statements about traces *)

(** The phases of a handler's dealings with the relay. *)
Inductive Phase : Set :=
| Idle | Connected | Greeted | Encrypted | Authenticated | Closed.

(** The events each phase admits: file access before the connection only,
    the connection to [SMTP_SERVER]:[SMTP_PORT] only, the three opening
    steps in order, sends and pauses after the authentication only, and
    QUIT once the connection is there. *)
Definition phase_step (ph : Phase) (ev : Event) : option Phase :=
  match ph, ev with
  | Idle, (EPathExists _ | EReadText _ | EReadBytes _) => Some Idle
  | Idle, ESMTPConnect host port =>
      if bool_decide (host = SMTP_SERVER) && (port =? SMTP_PORT)%Z
      then Some Connected else None
  | Connected, EEhlo => Some Greeted
  | Greeted, EStartTLS => Some Encrypted
  | Encrypted, ELogin _ _ => Some Authenticated
  | Authenticated, (ESendmail _ _ _ | ESleep _) => Some Authenticated
  | (Connected | Greeted | Encrypted | Authenticated), EQuit => Some Closed
  | _, _ => None
  end.

Fixpoint phase_after (ph : Phase) (tr : list Event) : option Phase :=
  match tr with
  | [] => Some ph
  | ev :: rest =>
      match phase_step ph ev with
      | Some ph' => phase_after ph' rest
      | None => None
      end
  end.

(** The trace of a whole call follows the protocol: no event is out of
    phase, and at the end the relay was never contacted, or the session is
    closed, or the connection attempt itself had failed. *)
Definition follows_protocol (env : Env) (tr : list Event) : Prop :=
  exists ph,
    phase_after Idle tr = Some ph
    /\ (ph = Idle \/ ph = Closed
        \/ (ph = Connected /\ smtp_connect env SMTP_SERVER SMTP_PORT <> None)).

(** The three steps that open a session once connected. *)
Definition opening (user password : pystr) : list Event :=
  [EEhlo; EStartTLS; ELogin user password].

(** The events of one relay session for the credentials [user] and
    [password]: the connection attempt alone when it fails; the opening
    steps up to the one that fails, then QUIT; or the whole opening, the
    [traffic] and QUIT. *)
Definition session_events (env : Env) (user password : pystr)
    (traffic s : list Event) : Prop :=
  (smtp_connect env SMTP_SERVER SMTP_PORT <> None
   /\ s = [ESMTPConnect SMTP_SERVER SMTP_PORT])
  \/ (exists k, (1 <= k <= 3)%nat
        /\ s = ESMTPConnect SMTP_SERVER SMTP_PORT
               :: firstn k (opening user password) ++ [EQuit])
  \/ s = ESMTPConnect SMTP_SERVER SMTP_PORT
         :: opening user password ++ traffic ++ [EQuit].

Definition is_traffic (ev : Event) : bool := is_sendmail ev || is_sleep ev.

(** The trace of a call for the request [data]: file events, then at most
    one relay session, opened with the trimmed credentials of the request,
    whose traffic is sends and pauses that satisfy [ok]. *)
Definition call_trace (env : Env) (data : pyval) (ok : list Event -> Prop)
    (tr : list Event) : Prop :=
  exists fs s,
    tr = fs ++ s
    /\ forallb is_file_event fs = true
    /\ (s = []
        \/ exists user password traffic,
             field data "sender_email" "" = Ok user
             /\ field data "app_password" "" = Ok password
             /\ session_events env user password traffic s
             /\ forallb is_traffic traffic = true
             /\ ok traffic).






(** The event is one the batch loop adds for the recipients [todo]: the
    pause, or the submission, from the sender of the request to the one
    trimmed address of a recipient, of the message built for it, whose
    body could be encoded. *)
Definition loop_event (env : Env) (L : BatchLocals) (email_template : pystr)
    (todo : list pyval) (ev : Event) : Prop :=
  ev = ESleep SEND_DELAY
  \/ exists recipient to_email body,
       In recipient todo
       /\ renders env L email_template recipient to_email body
       /\ encodable body = true
       /\ ev = ESendmail (l_sender_email L) [to_email]
                 (request_message env (l_sender_email L) to_email (l_subject L) body
                    (l_pdf_data L) (l_pdf_filename L)).

(** The relay session of the single-send and test-send handlers: one
    message, and [except Exception] around the [with] block. *)
Definition one_message_session
    (sender_email app_password to_email subject body : pystr)
    (pdf_data : bytes) (pdf_filename : pyval)
    (ok : Response) (failure : exn -> Response) : M Response :=
  try_except (
    with_SMTP SMTP_SERVER SMTP_PORT (
      ehlo ;;;
      starttls ;;;
      login sender_email app_password ;;;
      send_one sender_email to_email subject body None (Some pdf_data) pdf_filename ;;;
      ret ok))
    any_exception
    (fun e => ret (failure e)).

(** The exception a [with] block is left with when its body raised [e]:
    what [__exit__] raises, if it does, replaces [e]. *)
Definition closing (env : Env) (e : exn) : exn :=
  match exit_raises env with
  | Some q => q
  | None => e
  end.

(** The exception that ends the [with] block of a one-message session,
    if one does: that of the first step that raises, among the greeting,
    the encryption upgrade, the login, the building of the message and its
    submission, the relay having received [sent] messages before. *)
Definition block_raises (env : Env)
    (sender_email app_password to_email subject body : pystr)
    (pdf_data : bytes) (pdf_filename : pyval) (sent : nat) : option exn :=
  match smtp_ehlo env with
  | Some e => Some e
  | None =>
      match smtp_starttls env with
      | Some e => Some e
      | None =>
          match smtp_login env sender_email app_password with
          | Some e => Some e
          | None =>
              match utf8_encode_error body with
              | Some e => Some e
              | None =>
                  smtp_sendmail env sent sender_email [to_email]
                    (request_message env sender_email to_email subject body
                       pdf_data pdf_filename)
              end
          end
      end
  end.

(** The exception a one-message session ends with, if it does: that of
    the connection, after which there is no exit to run; otherwise what
    the exit of the session raises, if it raises; otherwise what ended
    the block. *)
Definition session_raises (env : Env)
    (sender_email app_password to_email subject body : pystr)
    (pdf_data : bytes) (pdf_filename : pyval) (sent : nat) : option exn :=
  match smtp_connect env SMTP_SERVER SMTP_PORT with
  | Some e => Some e
  | None =>
      match exit_raises env with
      | Some q => Some q
      | None =>
          block_raises env sender_email app_password to_email subject body
            pdf_data pdf_filename sent
      end
  end.

(** The request [data] passes lines 199-247 of [send_single_email] and
    leaves the locals [L], where [l_recipients L] is the one recipient
    record, whose trimmed email is [to_email]. *)
Definition reads_single (data : pyval) (L : BatchLocals) (to_email : pystr) : Prop :=
  py_get data "recipient" (VDict ∅) = Ok (l_recipients L)
  /\ field (l_recipients L) "email" "" = Ok to_email
  /\ field data "sender_email" "" = Ok (l_sender_email L)
  /\ field data "app_password" "" = Ok (l_app_password L)
  /\ field data "job_title" "" = Ok (l_job_title L)
  /\ field data "subject" "" = Ok (l_subject L)
  /\ (exists pdf_file,
        py_get data "pdf_file" (VStr (py "")) = Ok pdf_file
        /\ truthy pdf_file = true
        /\ b64decode pdf_file = Ok (l_pdf_data L))
  /\ py_get data "pdf_filename" (VStr (py "CV.pdf")) = Ok (l_pdf_filename L)
  /\ field data "name" "" = Ok (l_name L)
  /\ field data "phone_number" "" = Ok (l_phone_number L)
  /\ is_empty to_email = false
  /\ is_empty (l_sender_email L) = false
  /\ is_empty (l_app_password L) = false
  /\ is_empty (l_job_title L) = false
  /\ is_empty (l_subject L) = false
  /\ is_empty (l_name L) = false
  /\ is_empty (l_phone_number L) = false.

(** Lines 278-304 of [send_single_email] for the locals [L]. *)
Definition single_session_of (L : BatchLocals) (to_email body : pystr) : M Response :=
  one_message_session (l_sender_email L) (l_app_password L) to_email (l_subject L) body
    (l_pdf_data L) (l_pdf_filename L)
    (JSuccess (py "Email sent successfully to " ++ to_email), 200%nat)
    (fun e => (JFailure (py "Failed to send email: " ++ exn_str e), 500%nat)).

(** The locals of [test_email] once the request has been read. *)
Record TestLocals : Type := mkTest {
  t_email : pystr;
  t_sender_email : pystr;
  t_app_password : pystr;
  t_job_title : pystr;
  t_subject : pystr;
  t_pdf_data : bytes;
  t_pdf_filename : pyval
}.

(** The request [data] passes lines 315-346 of [test_email] and leaves the
    locals [T]. *)
Definition reads_test (data : pyval) (T : TestLocals) : Prop :=
  field data "email" "" = Ok (t_email T)
  /\ field data "sender_email" "" = Ok (t_sender_email T)
  /\ field data "app_password" "" = Ok (t_app_password T)
  /\ field data "job_title" "" = Ok (t_job_title T)
  /\ field data "subject" "" = Ok (t_subject T)
  /\ (exists pdf_file,
        py_get data "pdf_file" (VStr (py "")) = Ok pdf_file
        /\ truthy pdf_file = true
        /\ b64decode pdf_file = Ok (t_pdf_data T))
  /\ py_get data "pdf_filename" (VStr (py "CV.pdf")) = Ok (t_pdf_filename T)
  /\ is_empty (t_email T) = false
  /\ is_empty (t_sender_email T) = false
  /\ is_empty (t_app_password T) = false
  /\ is_empty (t_job_title T) = false
  /\ is_empty (t_subject T) = false.

(** Lines 360-362 of [test_email]: the template renders as [body] for the
    recipient record built from the request. *)
Definition test_renders (env : Env) (data : pyval) (T : TestLocals)
    (email_template body : pystr) : Prop :=
  exists company greeting,
    py_get data "company" (VStr (py "")) = Ok company
    /\ create_greeting (test_recipient (t_email T) company) = Ok greeting
    /\ str_format env email_template
         [("greeting", greeting); ("job_title", t_job_title T)]%string = Ok body.

(** Lines 364-387 of [test_email] for the locals [T]. *)
Definition test_session_of (T : TestLocals) (body : pystr) : M Response :=
  one_message_session (t_sender_email T) (t_app_password T) (t_email T) (t_subject T) body
    (t_pdf_data T) (t_pdf_filename T)
    (JSuccess (py "Test email sent successfully to " ++ t_email T), 200%nat)
    (fun e => (JError (py "Failed to send email: " ++ exn_str e), 500%nat)).

(** What the session of each handler may carry as traffic for the request
    [data] (read with an empty trace): for the batch, events of the loop
    over the recipients; for single-send and test-send, at most the one
    message rendered from the request, whose body could be encoded. *)
Definition batch_traffic (env : Env) (data : pyval) (traffic : list Event) : Prop :=
  exists L email_template,
    reads_batch data L
    /\ template_loads env [] email_template
    /\ Forall (fun ev => exists todo,
                 py_iter (l_recipients L) = Ok todo
                 /\ loop_event env L email_template todo ev) traffic.

Definition single_traffic (env : Env) (data : pyval) (traffic : list Event) : Prop :=
  exists L to_email email_template body,
    reads_single data L to_email
    /\ template_loads env [] email_template
    /\ renders env L email_template (l_recipients L) to_email body
    /\ (traffic = []
        \/ encodable body = true
           /\ traffic = [ESendmail (l_sender_email L) [to_email]
                           (request_message env (l_sender_email L) to_email (l_subject L)
                              body (l_pdf_data L) (l_pdf_filename L))]).

Definition test_traffic (env : Env) (data : pyval) (traffic : list Event) : Prop :=
  exists T email_template body,
    reads_test data T
    /\ template_loads env [] email_template
    /\ test_renders env data T email_template body
    /\ (traffic = []
        \/ encodable body = true
           /\ traffic = [ESendmail (t_sender_email T) [t_email T]
                           (request_message env (t_sender_email T) (t_email T) (t_subject T)
                              body (t_pdf_data T) (t_pdf_filename T))]).

(** A well-formed single-send request. *)
Definition example_single_ok : pyval :=
  match str_dict [("sender_email", " me@example.org "); ("app_password", "secret");
                  ("job_title", "Engineer"); ("subject", "Application");
                  ("pdf_file", "TWFu"); ("name", "Ada"); ("phone_number", "123")]%string with
  | VDict d => VDict (<[py "recipient" := recipient_a]> d)
  | v => v
  end.

(** A test-send request whose company name is a lone surrogate. *)
Definition example_test_surrogate : pyval :=
  match example_test_request "t@x.org" "TWFu" with
  | VDict d => VDict (<[py "company" := VStr [0xDC00]]> d)
  | v => v
  end.

(** A template with the two fields that every handler passes. *)
Definition short_template : pystr :=
  py "<p>Dear {greeting}, I apply for {job_title}.</p>".



(** A relay that accepts everything up to QUIT, where [quit] happens. *)
Definition quit_env (template : pystr) (quit : option exn) : Env :=
  mkEnv example_format
        (fun _ => py "None")
        (fun p => p)
        (fun _ _ => true)
        (fun _ => Ok template)
        (fun _ => Ok [])
        (fun _ _ => None) None None (fun _ _ => None)
        (fun _ _ _ _ => None)
        quit.

(** A relay that answers QUIT with a reply other than 221. *)
Definition closing_env (template : pystr) : Env :=
  quit_env template (Some (Exn SMTPException (py "(421, b'Service not available')"))).

(** A relay that has gone away by the time QUIT is sent. *)
Definition disconnecting_env (template : pystr) : Env :=
  quit_env template
    (Some (Exn SMTPServerDisconnected (py "Connection unexpectedly closed"))).

(** The two shapes of a single-send response: [{success: true, message}]
    with status 200, or [{success: false, error}] with status 400 or 500. *)
Definition single_response (r : result Response) : Prop :=
  (exists message, r = Ok (JSuccess message, 200%nat))
  \/ (exists error code, r = Ok (JFailure error, code) /\ (code = 400 \/ code = 500)%nat).

(** What is wrong with the template, if anything, for a handler that
    starts its configuration check with the trace [tr]: the text of the
    error the handler answers with, and the file events up to there.  The
    file is missing at the check of [validate_configuration], missing at
    the check of [load_email_template], or cannot be read. *)
Definition template_problem (env : Env) (tr : list Event) : option (pystr * list Event) :=
  let n := count is_path_exists tr in
  let not_found := py "Email template not found: " ++ TEMPLATE_PATH in
  if negb (path_exists env n TEMPLATE_PATH) then
    Some (py "Configuration error: " ++ not_found, [EPathExists TEMPLATE_PATH])
  else if negb (path_exists env (S n) TEMPLATE_PATH) then
    Some (py "Template loading error: " ++ not_found,
          [EPathExists TEMPLATE_PATH; EPathExists TEMPLATE_PATH])
  else
    match read_text env TEMPLATE_PATH with
    | Raise e => Some (py "Template loading error: " ++ exn_str e, template_events)
    | Ok _ => None
    end.

(** An environment without the template file. *)
Definition no_template_env : Env :=
  mkEnv example_format
        (fun _ => py "None")
        (fun p => p)
        (fun _ _ => false)
        (fun _ => Raise (Exn FileNotFoundError (py "[Errno 2] No such file or directory")))
        (fun _ => Ok [])
        (fun _ _ => None) None None (fun _ _ => None)
        (fun _ _ _ _ => None)
        None.

(** The run refused the request without effect, with status 400 or 500;
    and when the request is [complete] (its required fields are there and
    its text fields are strings), with status 400 and the text of the
    decoding error [e]. *)
Definition refused_as_undecodable (run : result Response * list Event)
    (tr : list Event) (mk : pystr -> Body) (e : exn) (complete : Prop) : Prop :=
  exists m code,
    run = (Ok (mk m, code), tr)
    /\ (code = 400 \/ code = 500)%nat
    /\ (complete -> m = py "Invalid PDF file data: " ++ exn_str e /\ code = 400%nat).

(** The characters the Base64 decoder looks at: the 64 digits and the
    padding character.  Every other character (a line break, a blank) is
    passed over. *)
Definition b64_relevant (c : N) : bool :=
  (c =? BASE64_PAD)
  || match table_a2b c with
     | Some _ => true
     | None => false
     end.

(** An environment for attachment paths: every file is there, or none is,
    as [present] says; files are empty; and the name of a path is what
    follows its five-character directory part. *)
Definition files_env (present : bool) : Env :=
  mkEnv example_format
        (fun _ => py "None")
        (fun p => skipn 5 p)
        (fun _ _ => present)
        (fun _ => Ok example_template)
        (fun _ => Ok [])
        (fun _ _ => None) None None (fun _ _ => None)
        (fun _ _ _ _ => None)
        None.

(** The two shapes of a batch response: [{success: true, message,
    results, summary}] with status 200, or [{error}] with status 400 or
    500. *)
Definition batch_response (r : result Response) : Prop :=
  (exists message results summary, r = Ok (JBatch message results summary, 200%nat))
  \/ (exists error code, r = Ok (JError error, code) /\ (code = 400 \/ code = 500)%nat).

(** * Proofs *)

(** ** Base64: decoding what was encoded *)

Lemma forallb_below (P : N -> bool) (n : nat) (x : N) :
  forallb P (below n) = true -> x < N.of_nat n -> P x = true.
Proof.
  intros H Hx. rewrite forallb_forall in H. apply H.
  unfold below. apply in_map_iff. exists (N.to_nat x).
  split; [lia|]. apply in_seq. lia.
Qed.

Lemma digit_ok_all v : v < 64 -> digit_ok v = true.
Proof. apply (forallb_below digit_ok 64). vm_compute. reflexivity. Qed.

Lemma first_byte_ok_all x y : x < 256 -> y < 256 -> first_byte_ok x y = true.
Proof.
  intros Hx Hy.
  apply (forallb_below (fun y => first_byte_ok x y) 256); [|exact Hy].
  apply (forallb_below (fun x => forallb (fun y => first_byte_ok x y) (below 256)) 256);
    [|exact Hx].
  vm_compute. reflexivity.
Qed.

Lemma next_bytes_ok_all y z : y < 256 -> z < 256 -> next_bytes_ok y z = true.
Proof.
  intros Hy Hz.
  apply (forallb_below (fun z => next_bytes_ok y z) 256); [|exact Hz].
  apply (forallb_below (fun y => forallb (fun z => next_bytes_ok y z) (below 256)) 256);
    [|exact Hy].
  vm_compute. reflexivity.
Qed.

Lemma to_N_lt (b : byte) : Byte.to_N b < 256.
Proof. pose proof (Byte.to_N_bounded b). lia. Qed.

Lemma byte_of_to_N n (b : byte) : n mod 256 = Byte.to_N b -> byte_of n = b.
Proof. intros H. unfold byte_of. rewrite H, Byte.of_to_N. reflexivity. Qed.

Lemma table_a2b_b2a v : v < 64 -> table_a2b (table_b2a v) = Some v.
Proof.
  intros H. pose proof (digit_ok_all v H) as D. unfold digit_ok in D.
  apply andb_prop in D as [D _].
  destruct (table_a2b (table_b2a v)); [|discriminate].
  apply N.eqb_eq in D. congruence.
Qed.

Lemma table_b2a_not_pad v : v < 64 -> (table_b2a v =? BASE64_PAD) = false.
Proof.
  intros H. pose proof (digit_ok_all v H) as D. unfold digit_ok in D.
  apply andb_prop in D as [_ D]. apply negb_true_iff in D. exact D.
Qed.

(** One digit of the alphabet moves the decoder one step. *)
Lemma a2b_loop_digit v rest q l p :
  v < 64 ->
  a2b_loop (table_b2a v :: rest) q l p =
  match q with
  | 0%nat => a2b_loop rest 1 v 0
  | 1%nat =>
      let '(out, q') := a2b_loop rest 2 (N.land v 0x0f) 0 in
      (byte_of (N.lor (N.shiftl l 2) (N.shiftr v 4)) :: out, q')
  | 2%nat =>
      let '(out, q') := a2b_loop rest 3 (N.land v 0x03) 0 in
      (byte_of (N.lor (N.shiftl l 4) (N.shiftr v 2)) :: out, q')
  | _ =>
      let '(out, q') := a2b_loop rest 0 0 0 in
      (byte_of (N.lor (N.shiftl l 6) v) :: out, q')
  end.
Proof.
  intros H. cbn [a2b_loop].
  rewrite (table_b2a_not_pad v H), (table_a2b_b2a v H). reflexivity.
Qed.

Lemma a2b_loop_newline rest q l p :
  a2b_loop (NEWLINE :: rest) q l p = a2b_loop rest q l p.
Proof. reflexivity. Qed.

Section GroupFacts.
Variables x y z : byte.
Let nx := Byte.to_N x.
Let ny := Byte.to_N y.
Let nz := Byte.to_N z.

Lemma group_first :
  sextet0 nx < 64 /\ sextet1 nx ny < 64
  /\ byte_of (N.lor (N.shiftl (sextet0 nx) 2) (N.shiftr (sextet1 nx ny) 4)) = x
  /\ N.land (sextet1 nx ny) 15 = N.shiftr ny 4.
Proof.
  pose proof (first_byte_ok_all nx ny (to_N_lt x) (to_N_lt y)) as H.
  unfold first_byte_ok in H.
  repeat (apply andb_prop in H as [H ?]).
  repeat split.
  - now apply N.ltb_lt.
  - now apply N.ltb_lt.
  - apply byte_of_to_N. now apply N.eqb_eq.
  - now apply N.eqb_eq.
Qed.

Lemma group_next :
  sextet2 ny nz < 64 /\ sextet3 nz < 64
  /\ byte_of (N.lor (N.shiftl (N.shiftr ny 4) 4) (N.shiftr (sextet2 ny nz) 2)) = y
  /\ N.land (sextet2 ny nz) 3 = N.shiftr nz 6
  /\ byte_of (N.lor (N.shiftl (N.shiftr nz 6) 6) (sextet3 nz)) = z.
Proof.
  pose proof (next_bytes_ok_all ny nz (to_N_lt y) (to_N_lt z)) as H.
  unfold next_bytes_ok in H.
  repeat (apply andb_prop in H as [H ?]).
  repeat split.
  - now apply N.ltb_lt.
  - now apply N.ltb_lt.
  - apply byte_of_to_N. now apply N.eqb_eq.
  - now apply N.eqb_eq.
  - apply byte_of_to_N. now apply N.eqb_eq.
Qed.
End GroupFacts.

Lemma decode_full_group (x y z : byte) (data : bytes) (rest : pystr) :
  a2b_loop (b2a_groups (x :: y :: z :: data) ++ rest) 0 0 0 =
  let '(out, q) := a2b_loop (b2a_groups data ++ rest) 0 0 0 in
  (x :: y :: z :: out, q).
Proof.
  destruct (group_first x y) as (H0 & H1 & Hx & Hl1).
  destruct (group_next y z) as (H2 & H3 & Hy & Hl2 & Hz).
  change (b2a_groups (x :: y :: z :: data) ++ rest)
    with (table_b2a (sextet0 (Byte.to_N x))
          :: table_b2a (sextet1 (Byte.to_N x) (Byte.to_N y))
          :: table_b2a (sextet2 (Byte.to_N y) (Byte.to_N z))
          :: table_b2a (sextet3 (Byte.to_N z))
          :: (b2a_groups data ++ rest)).
  rewrite (a2b_loop_digit _ _ _ _ _ H0).
  rewrite (a2b_loop_digit _ _ _ _ _ H1).
  rewrite (a2b_loop_digit _ _ _ _ _ H2).
  rewrite (a2b_loop_digit _ _ _ _ _ H3).
  rewrite Hx, Hl1, Hy, Hl2, Hz.
  destruct (a2b_loop (b2a_groups data ++ rest) 0 0 0). reflexivity.
Qed.

Lemma decode_one_byte (x : byte) (rest : pystr) :
  a2b_loop (b2a_groups [x] ++ rest) 0 0 0 = ([x], 0%nat).
Proof.
  destruct (group_first x x00) as (H0 & H1 & Hx & _).
  assert (E : sextet1 (Byte.to_N x) (Byte.to_N x00)
              = N.shiftl (N.land (Byte.to_N x) 3) 4).
  { unfold sextet1. change (N.shiftr (Byte.to_N x00) 4) with 0. apply N.lor_0_r. }
  rewrite E in H1, Hx.
  change (b2a_groups [x] ++ rest)
    with (table_b2a (sextet0 (Byte.to_N x))
          :: table_b2a (N.shiftl (N.land (Byte.to_N x) 3) 4)
          :: BASE64_PAD :: BASE64_PAD :: rest).
  rewrite (a2b_loop_digit _ _ _ _ _ H0).
  rewrite (a2b_loop_digit _ _ _ _ _ H1).
  rewrite Hx. reflexivity.
Qed.

Lemma decode_two_bytes (x y : byte) (rest : pystr) :
  a2b_loop (b2a_groups [x; y] ++ rest) 0 0 0 = ([x; y], 0%nat).
Proof.
  destruct (group_first x y) as (H0 & H1 & Hx & Hl1).
  destruct (group_next y x00) as (H2 & _ & Hy & _ & _).
  assert (E : sextet2 (Byte.to_N y) (Byte.to_N x00)
              = N.shiftl (N.land (Byte.to_N y) 15) 2).
  { unfold sextet2. change (N.shiftr (Byte.to_N x00) 6) with 0. apply N.lor_0_r. }
  rewrite E in H2, Hy.
  change (b2a_groups [x; y] ++ rest)
    with (table_b2a (sextet0 (Byte.to_N x))
          :: table_b2a (sextet1 (Byte.to_N x) (Byte.to_N y))
          :: table_b2a (N.shiftl (N.land (Byte.to_N y) 15) 2)
          :: BASE64_PAD :: rest).
  rewrite (a2b_loop_digit _ _ _ _ _ H0).
  rewrite (a2b_loop_digit _ _ _ _ _ H1).
  rewrite (a2b_loop_digit _ _ _ _ _ H2).
  rewrite Hx, Hl1, Hy. reflexivity.
Qed.

(** Induction on a list three elements at a time. *)
Lemma list_ind_by3 {A} (P : list A -> Prop) :
  P [] -> (forall a, P [a]) -> (forall a b, P [a; b]) ->
  (forall a b c l, P l -> P (a :: b :: c :: l)) ->
  forall l, P l.
Proof.
  intros H0 H1 H2 H3.
  assert (S : forall l, P l /\ (forall a, P (a :: l)) /\ (forall a b, P (a :: b :: l))).
  { induction l as [|c l (IH0 & IH1 & IH2)]; [now auto|].
    split; [apply IH1|]. split; [intros a; apply IH2|].
    intros a b. apply H3, IH0. }
  intros l. apply S.
Qed.

Lemma length_mod3_step {A} (a b c : A) (l : list A) :
  (length (a :: b :: c :: l) mod 3 = length l mod 3)%nat.
Proof.
  cbn [length]. replace (S (S (S (length l)))) with (length l + 1 * 3)%nat by lia.
  apply Nat.Div0.mod_add.
Qed.

(** The decoder on the encoding of [data] followed by [rest]: whole groups
    are decoded and the decoder goes on with [rest]; a padded last group
    ends the decoding. *)
Lemma a2b_loop_groups (data : bytes) (rest : pystr) :
  a2b_loop (b2a_groups data ++ rest) 0 0 0 =
  if (length data mod 3 =? 0)%nat
  then (let '(out, q) := a2b_loop rest 0 0 0 in (data ++ out, q))
  else (data, 0%nat).
Proof.
  induction data as [|x|x y|x y z data IH] using list_ind_by3.
  - cbn. destruct (a2b_loop rest 0 0 0). reflexivity.
  - rewrite decode_one_byte. reflexivity.
  - rewrite decode_two_bytes. reflexivity.
  - rewrite decode_full_group, IH, length_mod3_step.
    destruct (length data mod 3 =? 0)%nat; [|reflexivity].
    destruct (a2b_loop rest 0 0 0). reflexivity.
Qed.

Lemma encodebytes_short (s : bytes) :
  s <> [] -> (length s <= MAXBINSIZE)%nat -> encodebytes s = b2a_base64 s.
Proof.
  intros Hne Hlen. unfold encodebytes, MAXBINSIZE in *.
  assert (0 < length s)%nat by (destruct s; [congruence | cbn; lia]).
  replace ((length s + (57 - 1)) / 57)%nat with 1%nat.
  - cbn [seq flat_map]. rewrite app_nil_r, Nat.mul_0_r, skipn_O.
    rewrite firstn_all2 by lia. reflexivity.
  - apply (Nat.div_unique _ 57 1 (length s - 1)); lia.
Qed.

Lemma encodebytes_long (c rest : bytes) :
  length c = MAXBINSIZE ->
  encodebytes (c ++ rest) = b2a_base64 c ++ encodebytes rest.
Proof.
  intros Hc. unfold encodebytes, MAXBINSIZE in *.
  rewrite length_app, Hc.
  replace ((57 + length rest + (57 - 1)) / 57)%nat
    with (S ((length rest + (57 - 1)) / 57)).
  - cbn [seq flat_map]. f_equal.
    + rewrite Nat.mul_0_r, skipn_O.
      rewrite firstn_app, Hc, Nat.sub_diag, firstn_O, app_nil_r.
      rewrite firstn_all2 by lia. reflexivity.
    + rewrite <- seq_shift, !flat_map_concat_map, map_map. f_equal.
      apply map_ext. intros k.
      replace (57 * S k)%nat with (length c + 57 * k)%nat by lia.
      rewrite skipn_app, skipn_all2 by lia.
      replace (length c + 57 * k - length c)%nat with (57 * k)%nat by lia.
      reflexivity.
  - replace (57 + length rest + (57 - 1))%nat
      with (length rest + (57 - 1) + 1 * 57)%nat by lia.
    rewrite Nat.div_add by lia. lia.
Qed.

Lemma a2b_loop_encodebytes (n : nat) :
  forall s : bytes, (length s <= MAXBINSIZE * n)%nat ->
  a2b_loop (encodebytes s) 0 0 0 = (s, 0%nat).
Proof.
  induction n as [|n IH]; intros s Hlen.
  - destruct s; [reflexivity | cbn in Hlen; lia].
  - destruct (le_gt_dec (length s) MAXBINSIZE) as [Hs|Hs].
    + destruct s as [|b s]; [reflexivity|].
      rewrite encodebytes_short by (congruence || exact Hs).
      unfold b2a_base64. rewrite a2b_loop_groups.
      destruct (length (b :: s) mod 3 =? 0)%nat; [|reflexivity].
      cbn. rewrite app_nil_r. reflexivity.
    + rewrite <- (firstn_skipn MAXBINSIZE s) at 1.
      assert (Hc : length (firstn MAXBINSIZE s) = MAXBINSIZE)
        by (rewrite length_firstn; lia).
      rewrite encodebytes_long by exact Hc.
      unfold b2a_base64. rewrite <- app_assoc, a2b_loop_groups, Hc.
      change (MAXBINSIZE mod 3 =? 0)%nat with true. cbn match.
      cbn [app]. rewrite a2b_loop_newline, IH.
      * rewrite firstn_skipn. reflexivity.
      * rewrite length_skipn. unfold MAXBINSIZE in *. lia.
Qed.

(** [binascii.a2b_base64] inverts [base64.encodebytes]. *)
Lemma a2b_base64_encodebytes (b : bytes) : a2b_base64 (encodebytes b) = Ok b.
Proof.
  unfold a2b_base64.
  rewrite (a2b_loop_encodebytes (length b)); [reflexivity|].
  unfold MAXBINSIZE. lia.
Qed.

Lemma table_b2a_ascii v : table_b2a v < 128.
Proof.
  unfold table_b2a.
  destruct (nth_in_or_default (N.to_nat v) b64_alphabet 0) as [H|H].
  - revert H. generalize (nth (N.to_nat v) b64_alphabet 0). intros c H.
    assert (F : forallb (fun c => c <? 128) b64_alphabet = true) by (vm_compute; reflexivity).
    rewrite forallb_forall in F. apply N.ltb_lt, F, H.
  - rewrite H. lia.
Qed.

Lemma b2a_groups_ascii (data : bytes) :
  forallb (fun c => c <? 128) (b2a_groups data) = true.
Proof.
  induction data as [|x|x y|x y z data IH] using list_ind_by3.
  - reflexivity.
  - cbn [b2a_groups forallb].
    rewrite !(proj2 (N.ltb_lt _ _) (table_b2a_ascii _)). reflexivity.
  - cbn [b2a_groups forallb].
    rewrite !(proj2 (N.ltb_lt _ _) (table_b2a_ascii _)). reflexivity.
  - cbn [b2a_groups forallb app].
    rewrite !(proj2 (N.ltb_lt _ _) (table_b2a_ascii _)). exact IH.
Qed.

(** [base64.b64decode] inverts [base64.b64encode]. *)
Lemma b64decode_b64encode (b : bytes) : b64decode (VStr (b64encode b)) = Ok b.
Proof.
  unfold b64decode, b64encode. rewrite b2a_groups_ascii.
  unfold a2b_base64.
  rewrite <- (app_nil_r (b2a_groups b)), a2b_loop_groups.
  destruct (length b mod 3 =? 0)%nat; [|reflexivity].
  cbn. rewrite app_nil_r. reflexivity.
Qed.

(** ** Strings: what [strip] leaves *)

Lemma is_empty_lstrip (s : pystr) : is_empty (lstrip s) = forallb isspace s.
Proof.
  induction s as [|c s IH]; [reflexivity|].
  cbn [lstrip forallb]. destruct (isspace c); [exact IH | reflexivity].
Qed.

Lemma forallb_lstrip (s : pystr) : forallb isspace (lstrip s) = forallb isspace s.
Proof.
  induction s as [|c s IH]; [reflexivity|].
  cbn [lstrip]. destruct (isspace c) eqn:E; [|reflexivity].
  cbn [forallb]. rewrite E. exact IH.
Qed.

Lemma forallb_rev_eq {A} (f : A -> bool) (l : list A) :
  forallb f (rev l) = forallb f l.
Proof.
  induction l as [|a l IH]; [reflexivity|].
  cbn [rev forallb]. rewrite forallb_app, IH. cbn [forallb].
  rewrite andb_true_r. apply andb_comm.
Qed.

Lemma is_empty_rev (l : pystr) : is_empty (rev l) = is_empty l.
Proof.
  destruct l as [|a l]; [reflexivity|].
  cbn [rev]. destruct (rev l); reflexivity.
Qed.

(** A string is empty after trimming exactly when it is empty or made of
    white space only. *)
Lemma is_empty_strip (s : pystr) : is_empty (strip s) = forallb isspace s.
Proof.
  unfold strip, rstrip.
  rewrite is_empty_rev, is_empty_lstrip, forallb_rev_eq. apply forallb_lstrip.
Qed.

(** What [lstrip] removes is white space, and what it leaves does not
    start with white space. *)
Lemma lstrip_suffix (s : pystr) :
  exists w, s = w ++ lstrip s /\ forallb isspace w = true.
Proof.
  induction s as [|c s (w & Hw & Hs)]; [exists []; split; reflexivity|].
  cbn [lstrip]. destruct (isspace c) eqn:E.
  - exists (c :: w). cbn [app forallb]. rewrite E, Hs, <- Hw. split; reflexivity.
  - exists []. split; reflexivity.
Qed.

Lemma hd_lstrip (s : pystr) c : hd_error (lstrip s) = Some c -> isspace c = false.
Proof.
  induction s as [|x s IH]; [discriminate|].
  cbn [lstrip]. destruct (isspace x) eqn:E; [exact IH|].
  intros H. injection H as <-. exact E.
Qed.

Lemma rstrip_prefix (s : pystr) :
  exists w, s = rstrip s ++ w /\ forallb isspace w = true.
Proof.
  unfold rstrip. destruct (lstrip_suffix (rev s)) as (w & Hw & Hs).
  exists (rev w). split.
  - rewrite <- rev_app_distr, <- Hw, rev_involutive. reflexivity.
  - rewrite forallb_rev_eq. exact Hs.
Qed.

(** [strip] removes the white space at both ends, and nothing else. *)
Lemma strip_trims (s : pystr) : trims_to s (strip s).
Proof.
  unfold trims_to, strip.
  destruct (lstrip_suffix s) as (w1 & H1 & S1).
  destruct (rstrip_prefix (lstrip s)) as (w2 & H2 & S2).
  exists w1, w2. split; [rewrite <- H2; exact H1|].
  split; [exact S1|]. split; [exact S2|]. split.
  - intros c Hc. apply (hd_lstrip s).
    rewrite H2. destruct (rstrip (lstrip s)); [discriminate Hc | exact Hc].
  - intros c Hc. unfold rstrip in Hc. rewrite rev_involutive in Hc.
    exact (hd_lstrip _ _ Hc).
Qed.

(** A string can be encoded exactly when it holds no surrogate. *)
Lemma utf8_error_from_none (s : pystr) (i : nat) :
  utf8_error_from s i = None <-> encodable s = true.
Proof.
  unfold encodable. revert i. induction s as [|c s IH]; intros i; [tauto|].
  cbn [utf8_error_from forallb]. destruct (is_surrogate c); cbn [negb andb].
  - split; discriminate.
  - apply IH.
Qed.

Lemma utf8_encode_error_none (s : pystr) :
  utf8_encode_error s = None <-> encodable s = true.
Proof. apply utf8_error_from_none. Qed.

Lemma utf8_encode_error_some (s : pystr) e :
  utf8_encode_error s = Some e -> encodable s = false.
Proof.
  intros H. destruct (encodable s) eqn:E; [|reflexivity].
  apply utf8_encode_error_none in E. congruence.
Qed.

(** ** [create_greeting] *)

(** C5, as stated, fails on the records the handlers pass: a company that
    is not a string (JSON [null], say) makes [.strip()] raise. *)
Lemma create_greeting_raises_on_null_company :
  create_greeting (VDict {[ py "company" := VNone ]})
  = Raise (Exn AttributeError (py "'NoneType' object has no attribute 'strip'")).
Proof. vm_compute. reflexivity. Qed.

(** C5 (amended).  For every recipient record: when the company field is
    absent, or is a string that is empty or white space only, the greeting
    builder returns "Hiring Team"; when it is a string with other
    characters, it returns "<company> Hiring Team" where <company> is that
    string without its leading and trailing white space; when it is not a
    string, the builder raises AttributeError (no [strip]); and on a
    recipient that is not a record it raises AttributeError (no [get]).
    In particular [{"company": "Acme"}] gives "Acme Hiring Team",
    [{"company": ""}], [{"company": "   "}] and [{}] give "Hiring Team",
    and a company " Acme Corp" between a blank, a tab and a line break
    gives "Acme Corp Hiring Team". *)
Theorem create_greeting_spec :
  (forall d : gmap pystr pyval,
     match d !! py "company" with
     | None => create_greeting (VDict d) = Ok (py "Hiring Team")
     | Some (VStr s) =>
         if forallb isspace s
         then create_greeting (VDict d) = Ok (py "Hiring Team")
         else exists company,
                trims_to s company
                /\ company <> []
                /\ create_greeting (VDict d) = Ok (company ++ py " Hiring Team")
     | Some v => create_greeting (VDict d) = Raise (no_attribute v "strip")
     end)
  /\ (forall v, (forall d, v <> VDict d) ->
                create_greeting v = Raise (no_attribute v "get"))
  /\ create_greeting (str_dict [("company", "Acme")]%string) = Ok (py "Acme Hiring Team")
  /\ create_greeting (str_dict [("company", "")]%string) = Ok (py "Hiring Team")
  /\ create_greeting (str_dict [("company", "   ")]%string) = Ok (py "Hiring Team")
  /\ create_greeting (str_dict []) = Ok (py "Hiring Team")
  /\ create_greeting
       (VDict {[ py "company" := VStr ([32; 9] ++ py "Acme Corp" ++ [32; 10]) ]})
     = Ok (py "Acme Corp Hiring Team").
Proof.
  split; [|split; [|repeat split; vm_compute; reflexivity]].
  - intros d. unfold create_greeting, field, py_get.
    destruct (d !! py "company") as [v|]; [|reflexivity].
    destruct v; try reflexivity. cbn [rbind py_strip].
    rewrite is_empty_strip. destruct (forallb isspace s) eqn:E; cbn [negb]; [reflexivity|].
    exists (strip s). split; [apply strip_trims|]. split; [|reflexivity].
    intros H. assert (Hs : is_empty (strip s) = true) by (rewrite H; reflexivity).
    rewrite is_empty_strip in Hs. congruence.
  - intros v Hv. destruct v; try reflexivity. destruct (Hv d eq_refl).
Qed.

Lemma create_greeting_spec_witness :
  create_greeting (VStr (py "Acme"))
  = Raise (Exn AttributeError (py "'str' object has no attribute 'get'")).
Proof.
  apply (proj1 (proj2 create_greeting_spec) (VStr (py "Acme"))). discriminate.
Defined.

(** ** [build_message] *)

(** [build_message] with attachment bytes that are not empty. *)
Lemma build_message_bytes sender to_email subject body_text path b data filename env tr :
  build_message sender to_email subject body_text path (Some (b :: data)) filename env tr
  = match utf8_encode_error body_text with
    | Some e => (Raise e, tr)
    | None =>
        (Ok (attach (base_message sender to_email subject body_text)
                    (attachment_part (b :: data) (format_value env filename))), tr)
    end.
Proof.
  unfold build_message, MIMEText, bind, lift.
  destruct (utf8_encode_error body_text); reflexivity.
Qed.

(** [build_message] without attachment bytes and without a path. *)
Lemma build_message_plain sender to_email subject body_text data filename env tr :
  opt_truthy data = false ->
  build_message sender to_email subject body_text None data filename env tr
  = match utf8_encode_error body_text with
    | Some e => (Raise e, tr)
    | None => (Ok (base_message sender to_email subject body_text), tr)
    end.
Proof.
  intros Hd. unfold build_message, MIMEText, bind, lift.
  destruct (utf8_encode_error body_text); [reflexivity|]. rewrite Hd. reflexivity.
Qed.

Lemma redecoded_attachment_built sender to_email subject body_text data filename :
  redecoded_attachment
    (attach (base_message sender to_email subject body_text)
            (attachment_part data filename))
  = Some (a2b_base64 (encodebytes data)).
Proof. reflexivity. Qed.

(** C10.  The message builder called with the empty byte string as
    attachment data and no attachment path behaves exactly as when no
    attachment data is passed at all; whenever it constructs a message,
    that message has no attachment part: its only part is the HTML body,
    and the trace is unchanged.  It constructs a message for every HTML
    body that can be encoded as UTF-8 (on a body with a surrogate
    [MIMEText] raises UnicodeEncodeError and nothing is constructed). *)
Theorem empty_attachment_bytes_give_no_part sender to_email subject body_text filename env tr :
  build_message sender to_email subject body_text None (Some []) filename env tr
  = build_message sender to_email subject body_text None None filename env tr
  /\ (forall msg tr',
        build_message sender to_email subject body_text None (Some []) filename env tr
        = (Ok msg, tr') ->
        tr' = tr
        /\ msg_parts msg = [text_part body_text "html" "utf-8"]
        /\ List.filter is_attachment (msg_parts msg) = []
        /\ encodable body_text = true)
  /\ (encodable body_text = true ->
      exists msg,
        build_message sender to_email subject body_text None (Some []) filename env tr
        = (Ok msg, tr)).
Proof.
  rewrite !build_message_plain by reflexivity.
  split; [reflexivity|]. split.
  - intros msg tr'. destruct (utf8_encode_error body_text) eqn:E; [discriminate|].
    intros H. injection H as <- <-. repeat split.
    apply utf8_encode_error_none, E.
  - intros H. apply utf8_encode_error_none in H. rewrite H. eexists. reflexivity.
Qed.

Lemma empty_attachment_bytes_give_no_part_witness :
  exists msg,
    build_message (py "me@example.org") (py "hr@example.org") (py "Application")
      (py "<p>Hello</p>") None (Some []) (VStr (py "CV.pdf"))
      (example_env example_template (fun _ => None)) []
    = (Ok msg, [])
    /\ msg_parts msg = [text_part (py "<p>Hello</p>") "html" "utf-8"]
    /\ List.filter is_attachment (msg_parts msg) = [].
Proof.
  destruct (empty_attachment_bytes_give_no_part (py "me@example.org") (py "hr@example.org")
              (py "Application") (py "<p>Hello</p>") (VStr (py "CV.pdf"))
              (example_env example_template (fun _ => None)) [])
    as (_ & Hparts & Hbuilt).
  destruct Hbuilt as (msg & Hmsg); [reflexivity|].
  exists msg. split; [exact Hmsg|].
  destruct (Hparts msg [] Hmsg) as (_ & H1 & H2 & _). split; assumption.
Defined.

(** C6, as stated, fails in two ways.  When the attachment bytes are empty
    the message has no attachment part.  And when the HTML body holds a
    surrogate, which a JSON request can carry, no message is constructed:
    [MIMEText] raises UnicodeEncodeError. *)
Lemma empty_bytes_message_not_as_specified :
  ~ builds_specified_message (example_env example_template (fun _ => None))
      (py "me@example.org") (py "hr@example.org") (py "Application")
      (py "<p>Hello</p>") None [] (py "CV.pdf")
  /\ ~ builds_specified_message (example_env example_template (fun _ => None))
         (py "me@example.org") (py "hr@example.org") (py "Application")
         (py "<p>" ++ [0xD800] ++ py "</p>") None (ascii_bytes "%PDF-1.4") (py "CV.pdf")
  /\ build_message (py "me@example.org") (py "hr@example.org") (py "Application")
       (py "<p>" ++ [0xD800] ++ py "</p>") None (Some (ascii_bytes "%PDF-1.4"))
       (VStr (py "CV.pdf")) (example_env example_template (fun _ => None)) []
     = (Raise (Exn UnicodeEncodeError
                 (py "'utf-8' codec can't encode character '\ud800' in position 3: surrogates not allowed")),
        []).
Proof.
  split; [|split].
  - intros (msg & Hrun & _ & _ & _ & _ & part & Hpart & _).
    vm_compute in Hrun. injection Hrun as <-.
    vm_compute in Hpart. discriminate Hpart.
  - intros (msg & Hrun & _). vm_compute in Hrun. discriminate Hrun.
  - vm_compute. reflexivity.
Qed.

(** C6 (amended).  For every call to the message builder with a sender,
    a recipient, a subject, an HTML body that can be encoded as UTF-8
    (one without surrogates) and an attachment given as non-empty bytes
    plus a file name, the message has From, To and Subject equal to the
    sender, the recipient and the subject, exactly one HTML body part in
    UTF-8, and exactly one attachment part: Base64 transfer-encoded, typed
    application/octet-stream, with the header Content-Disposition:
    attachment; filename="<name>".  On a body with a surrogate the builder
    raises the UnicodeEncodeError of the encoder and leaves the trace as it
    is. *)
Theorem build_message_as_specified env sender to_email subject body_text path data filename :
  data <> [] ->
  (encodable body_text = true ->
   builds_specified_message env sender to_email subject body_text path data filename)
  /\ (forall e tr,
        utf8_encode_error body_text = Some e ->
        build_message sender to_email subject body_text path (Some data)
                      (VStr filename) env tr = (Raise e, tr)).
Proof.
  intros Hne. destruct data as [|b data]; [congruence|]. split.
  - intros Henc. apply utf8_encode_error_none in Henc.
    unfold builds_specified_message. rewrite build_message_bytes, Henc.
    eexists. split; [reflexivity|].
    unfold message_as_specified. repeat split.
    eexists. repeat split.
  - intros e tr He. rewrite build_message_bytes, He. reflexivity.
Qed.

Lemma build_message_as_specified_witness :
  builds_specified_message (example_env example_template (fun _ => None))
    (py "me@example.org") (py "hr@example.org") (py "Application")
    (py "<p>Hello</p>") None (ascii_bytes "%PDF-1.4") (py "CV.pdf").
Proof.
  apply build_message_as_specified; [vm_compute; discriminate | reflexivity].
Defined.

(** C9, as stated, fails in two ways.  For the empty byte string nothing
    is attached, so there is no attachment part to decode.  And for an
    HTML body with a surrogate no message is constructed at all. *)
Lemma attachment_round_trip_empty_fails :
  ~ attachment_round_trip (example_env example_template (fun _ => None))
      (py "me@example.org") (py "hr@example.org") (py "Application")
      (py "<p>Hello</p>") (VStr (py "CV.pdf")) []
  /\ ~ attachment_round_trip (example_env example_template (fun _ => None))
         (py "me@example.org") (py "hr@example.org") (py "Application")
         [0xDC80] (VStr (py "CV.pdf")) (ascii_bytes "%PDF-1.4").
Proof.
  split.
  - intros (pdf_data & msg & Hdec & Hrun & Hre).
    vm_compute in Hdec. injection Hdec as <-.
    vm_compute in Hrun. injection Hrun as <-.
    vm_compute in Hre. discriminate Hre.
  - intros (pdf_data & msg & Hdec & Hrun & _).
    vm_compute in Hdec. injection Hdec as <-.
    vm_compute in Hrun. discriminate Hrun.
Qed.

(** C9 (amended).  For every non-empty byte string [b] and every HTML body
    that can be encoded as UTF-8: the handler's decoding of the Base64
    payload that encodes [b] gives [b] back, the message is constructed
    from it, and decoding the Base64 transfer-encoded attachment part of
    that message reproduces [b] exactly. *)
Theorem attachment_round_trip_nonempty env sender to_email subject body_text filename b :
  b <> [] ->
  encodable body_text = true ->
  attachment_round_trip env sender to_email subject body_text filename b.
Proof.
  intros Hne Henc. apply utf8_encode_error_none in Henc.
  destruct b as [|x b]; [congruence|].
  exists (x :: b). eexists. split; [apply b64decode_b64encode|].
  split; [rewrite build_message_bytes, Henc; reflexivity|].
  rewrite redecoded_attachment_built, a2b_base64_encodebytes. reflexivity.
Qed.

Lemma attachment_round_trip_nonempty_witness :
  attachment_round_trip (example_env example_template (fun _ => None))
    (py "me@example.org") (py "hr@example.org") (py "Application")
    (py "<p>Hello</p>") (VStr (py "CV.pdf")) (ascii_bytes "%PDF-1.4").
Proof.
  apply attachment_round_trip_nonempty; [vm_compute; discriminate | reflexivity].
Defined.

(** ** Running the effects *)

Lemma count_app f (a b : list Event) : count f (a ++ b) = (count f a + count f b)%nat.
Proof. unfold count. rewrite List.filter_app, List.length_app. reflexivity. Qed.

Lemma run_bind {A B} (m : M A) (k : A -> M B) env tr :
  bind m k env tr =
  match m env tr with
  | (Ok a, tr') => k a env tr'
  | (Raise e, tr') => (Raise e, tr')
  end.
Proof. reflexivity. Qed.

Lemma run_bind_lift {A B} (r : result A) (k : A -> M B) env tr :
  bind (lift r) k env tr =
  match r with
  | Ok a => k a env tr
  | Raise e => (Raise e, tr)
  end.
Proof. destruct r; reflexivity. Qed.

Lemma run_bind_env {A B} (f : Env -> result A) (k : A -> M B) env tr :
  bind (fun env0 => lift (f env0) env0) k env tr =
  match f env with
  | Ok a => k a env tr
  | Raise e => (Raise e, tr)
  end.
Proof. rewrite run_bind. unfold lift. destruct (f env); reflexivity. Qed.

Lemma run_call ev reply env tr :
  call ev reply env tr =
  (match reply env tr with None => Ok tt | Some e => Raise e end, tr ++ [ev]).
Proof. unfold call. destruct (reply env tr); reflexivity. Qed.

Lemma run_build_message env sender to_email subject body pdf_data pdf_filename tr :
  build_message sender to_email subject body None (Some pdf_data) pdf_filename env tr
  = (match utf8_encode_error body with
     | Some e => Raise e
     | None => Ok (request_message env sender to_email subject body pdf_data pdf_filename)
     end, tr).
Proof.
  destruct pdf_data;
    [rewrite build_message_plain by reflexivity | rewrite build_message_bytes];
    destruct (utf8_encode_error body); reflexivity.
Qed.

(** One call of [send_one] as [app.py] makes it: if the message cannot be
    built the error is raised and nothing is submitted; otherwise the
    message is handed to the relay, whose reply is the outcome. *)
Lemma run_send_one env sender to_email subject body pdf_data pdf_filename tr :
  send_one sender to_email subject body None (Some pdf_data) pdf_filename env tr
  = match utf8_encode_error body with
    | Some e => (Raise e, tr)
    | None =>
        let msg := request_message env sender to_email subject body
                     pdf_data pdf_filename in
        (match smtp_sendmail env (count is_sendmail tr) sender [to_email] msg with
         | None => Ok tt
         | Some e => Raise e
         end, tr ++ [ESendmail sender [to_email] msg])
    end.
Proof.
  unfold send_one. rewrite run_bind, run_build_message.
  destruct (utf8_encode_error body); [reflexivity|].
  unfold sendmail. rewrite run_call. reflexivity.
Qed.

Lemma run_with_SMTP {A} host port (body : M A) env tr :
  with_SMTP host port body env tr =
  match smtp_connect env host port with
  | Some e => (Raise e, tr ++ [ESMTPConnect host port])
  | None =>
      let '(r, tr1) := body env (tr ++ [ESMTPConnect host port]) in
      match exit_raises env with
      | Some e => (Raise e, tr1 ++ [EQuit])
      | None => (r, tr1 ++ [EQuit])
      end
  end.
Proof.
  unfold with_SMTP, exit_raises. rewrite run_bind, run_call.
  destruct (smtp_connect env host port); [reflexivity|].
  rewrite run_bind. unfold try at 1.
  destruct (body env (tr ++ [ESMTPConnect host port])) as [r tr1].
  rewrite run_bind. unfold try. rewrite run_call.
  destruct (smtp_quit env) as [q|]; [|reflexivity].
  destruct (is_SMTPServerDisconnected q); reflexivity.
Qed.

(** The three steps after the connection, then the rest of the block. *)
Lemma run_open {A} user password (k : M A) env tr :
  (ehlo ;;; starttls ;;; login user password ;;; k) env tr =
  match smtp_ehlo env with
  | Some e => (Raise e, tr ++ [EEhlo])
  | None =>
      match smtp_starttls env with
      | Some e => (Raise e, tr ++ [EEhlo; EStartTLS])
      | None =>
          match smtp_login env user password with
          | Some e => (Raise e, tr ++ [EEhlo; EStartTLS; ELogin user password])
          | None => k env (tr ++ [EEhlo; EStartTLS; ELogin user password])
          end
      end
  end.
Proof.
  unfold ehlo, starttls, login.
  rewrite run_bind, run_call. destruct (smtp_ehlo env); [reflexivity|].
  rewrite run_bind, run_call, <- app_assoc. cbn [app].
  destruct (smtp_starttls env); [reflexivity|].
  rewrite run_bind, run_call, <- app_assoc. cbn [app].
  destruct (smtp_login env user password); reflexivity.
Qed.

(** ** The batch loop, one recipient at a time *)

(** The [try] block around [send_one], as [attempt] computes it. *)
Lemma run_attempt env sender_email to_email subject body pdf_data pdf_filename st tr :
  (let '(r, tr1) := send_one sender_email to_email subject body None (Some pdf_data)
                      pdf_filename env tr in
   (match r with
    | Ok _ => record_success st to_email
    | Raise e => record_failure st to_email e
    end, tr1))
  = attempt env sender_email to_email subject body pdf_data pdf_filename st tr.
Proof.
  rewrite run_send_one. unfold attempt.
  destruct (utf8_encode_error body); [reflexivity|]. cbv zeta.
  destruct (smtp_sendmail env _ _ _ _); reflexivity.
Qed.

(** What an attempt adds to the trace: nothing, or the one submission. *)
Lemma attempt_trace env sender_email to_email subject body pdf_data pdf_filename st tr :
  exists added,
    snd (attempt env sender_email to_email subject body pdf_data pdf_filename st tr)
    = tr ++ added
    /\ (added = [] /\ encodable body = false
        \/ added = [ESendmail sender_email [to_email]
                       (request_message env sender_email to_email subject body
                          pdf_data pdf_filename)]
           /\ encodable body = true).
Proof.
  unfold attempt. destruct (utf8_encode_error body) as [e|] eqn:E.
  - exists []. rewrite app_nil_r. split; [reflexivity|]. left.
    split; [reflexivity | exact (utf8_encode_error_some _ _ E)].
  - eexists. split; [reflexivity|]. right.
    split; [reflexivity | apply utf8_encode_error_none, E].
Qed.

(** What an attempt records: one entry for the recipient, a success or an
    error, counted once. *)
Lemma attempt_result env sender_email to_email subject body pdf_data pdf_filename st tr :
  exists r,
    let st' := fst (attempt env sender_email to_email subject body pdf_data
                      pdf_filename st tr) in
    results st' = results st ++ [r]
    /\ r_email r = to_email
    /\ (r = mkResult to_email (py "success") (py "Email sent successfully")
        /\ successful_sends st' = (successful_sends st + 1)%nat
        /\ failed_sends st' = failed_sends st
        \/ (exists e, r = mkResult to_email (py "error") (exn_str e))
           /\ successful_sends st' = successful_sends st
           /\ failed_sends st' = (failed_sends st + 1)%nat).
Proof.
  unfold attempt. destruct (utf8_encode_error body) as [e|].
  - eexists. cbn. split; [reflexivity|]. split; [reflexivity|]. right. eauto.
  - cbv zeta. destruct (smtp_sendmail env _ _ _ _) as [e|];
      eexists; cbn; (split; [reflexivity|]); (split; [reflexivity|]);
      [right; eauto | left; auto].
Qed.

Section LoopFacts.
Variables (L : BatchLocals) (email_template : pystr) (env : Env).

(** One turn of the loop, as an equation on runs. *)
Lemma send_loop_cons recipient rest st tr :
  loop_of L email_template (recipient :: rest) st env tr =
  match field recipient "email" "" with
  | Raise e => (Raise e, tr)
  | Ok to_email =>
      if is_empty to_email then loop_of L email_template rest st env tr
      else
        match create_greeting recipient with
        | Raise e => (Raise e, tr)
        | Ok greeting =>
            match str_format env email_template
                    (full_kwargs greeting (l_job_title L) (l_name L)
                                 (l_phone_number L) (l_sender_email L)) with
            | Raise e => (Raise e, tr)
            | Ok body =>
                let '(st', tr1) :=
                  attempt env (l_sender_email L) to_email (l_subject L) body
                          (l_pdf_data L) (l_pdf_filename L) st tr in
                match py_len (l_recipients L) with
                | Raise e => (Raise e, tr1)
                | Ok n =>
                    loop_of L email_template rest st' env (tr1 ++ pause_after_send n)
                end
            end
        end
  end.
Proof.
  unfold loop_of. cbn [send_loop]. unfold get_strip.
  rewrite (run_bind_lift (field recipient "email" "")).
  destruct (field recipient "email" "") as [to_email|e]; [|reflexivity].
  destruct (is_empty to_email); cbv iota; [reflexivity|].
  rewrite (run_bind_lift (create_greeting recipient)).
  destruct (create_greeting recipient) as [greeting|e]; [|reflexivity].
  rewrite run_bind. unfold lift at 1. fold (full_kwargs greeting (l_job_title L) (l_name L)
                                 (l_phone_number L) (l_sender_email L)).
  destruct (str_format env email_template _) as [body|e]; [|reflexivity].
  rewrite run_bind. unfold try at 1.
  rewrite <- (run_attempt env (l_sender_email L) to_email (l_subject L) body
                (l_pdf_data L) (l_pdf_filename L) st tr).
  destruct (send_one _ _ _ _ _ _ _ env tr) as [r tr1].
  rewrite (run_bind_lift (py_len (l_recipients L))).
  destruct (py_len (l_recipients L)) as [n|e].
  - rewrite run_bind. unfold pause_after_send.
    destruct (1 <? n)%nat.
    + unfold sleep. rewrite run_call. destruct r; reflexivity.
    + unfold ret at 1. rewrite app_nil_r. destruct r; reflexivity.
  - destruct r; reflexivity.
Qed.

(** A recipient whose email is blank is passed over: no event, no
    change of state. *)
Lemma send_loop_skip recipient rest st tr :
  field recipient "email" "" = Ok [] ->
  loop_of L email_template (recipient :: rest) st env tr
  = loop_of L email_template rest st env tr.
Proof. intros H. rewrite send_loop_cons, H. reflexivity. Qed.

(** A recipient with an email, once rendered, is attempted; the loop goes
    on with the next recipient whatever the attempt gives. *)
Lemma send_loop_submit recipient rest st tr to_email body n :
  renders env L email_template recipient to_email body ->
  py_len (l_recipients L) = Ok n ->
  let a := attempt env (l_sender_email L) to_email (l_subject L) body
                   (l_pdf_data L) (l_pdf_filename L) st tr in
  loop_of L email_template (recipient :: rest) st env tr
  = loop_of L email_template rest (fst a) env (snd a ++ pause_after_send n).
Proof.
  intros (He & Hne & greeting & Hg & Hb) Hn a.
  rewrite send_loop_cons, He, Hne, Hg, Hb. fold a. destruct a as [st' tr1].
  rewrite Hn. reflexivity.
Qed.

(** What a loop that completes has recorded. *)
Lemma send_loop_results todo :
  forall st tr st' tr',
    loop_of L email_template todo st env tr = (Ok st', tr') ->
    exists rs,
      results st' = results st ++ rs
      /\ List.map r_email rs = kept_emails todo
      /\ Forall (fun r => exists s, field r "email" "" = Ok s) todo
      /\ successful_sends st'
         = (successful_sends st + length (List.filter (has_status "success") rs))%nat
      /\ failed_sends st'
         = (failed_sends st + length (List.filter (has_status "error") rs))%nat
      /\ (successful_sends st' + failed_sends st'
          = successful_sends st + failed_sends st + length rs)%nat.
Proof.
  induction todo as [|recipient rest IH]; intros st tr st' tr' H.
  - injection H as <- <-. exists []. rewrite app_nil_r.
    repeat split; try constructor; cbn; lia.
  - rewrite send_loop_cons in H.
    unfold kept_emails, trimmed_email. cbn [List.map List.filter].
    destruct (field recipient "email" "") as [to_email|e] eqn:He; [|discriminate].
    fold (trimmed_email) (kept_emails rest).
    destruct (is_empty to_email) eqn:Hempty; cbn [negb].
    + destruct (IH _ _ _ _ H) as (rs & H1 & H2 & H3 & H4 & H5 & H6).
      exists rs. repeat split; try assumption. constructor; eauto.
    + destruct (create_greeting recipient) as [greeting|e]; [|discriminate].
      destruct (str_format env email_template _) as [body|e]; [|discriminate].
      destruct (attempt_result env (l_sender_email L) to_email (l_subject L) body
                  (l_pdf_data L) (l_pdf_filename L) st tr) as (r & Hr).
      cbv zeta in Hr. destruct Hr as (R1 & R2 & R3).
      destruct (attempt env _ _ _ _ _ _ st tr) as [st1 tr1]. cbn [fst] in R1, R3.
      destruct (py_len (l_recipients L)) as [n|e]; [|discriminate].
      destruct (IH _ _ _ _ H) as (rs & H1 & H2 & H3 & H4 & H5 & H6).
      exists (r :: rs). rewrite H1, R1, <- app_assoc.
      cbn [app List.map List.filter length]. rewrite H2, R2.
      split; [reflexivity|]. split; [reflexivity|].
      split; [constructor; eauto|].
      destruct R3 as [(-> & S1 & F1) | ((e & ->) & S1 & F1)].
      * vm_compute (has_status "success" _). vm_compute (has_status "error" _).
        cbn [length]. rewrite H4, H5 in H6 |- *. rewrite S1, F1 in H6 |- *.
        repeat split; lia.
      * vm_compute (has_status "success" _). vm_compute (has_status "error" _).
        cbn [length]. rewrite H4, H5 in H6 |- *. rewrite S1, F1 in H6 |- *.
        repeat split; lia.
Qed.

(** What the loop adds to the trace: sends, each directly followed by
    the pause when the batch has more than one entry, and never a pause
    otherwise. *)
Lemma send_loop_trace n todo :
  py_len (l_recipients L) = Ok n ->
  forall st tr,
  exists added,
    snd (loop_of L email_template todo st env tr) = tr ++ added
    /\ well_paced n added.
Proof.
  intros Hn. unfold well_paced.
  induction todo as [|recipient rest IH]; intros st tr.
  - exists []. rewrite app_nil_r. repeat split. cbn. lia.
  - rewrite send_loop_cons, Hn.
    assert (Stop : exists added : list Event,
               tr = tr ++ added
               /\ ((1 < n)%nat ->
                   paced added = true
                   /\ (count is_sendmail added <= count is_sleep added)%nat)
               /\ ((n <= 1)%nat -> count is_sleep added = 0%nat)).
    { exists []. rewrite app_nil_r. repeat split. cbn. lia. }
    destruct (field recipient "email" "") as [to_email|e]; [|exact Stop].
    destruct (is_empty to_email); [apply IH|].
    destruct (create_greeting recipient) as [greeting|e]; [|exact Stop].
    destruct (str_format env email_template _) as [body|e]; [|exact Stop].
    destruct (attempt_trace env (l_sender_email L) to_email (l_subject L) body
                (l_pdf_data L) (l_pdf_filename L) st tr) as (sent & Hsent & Hshape).
    destruct (attempt env _ _ _ _ _ _ st tr) as [st1 tr1]. cbn [snd] in Hsent. subst tr1.
    destruct (IH st1 ((tr ++ sent) ++ pause_after_send n)) as (added & Hadd & Hpaced & Hnone).
    rewrite Hadd. exists (sent ++ pause_after_send n ++ added).
    split; [rewrite <- !app_assoc; reflexivity|].
    unfold pause_after_send in *.
    destruct (1 <? n)%nat eqn:Hlt.
    + apply Nat.ltb_lt in Hlt. split; [|lia]. intros _.
      destruct (Hpaced Hlt) as [Hp Hc].
      destruct Hshape as [(-> & _) | (-> & _)]; cbn [app paced]; rewrite Hp.
      * split; [reflexivity|].
        change (ESleep SEND_DELAY :: added) with ([ESleep SEND_DELAY] ++ added).
        rewrite !count_app. cbn. lia.
      * split; [reflexivity|].
        change (ESendmail ?a ?b ?c :: ESleep SEND_DELAY :: added)
          with ([ESendmail a b c; ESleep SEND_DELAY] ++ added).
        rewrite !count_app. cbn. lia.
    + apply Nat.ltb_ge in Hlt. split; [lia|]. intros _.
      rewrite !count_app, (Hnone Hlt).
      destruct Hshape as [(-> & _) | (-> & _)]; reflexivity.
Qed.

(** A loop that completes in a batch of more than one entry has paused
    once for every entry it has recorded. *)
Lemma send_loop_pauses n todo :
  py_len (l_recipients L) = Ok n ->
  (1 < n)%nat ->
  forall st tr st' tr',
    loop_of L email_template todo st env tr = (Ok st', tr') ->
    exists added rs,
      tr' = tr ++ added
      /\ results st' = results st ++ rs
      /\ count is_sleep added = length rs.
Proof.
  intros Hn Hlt. induction todo as [|recipient rest IH]; intros st tr st' tr' H.
  - injection H as <- <-. exists [], []. rewrite !app_nil_r. repeat split.
  - rewrite send_loop_cons, Hn in H.
    destruct (field recipient "email" "") as [to_email|e]; [|discriminate].
    destruct (is_empty to_email); [exact (IH _ _ _ _ H)|].
    destruct (create_greeting recipient) as [greeting|e]; [|discriminate].
    destruct (str_format env email_template _) as [body|e]; [|discriminate].
    destruct (attempt_trace env (l_sender_email L) to_email (l_subject L) body
                (l_pdf_data L) (l_pdf_filename L) st tr) as (sent & Hsent & Hshape).
    destruct (attempt_result env (l_sender_email L) to_email (l_subject L) body
                (l_pdf_data L) (l_pdf_filename L) st tr) as (r & Hr).
    cbv zeta in Hr. destruct Hr as (R1 & _).
    destruct (attempt env _ _ _ _ _ _ st tr) as [st1 tr1].
    cbn [fst] in R1. cbn [snd] in Hsent. subst tr1.
    destruct (IH _ _ _ _ H) as (added & rs & -> & Hres & Hcount).
    exists (sent ++ pause_after_send n ++ added), (r :: rs).
    split; [rewrite <- !app_assoc; reflexivity|].
    split; [rewrite Hres, R1, <- app_assoc; reflexivity|].
    rewrite !count_app, Hcount. unfold pause_after_send.
    apply Nat.ltb_lt in Hlt. rewrite Hlt.
    destruct Hshape as [(-> & _) | (-> & _)]; reflexivity.
Qed.
End LoopFacts.

(** ** The handlers up to the relay session *)

Lemma run_validate_configuration env tr :
  try (validate_configuration false) env tr =
  (Ok (if path_exists env (count is_path_exists tr) TEMPLATE_PATH then Ok tt
       else Raise (Exn FileNotFoundError
                     (py "Email template not found: " ++ TEMPLATE_PATH))),
   tr ++ [EPathExists TEMPLATE_PATH]).
Proof.
  unfold try, validate_configuration. cbn [andb]. rewrite run_bind.
  unfold exists_ at 1. destruct (path_exists env _ _); reflexivity.
Qed.

Lemma run_load_email_template env tr :
  try (load_email_template TEMPLATE_PATH) env tr =
  if path_exists env (count is_path_exists tr) TEMPLATE_PATH
  then (Ok (read_text env TEMPLATE_PATH),
        tr ++ [EPathExists TEMPLATE_PATH; EReadText TEMPLATE_PATH])
  else (Ok (Raise (Exn FileNotFoundError
                     (py "Email template not found: " ++ TEMPLATE_PATH))),
        tr ++ [EPathExists TEMPLATE_PATH]).
Proof.
  unfold try, load_email_template. rewrite run_bind.
  unfold exists_ at 1. destruct (path_exists env _ _); cbn [negb].
  - unfold file_read_text. rewrite <- app_assoc. reflexivity.
  - reflexivity.
Qed.

Lemma file_events_no_send fs :
  forallb is_file_event fs = true ->
  count is_sendmail fs = 0%nat /\ count is_sleep fs = 0%nat /\ paced fs = true.
Proof.
  induction fs as [|ev fs IH]; [repeat split|].
  cbn [forallb]. intros [Hev Hfs]%andb_prop. destruct (IH Hfs) as (H1 & H2 & H3).
  destruct ev; try discriminate Hev; repeat split; assumption.
Qed.

(** Running the first step of a handler: a pure read of the request. *)
Ltac lift_step :=
  match goal with
  | |- context [bind (get_strip ?v ?key ?d) ?k ?env ?tr] =>
      unfold get_strip at 1; rewrite (run_bind_lift (field v key d) k env tr)
  | |- context [bind (lift ?r) ?k ?env ?tr] =>
      rewrite (run_bind_lift r k env tr)
  end.

(** The configuration check and the template load of a handler. *)
Ltac config_step :=
  rewrite run_bind, run_validate_configuration; cbv beta iota.

Ltac template_step :=
  rewrite run_bind, run_load_email_template; cbv beta iota.

(** A request that passes the checks, with the template in place, reaches
    the relay session with the locals read from it. *)
Lemma send_emails_valid data L email_template env tr :
  reads_batch data L ->
  template_loads env tr email_template ->
  send_emails data env tr
  = unexpected (batch_session_of L email_template) env (tr ++ template_events).
Proof.
  intros (H1 & H2 & H3 & H4 & H5 & (pdf & H6 & H6t & H6d) & H7 & H8 & H9 & T1 & T2 & T3 & T4
          & T5 & T6 & T7) (E1 & E2 & E3).
  unfold send_emails, unexpected, try_except.
  lift_step. rewrite H1. lift_step. rewrite H2. lift_step. rewrite H3.
  lift_step. rewrite H4. lift_step. rewrite H5. lift_step. rewrite H6.
  lift_step. rewrite H7. lift_step. rewrite H8. lift_step. rewrite H9.
  rewrite T1, T2, T3, T4, T5, H6t, T6, T7, H6d. cbn [negb].
  config_step. rewrite E1. template_step.
  rewrite count_app, Nat.add_1_r, E2, E3. cbv beta iota.
  rewrite <- app_assoc. reflexivity.
Qed.

Ltac stopped_here :=
  unfold stops_early; cbv beta iota; unfold any_exception, ret; cbv beta iota;
  do 3 eexists; split; [reflexivity|];
  split;
  [ first [ exists []; split; [symmetry; apply app_nil_r | reflexivity]
          | eexists; split; [rewrite <- ?app_assoc; reflexivity | reflexivity] ]
  | auto ].

Ltac stopped := left; stopped_here.

(** Every run of [send_emails] either stops before the relay with an error
    body, or has read its locals and loaded the template. *)
Lemma send_emails_cases data env tr :
  stops_early (send_emails data env tr) tr JError
  \/ exists L email_template,
       reads_batch data L /\ template_loads env tr email_template.
Proof.
  unfold stops_early, send_emails, try_except.
  lift_step. destruct (py_get data "recipients" (VList [])) as [recipients|e] eqn:H1; [|stopped].
  lift_step. destruct (field data "sender_email" "") as [sender_email|e] eqn:H2; [|stopped].
  lift_step. destruct (field data "app_password" "") as [app_password|e] eqn:H3; [|stopped].
  lift_step. destruct (field data "job_title" "") as [job_title|e] eqn:H4; [|stopped].
  lift_step. destruct (field data "subject" "") as [subject|e] eqn:H5; [|stopped].
  lift_step. destruct (py_get data "pdf_file" (VStr (py ""))) as [pdf_file|e] eqn:H6; [|stopped].
  lift_step. destruct (py_get data "pdf_filename" (VStr (py "CV.pdf"))) as [pdf_filename|e] eqn:H7;
    [|stopped].
  lift_step. destruct (field data "name" "") as [name|e] eqn:H8; [|stopped].
  lift_step. destruct (field data "phone_number" "") as [phone_number|e] eqn:H9; [|stopped].
  destruct (truthy recipients) eqn:T1; cbn [negb]; [|stopped].
  destruct (is_empty sender_email) eqn:T2; [stopped|].
  destruct (is_empty app_password) eqn:T3; [stopped|].
  destruct (is_empty job_title) eqn:T4; [stopped|].
  destruct (is_empty subject) eqn:T5; [stopped|].
  destruct (truthy pdf_file) eqn:T6; cbn [negb]; [|stopped].
  destruct (is_empty name) eqn:T7; [stopped|].
  destruct (is_empty phone_number) eqn:T8; [stopped|].
  destruct (b64decode pdf_file) as [pdf_data|e] eqn:D; [|stopped].
  config_step.
  destruct (path_exists env (count is_path_exists tr) TEMPLATE_PATH) eqn:E1; [|stopped].
  template_step. rewrite count_app, Nat.add_1_r.
  destruct (path_exists env (S (count is_path_exists tr)) TEMPLATE_PATH) eqn:E2; [|stopped].
  destruct (read_text env TEMPLATE_PATH) as [email_template|e] eqn:E3; [|stopped].
  right.
  exists (mkLocals recipients sender_email app_password job_title subject
                   pdf_data pdf_filename name phone_number), email_template.
  unfold reads_batch, template_loads. cbn.
  repeat split; try assumption. exists pdf_file. repeat split; assumption.
Qed.

(** ** The relay session of a batch *)

Lemma run_batch_block L email_template env tr :
  batch_block L email_template env tr =
  match smtp_ehlo env with
  | Some e => (Raise e, tr ++ [EEhlo])
  | None =>
      match smtp_starttls env with
      | Some e => (Raise e, tr ++ [EEhlo; EStartTLS])
      | None =>
          let tr3 := tr ++ [EEhlo; EStartTLS;
                            ELogin (l_sender_email L) (l_app_password L)] in
          match smtp_login env (l_sender_email L) (l_app_password L) with
          | Some e => (Raise e, tr3)
          | None =>
              match py_iter (l_recipients L) with
              | Raise e => (Raise e, tr3)
              | Ok todo =>
                  let '(r, tr4) :=
                    loop_of L email_template todo (mkLoop [] 0 0) env tr3 in
                  match r with
                  | Raise e => (Raise e, tr4)
                  | Ok st =>
                      match py_len (l_recipients L) with
                      | Raise e => (Raise e, tr4)
                      | Ok n =>
                          (Ok (JBatch (py "Email sending completed. Success: "
                                       ++ str_of_nat (successful_sends st)
                                       ++ py ", Failed: "
                                       ++ str_of_nat (failed_sends st))
                                      (results st)
                                      (mkSummary (successful_sends st)
                                                 (failed_sends st) n),
                               200%nat), tr4)
                      end
                  end
              end
          end
      end
  end.
Proof.
  unfold batch_block. rewrite run_open.
  destruct (smtp_ehlo env); [reflexivity|].
  destruct (smtp_starttls env); [reflexivity|].
  destruct (smtp_login env _ _); [reflexivity|]. cbv zeta.
  rewrite (run_bind_lift (py_iter (l_recipients L))).
  destruct (py_iter (l_recipients L)) as [todo|e]; [|reflexivity].
  rewrite run_bind.
  destruct (loop_of L email_template todo _ env _) as [[st|e] tr4]; [|reflexivity].
  rewrite (run_bind_lift (py_len (l_recipients L))).
  destruct (py_len (l_recipients L)); reflexivity.
Qed.

Lemma run_batch_session L email_template env tr :
  unexpected (batch_session_of L email_template) env tr =
  let tr0 := tr ++ [ESMTPConnect SMTP_SERVER SMTP_PORT] in
  match smtp_connect env SMTP_SERVER SMTP_PORT with
  | Some e => (Ok (batch_error e), tr0)
  | None =>
      let '(r, tr1) := batch_block L email_template env tr0 in
      match exit_raises env with
      | Some e => (Ok (batch_error e), tr1 ++ [EQuit])
      | None =>
          match r with
          | Ok response => (Ok response, tr1 ++ [EQuit])
          | Raise e => (Ok (batch_error e), tr1 ++ [EQuit])
          end
      end
  end.
Proof.
  unfold unexpected, batch_session_of, send_emails_session.
  match goal with
  | |- context [with_SMTP SMTP_SERVER SMTP_PORT ?body] =>
      change body with (batch_block L email_template)
  end.
  unfold try_except. rewrite run_with_SMTP. unfold batch_error, any_exception, ret.
  destruct (smtp_connect env SMTP_SERVER SMTP_PORT) as [e|].
  - destruct (is_SMTPException e); reflexivity.
  - cbv zeta. destruct (batch_block L email_template env _) as [r tr1].
    destruct (exit_raises env) as [e|].
    + destruct (is_SMTPException e); reflexivity.
    + destruct r as [response|e]; [reflexivity|].
      destruct (is_SMTPException e); reflexivity.
Qed.

(** ** Pacing of traces *)

Lemma paced_app (a b : list Event) :
  paced a = true -> paced b = true -> paced (a ++ b) = true.
Proof.
  induction a as [|ev a IH]; intros Ha Hb; [exact Hb|].
  destruct ev; cbn [app paced] in *; try (apply IH; assumption).
  destruct a as [|x a]; [discriminate|].
  destruct x; try discriminate. cbn [app].
  apply andb_prop in Ha as [Hd Ha]. rewrite Hd. cbn [andb].
  apply IH; assumption.
Qed.

Lemma well_paced_app n (a b : list Event) :
  well_paced n a -> well_paced n b -> well_paced n (a ++ b).
Proof.
  intros [Ha1 Ha2] [Hb1 Hb2]. split.
  - intros Hn. destruct (Ha1 Hn) as [Pa Ca], (Hb1 Hn) as [Pb Cb].
    split; [apply paced_app; assumption|]. rewrite !count_app. lia.
  - intros Hn. rewrite count_app, (Ha2 Hn), (Hb2 Hn). reflexivity.
Qed.

Lemma quiet_paced (a : list Event) :
  forallb is_quiet a = true ->
  paced a = true /\ count is_sleep a = 0%nat /\ count is_sendmail a = 0%nat.
Proof.
  induction a as [|ev a IH]; [repeat split|].
  cbn [forallb]. intros [Hev Ha]%andb_prop. destruct (IH Ha) as (H1 & H2 & H3).
  destruct ev; try discriminate Hev; repeat split; assumption.
Qed.

Lemma well_paced_quiet n (a : list Event) : forallb is_quiet a = true -> well_paced n a.
Proof.
  intros H. destruct (quiet_paced a H) as (H1 & H2 & H3).
  split; intros _; [split; [assumption | rewrite H2, H3; lia] | assumption].
Qed.

Lemma file_events_quiet fs : forallb is_file_event fs = true -> forallb is_quiet fs = true.
Proof.
  induction fs as [|ev fs IH]; [reflexivity|].
  cbn [forallb]. intros [Hev Hfs]%andb_prop. rewrite (IH Hfs), andb_true_r.
  destruct ev; try discriminate Hev; reflexivity.
Qed.

(** The events a batch session adds are well paced. *)
Lemma batch_session_trace L email_template env tr n :
  py_len (l_recipients L) = Ok n ->
  exists added,
    snd (unexpected (batch_session_of L email_template) env tr) = tr ++ added
    /\ well_paced n added.
Proof.
  intros Hn. rewrite run_batch_session. cbv zeta.
  destruct (smtp_connect env SMTP_SERVER SMTP_PORT) as [e|].
  { eexists. split; [reflexivity|]. apply well_paced_quiet. reflexivity. }
  assert (B : exists added,
             snd (batch_block L email_template env
                    (tr ++ [ESMTPConnect SMTP_SERVER SMTP_PORT]))
             = (tr ++ [ESMTPConnect SMTP_SERVER SMTP_PORT]) ++ added
             /\ well_paced n added).
  { rewrite run_batch_block.
    destruct (smtp_ehlo env);
      [eexists; split; [reflexivity | apply well_paced_quiet; reflexivity]|].
    destruct (smtp_starttls env);
      [eexists; split; [reflexivity | apply well_paced_quiet; reflexivity]|].
    cbv zeta.
    destruct (smtp_login env _ _);
      [eexists; split; [reflexivity | apply well_paced_quiet; reflexivity]|].
    destruct (py_iter (l_recipients L)) as [todo|e];
      [|eexists; split; [reflexivity | apply well_paced_quiet; reflexivity]].
    match goal with
    | |- context [loop_of L email_template todo ?s env ?t] =>
        destruct (send_loop_trace L email_template env n todo Hn s t)
          as (added & Hadd & Hp);
        destruct (loop_of L email_template todo s env t) as [r tr4]
    end.
    cbn [snd] in Hadd. subst tr4.
    exists ([EEhlo; EStartTLS; ELogin (l_sender_email L) (l_app_password L)] ++ added).
    split.
    - rewrite Hn. destruct r; cbn [snd]; rewrite <- !app_assoc; reflexivity.
    - apply well_paced_app; [apply well_paced_quiet; reflexivity | exact Hp]. }
  destruct B as (added & Hadd & Hp).
  destruct (batch_block L email_template env _) as [r tr1]. cbn [snd] in Hadd. subst tr1.
  exists (([ESMTPConnect SMTP_SERVER SMTP_PORT] ++ added) ++ [EQuit]).
  split.
  - destruct (exit_raises env); [|destruct r]; cbn [snd]; rewrite <- !app_assoc; reflexivity.
  - apply well_paced_app; [apply well_paced_app|];
      try (apply well_paced_quiet; reflexivity). exact Hp.
Qed.

(** ** Claims on the batch handler *)

Lemma reads_batch_recipients data L v :
  reads_batch data L ->
  py_get data "recipients" (VList []) = Ok v -> l_recipients L = v.
Proof. intros (H & _) Hv. congruence. Qed.

Lemma batch_session_open_fails L email_template env tr :
  (smtp_connect env SMTP_SERVER SMTP_PORT <> None
   \/ smtp_ehlo env <> None
   \/ smtp_starttls env <> None
   \/ smtp_login env (l_sender_email L) (l_app_password L) <> None) ->
  exists e added,
    unexpected (batch_session_of L email_template) env tr
    = (Ok (batch_error e), tr ++ ESMTPConnect SMTP_SERVER SMTP_PORT :: added)
    /\ count is_sendmail added = 0%nat.
Proof.
  intros H. rewrite run_batch_session. cbv zeta.
  destruct (smtp_connect env SMTP_SERVER SMTP_PORT) as [e|] eqn:Hc.
  { exists e, []. split; reflexivity. }
  rewrite run_batch_block. cbv zeta.
  destruct (smtp_ehlo env) as [e|] eqn:He.
  { destruct (exit_raises env) as [q|]; do 2 eexists;
      (split; [rewrite <- !app_assoc; reflexivity | reflexivity]). }
  destruct (smtp_starttls env) as [e|] eqn:Hs.
  { destruct (exit_raises env) as [q|]; do 2 eexists;
      (split; [rewrite <- !app_assoc; reflexivity | reflexivity]). }
  destruct (smtp_login env _ _) as [e|] eqn:Hlog.
  { destruct (exit_raises env) as [q|]; do 2 eexists;
      (split; [rewrite <- !app_assoc; reflexivity | reflexivity]). }
  exfalso. destruct H as [H|[H|[H|H]]]; congruence.
Qed.

(** C3.  If opening the relay session fails at any of its steps (connect,
    greeting, encryption upgrade or authentication), the batch handler
    answers with a single error body, which carries no results, and no
    message is submitted.  For a request that had passed validation the
    error is the one of the exception that ended the session, with status
    500, and the trace shows the connection attempt. *)
Theorem relay_open_failure_fails_batch :
  (forall data env tr,
     session_open_fails env data ->
     exists msg code added,
       send_emails data env tr = (Ok (JError msg, code), tr ++ added)
       /\ count is_sendmail added = 0%nat)
  /\ (forall data L email_template env tr,
        reads_batch data L ->
        template_loads env tr email_template ->
        session_open_fails env data ->
        exists e added,
          send_emails data env tr
          = (Ok (batch_error e),
             (tr ++ template_events) ++ ESMTPConnect SMTP_SERVER SMTP_PORT :: added)
          /\ count is_sendmail added = 0%nat).
Proof.
  assert (Valid : forall data L email_template env tr,
             reads_batch data L ->
             template_loads env tr email_template ->
             session_open_fails env data ->
             exists e added,
               send_emails data env tr
               = (Ok (batch_error e),
                  (tr ++ template_events) ++ ESMTPConnect SMTP_SERVER SMTP_PORT :: added)
               /\ count is_sendmail added = 0%nat).
  { intros data L tpl env tr HL HT Hfail.
    rewrite (send_emails_valid data L tpl env tr HL HT).
    apply batch_session_open_fails.
    destruct Hfail as [H|[H|[H|H]]]; auto.
    do 3 right. destruct HL as (_ & H2 & H3 & _). apply H; assumption. }
  split; [|exact Valid].
  intros data env tr Hfail.
  destruct (send_emails_cases data env tr)
    as [(msg & code & tr' & Hrun & (fs & -> & Hfs) & _) | (L & tpl & HL & HT)].
  - exists msg, code, fs. split; [exact Hrun|].
    apply (file_events_no_send fs Hfs).
  - destruct (Valid data L tpl env tr HL HT Hfail) as (e & added & Hrun & Hcount).
    eexists _, _, (template_events ++ ESMTPConnect SMTP_SERVER SMTP_PORT :: added).
    split; [rewrite Hrun, <- app_assoc; reflexivity|].
    change (ESMTPConnect SMTP_SERVER SMTP_PORT :: added)
      with ([ESMTPConnect SMTP_SERVER SMTP_PORT] ++ added).
    rewrite !count_app, Hcount. reflexivity.
Qed.

Lemma batch_session_accepted L email_template env tr m rs sm code tr' :
  unexpected (batch_session_of L email_template) env tr
  = (Ok (JBatch m rs sm, code), tr') ->
  exists todo st tr3 tr4 n,
    session_opens env (l_sender_email L) (l_app_password L)
    /\ py_iter (l_recipients L) = Ok todo
    /\ loop_of L email_template todo (mkLoop [] 0 0) env tr3 = (Ok st, tr4)
    /\ py_len (l_recipients L) = Ok n
    /\ rs = results st
    /\ sm = mkSummary (successful_sends st) (failed_sends st) n
    /\ code = 200%nat.
Proof.
  rewrite run_batch_session. cbv zeta. unfold batch_error, session_opens.
  destruct (smtp_connect env SMTP_SERVER SMTP_PORT) as [e|]; [discriminate|].
  rewrite run_batch_block. cbv zeta.
  destruct (smtp_ehlo env) as [e|];
    [destruct (exit_raises env); discriminate|].
  destruct (smtp_starttls env) as [e|];
    [destruct (exit_raises env); discriminate|].
  destruct (smtp_login env _ _) as [e|];
    [destruct (exit_raises env); discriminate|].
  destruct (py_iter (l_recipients L)) as [todo|e];
    [|destruct (exit_raises env); discriminate].
  destruct (loop_of L email_template todo _ env _) as [[st|e] tr4] eqn:Hloop;
    [|destruct (exit_raises env); discriminate].
  destruct (py_len (l_recipients L)) as [n|e];
    [|destruct (exit_raises env); discriminate].
  destruct (exit_raises env); [discriminate|].
  intros H. injection H as <- <- <- <- <-.
  exists todo, st. do 2 eexists. exists n.
  repeat split; try reflexivity. exact Hloop.
Qed.

(** Only a list gets through the loop as the [recipients] of a request. *)
Lemma iterated_is_list v todo :
  truthy v = true ->
  py_iter v = Ok todo ->
  Forall (fun r => exists s, field r "email" "" = Ok s) todo ->
  v = VList todo.
Proof.
  intros Ht Hi Hf. destruct v; try discriminate Hi.
  - injection Hi as <-. destruct s as [|c s]; [discriminate Ht|].
    apply Forall_inv in Hf as [x Hx]. discriminate Hx.
  - injection Hi as <-. reflexivity.
  - injection Hi as <-. destruct (map_to_list d) as [|kv rest] eqn:Hd.
    + apply map_to_list_empty_iff in Hd. subst d.
      cbn [truthy] in Ht. rewrite map_size_empty in Ht. discriminate Ht.
    + apply Forall_inv in Hf as [x Hx]. discriminate Hx.
Qed.

Lemma send_loop_completes L email_template env n todo :
  py_len (l_recipients L) = Ok n ->
  Forall (renderable env L email_template) todo ->
  forall st tr, exists st' tr',
    loop_of L email_template todo st env tr = (Ok st', tr').
Proof.
  intros Hn Hall. induction Hall as [|recipient rest Hr _ IH]; intros st tr.
  - do 2 eexists. reflexivity.
  - rewrite send_loop_cons. destruct Hr as (to_email & He & Hbody). rewrite He.
    destruct (is_empty to_email); [apply IH|].
    destruct (Hbody eq_refl) as (body & _ & _ & greeting & Hg & Hf).
    rewrite Hg, Hf. destruct (attempt env _ _ _ _ _ _ st tr) as [st1 tr1].
    rewrite Hn. apply IH.
Qed.

(** A batch session that answers with results went through every step. *)
Lemma batch_accepted_run L email_template env tr m rs sm code tr' :
  unexpected (batch_session_of L email_template) env tr
  = (Ok (JBatch m rs sm, code), tr') ->
  exists todo st n tr4,
    session_opens env (l_sender_email L) (l_app_password L)
    /\ exit_raises env = None
    /\ py_iter (l_recipients L) = Ok todo
    /\ py_len (l_recipients L) = Ok n
    /\ loop_of L email_template todo (mkLoop [] 0 0) env
         (tr ++ ESMTPConnect SMTP_SERVER SMTP_PORT
             :: opening (l_sender_email L) (l_app_password L)) = (Ok st, tr4)
    /\ tr' = tr4 ++ [EQuit]
    /\ m = py "Email sending completed. Success: " ++ str_of_nat (successful_sends st)
           ++ py ", Failed: " ++ str_of_nat (failed_sends st)
    /\ rs = results st
    /\ sm = mkSummary (successful_sends st) (failed_sends st) n
    /\ code = 200%nat.
Proof.
  rewrite run_batch_session. cbv zeta. unfold batch_error, session_opens.
  destruct (smtp_connect env SMTP_SERVER SMTP_PORT) as [e|]; [discriminate|].
  rewrite run_batch_block. cbv zeta.
  destruct (smtp_ehlo env) as [e|];
    [destruct (exit_raises env); discriminate|].
  destruct (smtp_starttls env) as [e|];
    [destruct (exit_raises env); discriminate|].
  destruct (smtp_login env _ _) as [e|];
    [destruct (exit_raises env); discriminate|].
  destruct (py_iter (l_recipients L)) as [todo|e];
    [|destruct (exit_raises env); discriminate].
  rewrite <- app_assoc. cbn [app]. fold (opening (l_sender_email L) (l_app_password L)).
  destruct (loop_of L email_template todo _ env _) as [[st|e] tr4] eqn:Hloop;
    [|destruct (exit_raises env); discriminate].
  destruct (py_len (l_recipients L)) as [n|e];
    [|destruct (exit_raises env); discriminate].
  destruct (exit_raises env); [discriminate|].
  intros H. injection H as <- <- <- <- <-.
  exists todo, st, n, tr4. repeat split; try reflexivity. exact Hloop.
Qed.

(** C4.  In a batch whose recipient list has more than one entry (empty
    emails included) the pause [SEND_DELAY], which is 1, directly follows
    every send, the final one included.  The pause is also taken after an
    attempt whose message could not be built and was not sent, so there
    are at least as many pauses as sends, and a call that returns results
    has paused exactly once per result.  In a batch of exactly one entry
    no pause is ever executed. *)
Theorem pause_follows_every_send data l env :
  py_get data "recipients" (VList []) = Ok (VList l) ->
  let tr := snd (send_emails data env []) in
  SEND_DELAY = 1%Q
  /\ ((1 < length l)%nat ->
      paced tr = true
      /\ (count is_sendmail tr <= count is_sleep tr)%nat
      /\ forall m rs sm code,
           fst (send_emails data env []) = Ok (JBatch m rs sm, code) ->
           count is_sleep tr = length rs)
  /\ (length l = 1%nat -> count is_sleep tr = 0%nat).
Proof.
  intros Hl tr. split; [reflexivity|].
  assert (W : well_paced (length l) tr
              /\ ((1 < length l)%nat ->
                  forall m rs sm code,
                    fst (send_emails data env []) = Ok (JBatch m rs sm, code) ->
                    count is_sleep tr = length rs)).
  { subst tr.
    destruct (send_emails_cases data env [])
      as [(msg & code & tr' & Hrun & (fs & -> & Hfs) & _) | (L & tpl & HL & HT)].
    - rewrite Hrun. cbn [fst snd app]. split; [|discriminate].
      apply well_paced_quiet, file_events_quiet, Hfs.
    - rewrite (send_emails_valid data L tpl env [] HL HT).
      assert (Hn : py_len (l_recipients L) = Ok (length l))
        by (rewrite (reads_batch_recipients data L _ HL Hl); reflexivity).
      split.
      + destruct (batch_session_trace L tpl env ([] ++ template_events) _ Hn)
          as (added & -> & Hp).
        cbn [app]. apply (well_paced_app _ template_events added); [|exact Hp].
        apply well_paced_quiet. reflexivity.
      + intros Hlt m rs sm code Hrun.
        destruct (unexpected (batch_session_of L tpl) env ([] ++ template_events))
          as [r tr'] eqn:Hrun'.
        cbn [fst] in Hrun. subst r. cbn [snd].
        apply batch_accepted_run in Hrun'
          as (todo & st & n & tr4 & _ & _ & _ & Hn' & Hloop & -> & _ & -> & _).
        rewrite Hn in Hn'. injection Hn' as <-.
        destruct (send_loop_pauses L tpl env _ todo Hn Hlt _ _ _ _ Hloop)
          as (added & rs & -> & Hres & Hcount).
        rewrite Hres. cbn [results app]. rewrite !count_app, Hcount.
        cbn. lia. }
  destruct W as [[W1 W2] W3]. split.
  - intros Hlt. destruct (W1 Hlt) as [P C]. split; [exact P|]. split; [exact C|].
    exact (W3 Hlt).
  - intros H1. apply W2. lia.
Qed.

(** A record whose email reads as a string has it absent or as a string. *)
Lemma field_ok_inv v key s :
  field v key "" = Ok s ->
  exists d, v = VDict d
            /\ (d !! py key = None \/ exists s', d !! py key = Some (VStr s')).
Proof.
  unfold field, py_get. destruct v; try discriminate. intros H. exists d.
  split; [reflexivity|]. destruct (d !! py key) as [x|]; [|left; reflexivity].
  destruct x; try discriminate H. right. eauto.
Qed.

Lemma kept_emails_absent d rest :
  d !! py "email" = None -> kept_emails (VDict d :: rest) = kept_emails rest.
Proof.
  intros H. unfold kept_emails, trimmed_email, field, py_get.
  cbn [List.map]. rewrite H. reflexivity.
Qed.

Lemma kept_emails_string d s rest :
  d !! py "email" = Some (VStr s) ->
  if forallb isspace s
  then kept_emails (VDict d :: rest) = kept_emails rest
  else exists t,
         trims_to s t /\ t <> [] /\ kept_emails (VDict d :: rest) = t :: kept_emails rest.
Proof.
  intros H. unfold kept_emails, trimmed_email, field, py_get.
  cbn [List.map]. rewrite H. cbn [rbind py_strip List.filter].
  rewrite is_empty_strip. destruct (forallb isspace s) eqn:E; cbn [negb]; [reflexivity|].
  exists (strip s). split; [apply strip_trims|]. split; [|reflexivity].
  intros Hs. assert (Hempty : is_empty (strip s) = true) by (rewrite Hs; reflexivity).
  rewrite is_empty_strip in Hempty. congruence.
Qed.

(** C1.  Whenever the batch handler returns a results list (the request
    was accepted and the relay session opened), the [recipients] of the
    request are a list of records whose email is absent or a string, and
    the results hold exactly one entry per recipient whose trimmed email
    is not empty, in input order; the success and failure counters count
    these entries and nothing else, so the recipients with a blank email
    are in neither; and the total of the summary is the length of the
    input list, skipped entries included.  Who is kept: a record without
    an email, or whose email is empty or white space only, gets no entry;
    a record whose email has other characters gets one, under that email
    without its leading and trailing white space.  Such a results list is
    returned for every valid request whose recipients can be rendered,
    once the template loads, the session opens and its exit does not
    raise. *)
Theorem batch_results_one_per_kept_recipient :
  (forall data env tr m rs sm code tr',
     send_emails data env tr = (Ok (JBatch m rs sm, code), tr') ->
     exists l,
       py_get data "recipients" (VList []) = Ok (VList l)
       /\ Forall (fun r => exists d,
                    r = VDict d
                    /\ (d !! py "email" = None
                        \/ exists s, d !! py "email" = Some (VStr s))) l
       /\ List.map r_email rs = kept_emails l
       /\ successful sm = length (List.filter (has_status "success") rs)
       /\ failed sm = length (List.filter (has_status "error") rs)
       /\ (successful sm + failed sm = length (kept_emails l))%nat
       /\ total sm = length l)
  /\ kept_emails [] = []
  /\ (forall d rest,
        d !! py "email" = None ->
        kept_emails (VDict d :: rest) = kept_emails rest)
  /\ (forall d s rest,
        d !! py "email" = Some (VStr s) ->
        if forallb isspace s
        then kept_emails (VDict d :: rest) = kept_emails rest
        else exists t,
               trims_to s t
               /\ t <> []
               /\ kept_emails (VDict d :: rest) = t :: kept_emails rest)
  /\ (forall data L l email_template env tr,
        reads_batch data L ->
        l_recipients L = VList l ->
        template_loads env tr email_template ->
        session_opens env (l_sender_email L) (l_app_password L) ->
        exit_raises env = None ->
        Forall (renderable env L email_template) l ->
        exists m rs sm tr',
          send_emails data env tr = (Ok (JBatch m rs sm, 200%nat), tr')).
Proof.
  split; [|split; [reflexivity|split; [exact kept_emails_absent|
                                       split; [exact kept_emails_string|]]]].
  - intros data env tr m rs sm code tr' Hrun.
    destruct (send_emails_cases data env tr)
      as [(msg & c & t & Hstop & _) | (L & tpl & HL & HT)];
      [rewrite Hrun in Hstop; discriminate Hstop|].
    rewrite (send_emails_valid data L tpl env tr HL HT) in Hrun.
    apply batch_session_accepted in Hrun
      as (todo & st & tr3 & tr4 & n & _ & Hiter & Hloop & Hn & -> & -> & _).
    apply send_loop_results in Hloop as (rs & H1 & H2 & H3 & H4 & H5 & H6).
    cbn [results successful_sends failed_sends app Nat.add] in H1, H4, H5, H6.
    assert (Ht : truthy (l_recipients L) = true) by apply HL.
    pose proof (iterated_is_list _ _ Ht Hiter H3) as Hv.
    rewrite Hv in Hn. injection Hn as <-.
    exists todo. cbn [successful failed total].
    rewrite H1, H4, H5, <- H2, length_map, <- H6.
    repeat split; try reflexivity.
    + destruct HL as (Hrec & _). rewrite Hrec, Hv. reflexivity.
    + eapply List.Forall_impl; [|exact H3].
      intros r (s & Hs). exact (field_ok_inv _ _ _ Hs).
    + rewrite H4, H5. reflexivity.
  - intros data L l tpl env tr HL Hl HT (Hc & He & Hs & Hlog) Hq Hall.
    rewrite (send_emails_valid data L tpl env tr HL HT), run_batch_session. cbv zeta.
    rewrite Hc, run_batch_block, He, Hs. cbv zeta. rewrite Hlog, Hl.
    cbn [py_iter py_len].
    assert (Hn : py_len (l_recipients L) = Ok (length l)) by (rewrite Hl; reflexivity).
    match goal with
    | |- context [loop_of L tpl l ?s env ?t] =>
        destruct (send_loop_completes L tpl env _ l Hn Hall s t) as (st' & tr4 & ->)
    end.
    rewrite Hq. do 4 eexists. reflexivity.
Qed.

(** C2.  In the batch loop, when sending to a recipient fails, an error
    result carrying the text of the failure is appended for that
    recipient, the failure counter goes up by one, and the loop goes on
    with the next recipient, after the pause.  Sending fails in two ways:
    the relay refuses the submission, and the failure is its reply; or the
    message cannot be built because the rendered body holds a surrogate,
    and then nothing is submitted.  In particular, in a batch of three
    recipients whose messages can be built, where the second submission
    fails and the two others succeed, the results are exactly success,
    error, success and the summary is successful 2, failed 1, total 3. *)
Theorem submission_failure_is_isolated :
  (forall L email_template env recipient rest st tr to_email body n e tr1,
     renders env L email_template recipient to_email body ->
     py_len (l_recipients L) = Ok n ->
     send_one (l_sender_email L) to_email (l_subject L) body None
              (Some (l_pdf_data L)) (l_pdf_filename L) env tr = (Raise e, tr1) ->
     loop_of L email_template (recipient :: rest) st env tr
     = loop_of L email_template rest
         (mkLoop (results st ++ [mkResult to_email (py "error") (exn_str e)])
                 (successful_sends st) (failed_sends st + 1))
         env
         (tr1 ++ pause_after_send n))
  /\ (forall env sender to_email subject body pdf_data pdf_filename tr e,
        let msg := request_message env sender to_email subject body
                     pdf_data pdf_filename in
        (encodable body = true ->
         smtp_sendmail env (count is_sendmail tr) sender [to_email] msg = Some e ->
         send_one sender to_email subject body None (Some pdf_data) pdf_filename env tr
         = (Raise e, tr ++ [ESendmail sender [to_email] msg]))
        /\ (utf8_encode_error body = Some e ->
            send_one sender to_email subject body None (Some pdf_data) pdf_filename env tr
            = (Raise e, tr)))
  /\ (forall data L email_template env r1 r2 r3 e1 e2 e3 b1 b2 b3 x,
        reads_batch data L ->
        l_recipients L = VList [r1; r2; r3] ->
        template_loads env [] email_template ->
        session_opens env (l_sender_email L) (l_app_password L) ->
        exit_raises env = None ->
        renders env L email_template r1 e1 b1 ->
        renders env L email_template r2 e2 b2 ->
        renders env L email_template r3 e3 b3 ->
        encodable b1 = true -> encodable b2 = true -> encodable b3 = true ->
        let msg := fun to_email body =>
          request_message env (l_sender_email L) to_email (l_subject L) body
            (l_pdf_data L) (l_pdf_filename L) in
        smtp_sendmail env 0 (l_sender_email L) [e1] (msg e1 b1) = None ->
        smtp_sendmail env 1 (l_sender_email L) [e2] (msg e2 b2) = Some x ->
        smtp_sendmail env 2 (l_sender_email L) [e3] (msg e3 b3) = None ->
        exists tr',
          send_emails data env []
          = (Ok (JBatch (py "Email sending completed. Success: 2, Failed: 1")
                   [mkResult e1 (py "success") (py "Email sent successfully");
                    mkResult e2 (py "error") (exn_str x);
                    mkResult e3 (py "success") (py "Email sent successfully")]
                   (mkSummary 2 1 3), 200%nat), tr')).
Proof.
  split; [|split].
  - intros L tpl env recipient rest st tr to_email body n e tr1 Hren Hn Hsend.
    rewrite (send_loop_submit L tpl env recipient rest st tr to_email body n Hren Hn).
    cbv zeta. rewrite <- run_attempt, Hsend. reflexivity.
  - intros env sender to_email subject body pdf_data pdf_filename tr e msg. split.
    + intros Henc Hsend. apply utf8_encode_error_none in Henc.
      rewrite run_send_one, Henc. cbv zeta. fold msg. rewrite Hsend. reflexivity.
    + intros Herr. rewrite run_send_one, Herr. reflexivity.
  - intros data L tpl env r1 r2 r3 e1 e2 e3 b1 b2 b3 x HL Hl HT (Hc & He & Hs & Hlog) Hq
           R1 R2 R3 B1 B2 B3 msg S1 S2 S3.
    apply utf8_encode_error_none in B1, B2, B3.
    assert (Hn : py_len (l_recipients L) = Ok 3%nat) by (rewrite Hl; reflexivity).
    rewrite (send_emails_valid data L tpl env [] HL HT), run_batch_session. cbv zeta.
    rewrite Hc, run_batch_block, He, Hs. cbv zeta. rewrite Hlog, Hl.
    cbn [py_iter].
    rewrite (send_loop_submit L tpl env r1 _ _ _ e1 b1 3 R1 Hn). cbv zeta.
    unfold attempt at 1 2. rewrite B1. cbv zeta. fold (msg e1 b1).
    match goal with
    | |- context [smtp_sendmail env (count is_sendmail ?t) _ [e1] _] =>
        change (count is_sendmail t) with 0%nat
    end.
    rewrite S1. cbn [fst snd].
    rewrite (send_loop_submit L tpl env r2 _ _ _ e2 b2 3 R2 Hn). cbv zeta.
    unfold attempt at 1 2. rewrite B2. cbv zeta. fold (msg e2 b2).
    match goal with
    | |- context [smtp_sendmail env (count is_sendmail ?t) _ [e2] _] =>
        change (count is_sendmail t) with 1%nat
    end.
    rewrite S2. cbn [fst snd].
    rewrite (send_loop_submit L tpl env r3 _ _ _ e3 b3 3 R3 Hn). cbv zeta.
    unfold attempt at 1 2. rewrite B3. cbv zeta. fold (msg e3 b3).
    match goal with
    | |- context [smtp_sendmail env (count is_sendmail ?t) _ [e3] _] =>
        change (count is_sendmail t) with 2%nat
    end.
    rewrite S3. cbn [fst snd].
    cbn [loop_of send_loop ret]. rewrite <- Hl, Hn, Hq.
    eexists. reflexivity.
Qed.

(** ** Required-field validation *)

Lemma py_get_dict d key default :
  py_get (VDict d) key default
  = Ok (match d !! py key with Some x => x | None => default end).
Proof. reflexivity. Qed.

(** A request is refused without effect: with status 400, or with status
    500 when one of its text fields is not a string. *)
Lemma refused_by_status (run : result Response * list Event) tr mk (typed : Prop) :
  (exists msg code,
     run = (Ok (mk msg, code), tr)
     /\ (code = 400%nat \/ (code = 500%nat /\ ~ typed))) ->
  error_without_effect run tr mk /\ (typed -> validation_rejects run tr mk).
Proof.
  intros (msg & code & Hrun & [-> | [-> Hn]]).
  - split; [exists msg, 400%nat; auto | intros _; exists msg; exact Hrun].
  - split; [exists msg, 500%nat; auto | intros Ht; destruct (Hn Ht)].
Qed.

(** Reading one more field of the request. *)
Ltac read_field :=
  match goal with
  | |- context [bind (get_strip ?v ?key ?d) ?k ?env ?tr] =>
      unfold get_strip at 1; rewrite (run_bind_lift (field v key d) k env tr);
      destruct (field v key d) eqn:?
  | |- context [bind (lift ?r) ?k ?env ?tr] =>
      rewrite (run_bind_lift r k env tr); destruct r eqn:?
  end.

(** The read of a text field raised: status 500, and the field is not a
    string. *)
Ltac read_raised :=
  cbv beta iota; unfold any_exception, ret; cbv beta iota;
  eexists _, _; split; [reflexivity|]; right; split; [reflexivity|];
  let Ht := fresh "Ht" in
  intros Ht;
  repeat match goal with
         | H : _ /\ _ |- _ => destruct H
         | H : text_fields_are_strings _ _ |- _ =>
             unfold text_fields_are_strings, batch_text_keys, test_text_keys in H
         | H : Forall _ (_ :: _) |- _ => inversion H; clear H; subst
         | H : exists s, field _ _ _ = Ok s |- _ => destruct H
         | H : recipient_email_is_string _ |- _ =>
             let s := fresh "s" in
             let Hs := fresh "Hs" in
             destruct (H _ ltac:(eassumption)) as (s & Hs); clear H
         end;
  congruence.

(** A check of the handler failed: status 400. *)
Ltac check_failed :=
  cbv beta iota; unfold ret; eexists _, _; split; [reflexivity|]; left; reflexivity.

(** All checks passed, although a required field is missing. *)
Ltac nothing_missing H :=
  exfalso;
  unfold batch_field_missing, single_field_missing, test_field_missing,
         falsy_field, blank_field, batch_text_keys, test_text_keys in H;
  repeat match goal with
         | H : _ \/ _ |- _ => destruct H
         | H : exists _, _ |- _ => destruct H
         | H : _ /\ _ |- _ => destruct H
         | H : Exists _ (_ :: _) |- _ => inversion H; clear H; subst
         | H : Exists _ [] |- _ => inversion H
         end;
  repeat match goal with
         | H1 : ?r = Ok ?a, H2 : ?r = Ok ?b |- _ =>
             rewrite H1 in H2; injection H2 as ?; subst
         end;
  try discriminate; congruence.

Lemma batch_request_refused data env tr :
  batch_field_missing data ->
  exists msg code,
    send_emails data env tr = (Ok (JError msg, code), tr)
    /\ (code = 400%nat
        \/ (code = 500%nat /\ ~ text_fields_are_strings data batch_text_keys)).
Proof.
  intros Hmissing.
  assert (Hdict : exists d, data = VDict d).
  { destruct data; eauto; exfalso;
      unfold batch_field_missing, falsy_field, blank_field, batch_text_keys in Hmissing;
      repeat match goal with
             | H : _ \/ _ |- _ => destruct H
             | H : exists _, _ |- _ => destruct H
             | H : _ /\ _ |- _ => destruct H
             | H : Exists _ (_ :: _) |- _ => inversion H; clear H; subst
             | H : Exists _ [] |- _ => inversion H
             end; discriminate. }
  destruct Hdict as (d & ->).
  unfold send_emails, try_except.
  read_field; [|discriminate].
  read_field; [|read_raised]. read_field; [|read_raised].
  read_field; [|read_raised]. read_field; [|read_raised].
  read_field; [|discriminate]. read_field; [|discriminate].
  read_field; [|read_raised]. read_field; [|read_raised].
  repeat match goal with
         | |- context [if negb (truthy ?v) then _ else _] =>
             destruct (truthy v) eqn:?; cbn [negb]; [|check_failed]
         | |- context [if is_empty ?s then _ else _] =>
             destruct (is_empty s) eqn:?; [check_failed|]
         end.
  nothing_missing Hmissing.
Qed.

Lemma single_request_refused data env tr :
  single_field_missing data ->
  exists msg code,
    send_single_email data env tr = (Ok (JFailure msg, code), tr)
    /\ (code = 400%nat
        \/ (code = 500%nat
            /\ ~ (recipient_email_is_string data
                  /\ text_fields_are_strings data batch_text_keys))).
Proof.
  intros Hmissing.
  assert (Hdict : exists d, data = VDict d).
  { destruct data; eauto; exfalso;
      unfold single_field_missing, falsy_field, blank_field, batch_text_keys in Hmissing;
      repeat match goal with
             | H : _ \/ _ |- _ => destruct H
             | H : exists _, _ |- _ => destruct H
             | H : _ /\ _ |- _ => destruct H
             | H : Exists _ (_ :: _) |- _ => inversion H; clear H; subst
             | H : Exists _ [] |- _ => inversion H
             end; discriminate. }
  destruct Hdict as (d & ->).
  unfold send_single_email, try_except.
  read_field; [|discriminate].
  read_field; [|read_raised].
  read_field; [|read_raised]. read_field; [|read_raised].
  read_field; [|read_raised]. read_field; [|read_raised].
  read_field; [|discriminate]. read_field; [|discriminate].
  read_field; [|read_raised]. read_field; [|read_raised].
  repeat match goal with
         | |- context [if negb (truthy ?v) then _ else _] =>
             destruct (truthy v) eqn:?; cbn [negb]; [|check_failed]
         | |- context [if is_empty ?s then _ else _] =>
             destruct (is_empty s) eqn:?; [check_failed|]
         end.
  nothing_missing Hmissing.
Qed.

Lemma test_request_refused data env tr :
  test_field_missing data ->
  exists msg code,
    test_email data env tr = (Ok (JError msg, code), tr)
    /\ (code = 400%nat
        \/ (code = 500%nat /\ ~ text_fields_are_strings data test_text_keys)).
Proof.
  intros Hmissing.
  assert (Hdict : exists d, data = VDict d).
  { destruct data; eauto; exfalso;
      unfold test_field_missing, falsy_field, blank_field, test_text_keys in Hmissing;
      repeat match goal with
             | H : _ \/ _ |- _ => destruct H
             | H : exists _, _ |- _ => destruct H
             | H : _ /\ _ |- _ => destruct H
             | H : Exists _ (_ :: _) |- _ => inversion H; clear H; subst
             | H : Exists _ [] |- _ => inversion H
             end; discriminate. }
  destruct Hdict as (d & ->).
  unfold test_email, try_except.
  read_field; [|read_raised]. read_field; [|read_raised].
  read_field; [|read_raised]. read_field; [|read_raised].
  read_field; [|read_raised].
  read_field; [|discriminate]. read_field; [|discriminate].
  repeat match goal with
         | |- context [if negb (truthy ?v) then _ else _] =>
             destruct (truthy v) eqn:?; cbn [negb]; [|check_failed]
         | |- context [if is_empty ?s then _ else _] =>
             destruct (is_empty s) eqn:?; [check_failed|]
         end.
  nothing_missing Hmissing.
Qed.

(** The read of a text field raised: the outermost handler answers. *)
Ltac raised H :=
  cbn [first_raise rbind] in H; injection H as <-;
  cbv beta iota; unfold any_exception, ret; reflexivity.

Ltac read_text_field H := read_field; [cbn [first_raise rbind] in H | raised H].

Lemma batch_request_ill_typed data env tr e :
  first_raise (batch_text_reads data) = Some e ->
  send_emails data env tr
  = (Ok (JError (py "Unexpected error: " ++ exn_str e), 500%nat), tr).
Proof.
  unfold batch_text_reads, batch_text_keys. cbn [List.map]. intros H.
  destruct data as [| | | | |d]; try (cbn in H; injection H as <-; reflexivity).
  unfold send_emails, try_except.
  read_field; [|discriminate].
  do 4 read_text_field H.
  read_field; [|discriminate]. read_field; [|discriminate].
  do 2 read_text_field H.
  discriminate H.
Qed.

Lemma single_request_ill_typed data env tr e :
  first_raise (single_text_reads data) = Some e ->
  send_single_email data env tr
  = (Ok (JFailure (py "Unexpected error: " ++ exn_str e), 500%nat), tr).
Proof.
  unfold single_text_reads, batch_text_reads, batch_text_keys. cbn [List.map]. intros H.
  destruct data as [| | | | |d]; try (cbn in H; injection H as <-; reflexivity).
  unfold send_single_email, try_except.
  read_field; [cbn [rbind] in H | discriminate].
  do 5 read_text_field H.
  read_field; [|discriminate]. read_field; [|discriminate].
  do 2 read_text_field H.
  discriminate H.
Qed.

Lemma test_request_ill_typed data env tr e :
  first_raise (test_text_reads data) = Some e ->
  test_email data env tr
  = (Ok (JError (py "Unexpected error: " ++ exn_str e), 500%nat), tr).
Proof.
  unfold test_text_reads, test_text_keys. cbn [List.map]. intros H.
  destruct data as [| | | | |d]; try (cbn in H; injection H as <-; reflexivity).
  unfold test_email, try_except.
  do 5 read_text_field H.
  discriminate H.
Qed.

(** C7 (amended).  A request in which a required field is missing or empty
    is answered with an error and nothing else happens: the trace is
    unchanged, so there is no relay interaction and no file access.  The
    answer is a validation error, status 400, whenever the text fields of
    the request are strings.  A text field of another JSON type makes the
    read of the request fail: whatever else the request holds, the answer
    is then the generic error "Unexpected error: <text>" with status 500,
    for the first such field in reading order, and again nothing else
    happens.  The required fields are: for the batch, the [recipients]
    value (absent or empty), the sender email, the app password, the job
    title, the subject, the name, the phone number (each blank after
    trimming) and the attachment payload; for single-send the same with
    the email of the one recipient in place of the list; for test-send the
    email, the sender email, the app password, the job title, the subject
    and the attachment payload.  The email of an individual batch
    recipient is not among them. *)
Theorem missing_required_field_is_rejected :
  (forall data env tr,
     batch_field_missing data ->
     error_without_effect (send_emails data env tr) tr JError
     /\ (text_fields_are_strings data batch_text_keys ->
         validation_rejects (send_emails data env tr) tr JError))
  /\ (forall data env tr,
        single_field_missing data ->
        error_without_effect (send_single_email data env tr) tr JFailure
        /\ (recipient_email_is_string data
            /\ text_fields_are_strings data batch_text_keys ->
            validation_rejects (send_single_email data env tr) tr JFailure))
  /\ (forall data env tr,
        test_field_missing data ->
        error_without_effect (test_email data env tr) tr JError
        /\ (text_fields_are_strings data test_text_keys ->
            validation_rejects (test_email data env tr) tr JError))
  /\ (forall data env tr e,
        first_raise (batch_text_reads data) = Some e ->
        send_emails data env tr
        = (Ok (JError (py "Unexpected error: " ++ exn_str e), 500%nat), tr))
  /\ (forall data env tr e,
        first_raise (single_text_reads data) = Some e ->
        send_single_email data env tr
        = (Ok (JFailure (py "Unexpected error: " ++ exn_str e), 500%nat), tr))
  /\ (forall data env tr e,
        first_raise (test_text_reads data) = Some e ->
        test_email data env tr
        = (Ok (JError (py "Unexpected error: " ++ exn_str e), 500%nat), tr)).
Proof.
  split; [|split; [|split; [|split; [|split]]]].
  - intros data env tr Hmissing. apply refused_by_status.
    apply batch_request_refused, Hmissing.
  - intros data env tr Hmissing. apply refused_by_status.
    apply single_request_refused, Hmissing.
  - intros data env tr Hmissing. apply refused_by_status.
    apply test_request_refused, Hmissing.
  - exact batch_request_ill_typed.
  - exact single_request_ill_typed.
  - exact test_request_ill_typed.
Qed.

(** ** The test-send handler *)

Lemma html_text_request_message env sender to_email subject body pdf_data pdf_filename :
  html_text (request_message env sender to_email subject body pdf_data pdf_filename)
  = Some body.
Proof. destruct pdf_data; reflexivity. Qed.

(** A run that ends, in error, with no send among the events it added. *)
Ltac quiet_end Quiet :=
  unfold ret; cbn [fst snd]; cbv beta iota;
  eapply Quiet;
  [ first [symmetry; apply app_nil_r | rewrite <- ?app_assoc; reflexivity]
  | reflexivity ].

(** The block of [test_email] after the template is loaded: its answer and
    what it sends. *)
Lemma test_block_run data test_email sender_email app_password job_title subject
      pdf_data pdf_filename email_template env tr :
  field data "email" "" = Ok test_email ->
  field data "job_title" "" = Ok job_title ->
  let run := unexpected (test_email_render_and_send data test_email sender_email
                           app_password job_title subject pdf_data pdf_filename
                           email_template) env tr in
  test_response (fst run)
  /\ exists added,
       snd run = tr ++ added
       /\ forall f t msg, In (ESendmail f t msg) added ->
                          test_rendering env data email_template msg.
Proof.
  intros Hemail Hjob. cbv zeta.
  assert (Quiet : forall e tr' (added : list Event),
             tr' = tr ++ added ->
             forallb is_quiet added = true ->
             test_response (Ok (JError e, 500%nat))
             /\ exists added0, tr' = tr ++ added0
                  /\ forall f t msg, In (ESendmail f t msg) added0 ->
                                     test_rendering env data email_template msg).
  { intros e tr' added -> Hq. split; [right; eauto|].
    exists added. split; [reflexivity|]. intros f t msg Hin.
    rewrite forallb_forall in Hq. apply Hq in Hin. discriminate Hin. }
  unfold unexpected, test_email_render_and_send, try_except, any_exception.
  lift_step. destruct (py_get data "company" (VStr (py ""))) as [company|e] eqn:Hco;
    [|quiet_end Quiet].
  lift_step. fold (test_recipient test_email company).
  destruct (create_greeting (test_recipient test_email company)) as [greeting|e] eqn:Hg;
    [|quiet_end Quiet].
  rewrite run_bind_env.
  destruct (str_format env email_template _) as [rendered|e] eqn:Hf;
    [|quiet_end Quiet].
  rewrite run_with_SMTP.
  destruct (smtp_connect env SMTP_SERVER SMTP_PORT) as [e|]; [quiet_end Quiet|].
  rewrite run_open.
  destruct (smtp_ehlo env) as [e|]; [destruct (exit_raises env); quiet_end Quiet|].
  destruct (smtp_starttls env) as [e|]; [destruct (exit_raises env); quiet_end Quiet|].
  destruct (smtp_login env _ _) as [e|]; [destruct (exit_raises env); quiet_end Quiet|].
  rewrite run_bind, run_send_one.
  destruct (utf8_encode_error rendered) as [e|];
    [destruct (exit_raises env); quiet_end Quiet|].
  cbv zeta.
  assert (Sent : forall (r : result Response) tr',
             tr' = tr ++ [ESMTPConnect SMTP_SERVER SMTP_PORT; EEhlo; EStartTLS;
                          ELogin sender_email app_password;
                          ESendmail sender_email [test_email]
                            (request_message env sender_email test_email subject
                               rendered pdf_data pdf_filename);
                          EQuit] ->
             test_response r ->
             test_response r
             /\ exists added0,
                  tr' = tr ++ added0
                  /\ forall f t msg, In (ESendmail f t msg) added0 ->
                                     test_rendering env data email_template msg).
  { intros r tr' -> Hr. split; [exact Hr|]. eexists. split; [reflexivity|].
    intros f t msg Hin. cbn [In] in Hin.
    destruct Hin as [H|[H|[H|[H|[H|[H|[]]]]]]]; try discriminate H.
    injection H as _ _ <-.
    exists test_email, company, job_title, greeting, rendered.
    repeat split; try assumption. apply html_text_request_message. }
  destruct (smtp_sendmail env _ _ _ _) as [e|]; cbv beta iota;
    destruct (exit_raises env); unfold ret; cbn [fst snd]; cbv beta iota;
    (eapply Sent; [rewrite <- !app_assoc; reflexivity|]);
    first [left; eexists; reflexivity | right; eauto].
Qed.

(** Every run of [test_email] either stops before the relay with an error
    body or reaches the block above with the template it has read. *)
Lemma test_email_inversion data env tr (P : result Response * list Event -> Prop) :
  (forall run, stops_early run tr JError -> P run) ->
  (forall test_email_ sender_email app_password job_title subject pdf_data
          pdf_filename email_template,
     field data "email" "" = Ok test_email_ ->
     field data "job_title" "" = Ok job_title ->
     read_text env TEMPLATE_PATH = Ok email_template ->
     P (unexpected (test_email_render_and_send data test_email_ sender_email
                      app_password job_title subject pdf_data pdf_filename
                      email_template) env (tr ++ template_events))) ->
  P (test_email data env tr).
Proof.
  intros Hstop Hblock.
  unfold test_email, try_except.
  lift_step. destruct (field data "email" "") as [test_email_|e] eqn:H1;
    [|apply Hstop; stopped_here].
  lift_step. destruct (field data "sender_email" "") as [sender_email|e] eqn:H2;
    [|apply Hstop; stopped_here].
  lift_step. destruct (field data "app_password" "") as [app_password|e] eqn:H3;
    [|apply Hstop; stopped_here].
  lift_step. destruct (field data "job_title" "") as [job_title|e] eqn:H4;
    [|apply Hstop; stopped_here].
  lift_step. destruct (field data "subject" "") as [subject|e] eqn:H5;
    [|apply Hstop; stopped_here].
  lift_step. destruct (py_get data "pdf_file" (VStr (py ""))) as [pdf_file|e] eqn:H6;
    [|apply Hstop; stopped_here].
  lift_step. destruct (py_get data "pdf_filename" (VStr (py "CV.pdf"))) as [pdf_filename|e] eqn:H7;
    [|apply Hstop; stopped_here].
  destruct (is_empty test_email_) eqn:T1; [apply Hstop; stopped_here|].
  destruct (is_empty sender_email) eqn:T2; [apply Hstop; stopped_here|].
  destruct (is_empty app_password) eqn:T3; [apply Hstop; stopped_here|].
  destruct (is_empty job_title) eqn:T4; [apply Hstop; stopped_here|].
  destruct (is_empty subject) eqn:T5; [apply Hstop; stopped_here|].
  destruct (truthy pdf_file) eqn:T6; cbn [negb]; [|apply Hstop; stopped_here].
  destruct (b64decode pdf_file) as [pdf_data|e] eqn:D; [|apply Hstop; stopped_here].
  config_step.
  destruct (path_exists env (count is_path_exists tr) TEMPLATE_PATH) eqn:E1;
    [|apply Hstop; stopped_here].
  template_step. rewrite count_app, Nat.add_1_r.
  destruct (path_exists env (S (count is_path_exists tr)) TEMPLATE_PATH) eqn:E2;
    [|apply Hstop; stopped_here].
  destruct (read_text env TEMPLATE_PATH) as [email_template|e] eqn:E3;
    [|apply Hstop; stopped_here].
  rewrite <- app_assoc.
  apply (Hblock test_email_ sender_email app_password job_title subject pdf_data
                pdf_filename email_template); reflexivity.
Qed.

(** C8, as stated, fails on the failure paths: the body of an error
    response holds an [error] only, no success flag and no message. *)
Lemma test_email_error_has_no_success_flag :
  exists body code,
    fst (test_email (str_dict [("email", "")]%string)
           (example_env example_template (fun _ => None)) []) = Ok (body, code)
    /\ reports_success_and_message body = false.
Proof. do 2 eexists. split; [vm_compute; reflexivity | reflexivity]. Qed.

(** C8 (amended).  The test-send handler renders the template with the
    keyword arguments [greeting] and [job_title] only: every message it
    submits carries that rendering as its HTML text.  Its response is
    either a success flag with a message (status 200) or, on every failure
    path, an error body (status 400 or 500); it never holds a results
    array. *)
Theorem test_email_renders_two_fields data env :
  let run := test_email data env [] in
  test_response (fst run)
  /\ (forall body code, fst run = Ok (body, code) -> has_results_array body = false)
  /\ (forall f t msg,
        In (ESendmail f t msg) (snd run) ->
        exists email_template,
          read_text env TEMPLATE_PATH = Ok email_template
          /\ test_rendering env data email_template msg).
Proof.
  cbv zeta.
  assert (R : test_response (fst (test_email data env []))
              /\ forall f t msg,
                   In (ESendmail f t msg) (snd (test_email data env [])) ->
                   exists email_template,
                     read_text env TEMPLATE_PATH = Ok email_template
                     /\ test_rendering env data email_template msg).
  { apply test_email_inversion.
    - intros run (msg & code & tr' & -> & (fs & -> & Hfs) & Hcode).
      cbn [fst snd app]. split; [right; eauto|].
      intros f t m Hin. apply file_events_quiet in Hfs.
      rewrite forallb_forall in Hfs. apply Hfs in Hin. discriminate Hin.
    - intros te se ap jt sub pdf fname tpl H1 H4 HT.
      destruct (test_block_run data te se ap jt sub pdf fname tpl env
                  ([] ++ template_events) H1 H4) as (Hresp & added & Htr & Hsent).
      split; [exact Hresp|]. rewrite Htr. intros f t m Hin.
      exists tpl. split; [exact HT|].
      cbn [app In] in Hin. destruct Hin as [H|[H|[H|Hin]]]; try discriminate H.
      exact (Hsent f t m Hin). }
  destruct R as [R1 R2]. split; [exact R1|]. split; [|exact R2].
  intros body code Hb. rewrite Hb in R1.
  destruct R1 as [(m & H)|(e & c & H & _)]; injection H as -> _; reflexivity.
Qed.

(** ** The claims at concrete requests *)

Lemma batch_results_one_per_kept_recipient_witness :
  let l := [recipient_a; recipient_blank; recipient_c] in
  let env := example_env example_template second_fails in
  let rs := [mkResult (py "a@x.org") (py "success") (py "Email sent successfully");
             mkResult (py "c@x.org") (py "error") (py "(550, b'mailbox unavailable')")] in
  (exists tr',
     send_emails (example_request (VList l)) env []
     = (Ok (JBatch (py "Email sending completed. Success: 1, Failed: 1") rs
              (mkSummary 1 1 3), 200%nat), tr'))
  /\ List.map r_email rs = kept_emails l
  /\ kept_emails l = [py "a@x.org"; py "c@x.org"]
  /\ kept_emails [recipient_blank; recipient_c] = kept_emails [recipient_c]
  /\ (exists t,
        trims_to ([32] ++ py "c@x.org" ++ [32]) t
        /\ t = py "c@x.org"
        /\ kept_emails [recipient_c] = [t])
  /\ (exists m rs' sm tr',
        send_emails (example_request (VList l))
                    (example_env example_template (fun _ => None)) []
        = (Ok (JBatch m rs' sm, 200%nat), tr')).
Proof.
  intros l env rs.
  destruct batch_results_one_per_kept_recipient as (Hrun & _ & _ & Hstr & Hacc).
  assert (R : exists tr',
             send_emails (example_request (VList l)) env []
             = (Ok (JBatch (py "Email sending completed. Success: 1, Failed: 1") rs
                      (mkSummary 1 1 3), 200%nat), tr'))
    by (eexists; vm_compute; reflexivity).
  split; [exact R|]. destruct R as (tr' & R).
  destruct (Hrun _ _ _ _ _ _ _ _ R) as (l' & Hl & _ & Hmap & _).
  assert (l' = l) by (vm_compute in Hl; injection Hl as <-; reflexivity). subst l'.
  split; [exact Hmap|].
  split; [vm_compute; reflexivity|].
  split; [|split].
  - pose proof (Hstr (str_map [("email", "  "); ("company", "Nowhere")]%string)
                  (py "  ") [recipient_c]) as H.
    assert (E : forallb isspace (py "  ") = true) by reflexivity.
    rewrite E in H. apply H. vm_compute. reflexivity.
  - pose proof (Hstr (str_map [("email", " c@x.org "); ("company", " ")]%string)
                  ([32] ++ py "c@x.org" ++ [32]) []) as H.
    assert (E : forallb isspace ([32] ++ py "c@x.org" ++ [32]) = false) by reflexivity.
    rewrite E in H. destruct H as (t & Ht & _ & Hk); [vm_compute; reflexivity|].
    exists t. split; [exact Ht|]. split; [|exact Hk].
    vm_compute in Hk. injection Hk as <-. reflexivity.
  - apply (Hacc (example_request (VList l)) (example_locals (VList l)) l
             example_template (example_env example_template (fun _ => None)) []).
    + repeat split; try (vm_compute; reflexivity).
      eexists. repeat split; vm_compute; reflexivity.
    + reflexivity.
    + repeat split; vm_compute; reflexivity.
    + repeat split; vm_compute; reflexivity.
    + reflexivity.
    + repeat constructor.
      * eexists. split; [vm_compute; reflexivity|]. intros _.
        eexists. repeat split; try (vm_compute; reflexivity).
        eexists. split; vm_compute; reflexivity.
      * eexists. split; [vm_compute; reflexivity|]. intros H. vm_compute in H. discriminate H.
      * eexists. split; [vm_compute; reflexivity|]. intros _.
        eexists. repeat split; try (vm_compute; reflexivity).
        eexists. split; vm_compute; reflexivity.
Defined.

Lemma submission_failure_is_isolated_witness :
  let L := example_locals (VList [recipient_a; recipient_b; recipient_c]) in
  let env := example_env example_template second_fails in
  let refused := Exn SMTPException (py "(550, b'mailbox unavailable')") in
  let body_b :=
    py "<p>Dear Hiring Team,</p><p>I apply for Engineer.</p><p>Ada, 123, me@example.org</p>" in
  (exists st' tr',
     loop_of L example_template [recipient_b; recipient_c]
       (mkLoop [mkResult (py "a@x.org") (py "success") (py "Email sent successfully")]
               1 0)
       env [ESendmail (py "me@example.org") [py "a@x.org"] MIMEMultipart]
     = loop_of L example_template [recipient_c] st' env tr'
     /\ results st'
        = [mkResult (py "a@x.org") (py "success") (py "Email sent successfully");
           mkResult (py "b@x.org") (py "error") (py "(550, b'mailbox unavailable')")]
     /\ successful_sends st' = 1%nat
     /\ failed_sends st' = 1%nat)
  /\ (exists tr1,
        send_one (py "me@example.org") (py "b@x.org") (py "Application") body_b None
          (Some (ascii_bytes "Man")) (VStr (py "CV.pdf")) env
          [ESendmail (py "me@example.org") [py "a@x.org"] MIMEMultipart]
        = (Raise refused, tr1))
  /\ send_one (py "me@example.org") (py "b@x.org") (py "Application")
       (py "<p>" ++ [0xD800] ++ py "</p>") None
       (Some (ascii_bytes "Man")) (VStr (py "CV.pdf")) env []
     = (Raise (Exn UnicodeEncodeError
                 (py "'utf-8' codec can't encode character '\ud800' in position 3: surrogates not allowed")),
        [])
  /\ (exists tr',
        send_emails (example_request (VList [recipient_a; recipient_b; recipient_c]))
                    env []
        = (Ok (JBatch (py "Email sending completed. Success: 2, Failed: 1")
                 [mkResult (py "a@x.org") (py "success") (py "Email sent successfully");
                  mkResult (py "b@x.org") (py "error") (py "(550, b'mailbox unavailable')");
                  mkResult (py "c@x.org") (py "success") (py "Email sent successfully")]
                 (mkSummary 2 1 3), 200%nat), tr')).
Proof.
  intros L env refused body_b.
  destruct submission_failure_is_isolated as (Hloop & Hone & Hthree).
  assert (Ra : exists body, renders env L example_template recipient_a (py "a@x.org") body
                            /\ encodable body = true).
  { eexists. split; [|shelve]. repeat split; try (vm_compute; reflexivity).
    eexists. split; vm_compute; reflexivity. Unshelve. vm_compute. reflexivity. }
  assert (Rb : renders env L example_template recipient_b (py "b@x.org") body_b).
  { repeat split; try (vm_compute; reflexivity).
    eexists. split; vm_compute; reflexivity. }
  assert (Rc : exists body, renders env L example_template recipient_c (py "c@x.org") body
                            /\ encodable body = true).
  { eexists. split; [|shelve]. repeat split; try (vm_compute; reflexivity).
    eexists. split; vm_compute; reflexivity. Unshelve. vm_compute. reflexivity. }
  assert (S : send_one (py "me@example.org") (py "b@x.org") (py "Application") body_b None
                (Some (ascii_bytes "Man")) (VStr (py "CV.pdf")) env
                [ESendmail (py "me@example.org") [py "a@x.org"] MIMEMultipart]
              = (Raise refused,
                 [ESendmail (py "me@example.org") [py "a@x.org"] MIMEMultipart]
                 ++ [ESendmail (py "me@example.org") [py "b@x.org"]
                       (request_message env (py "me@example.org") (py "b@x.org")
                          (py "Application") body_b (ascii_bytes "Man")
                          (VStr (py "CV.pdf")))])).
  { apply (proj1 (Hone env (py "me@example.org") (py "b@x.org") (py "Application") body_b
                    (ascii_bytes "Man") (VStr (py "CV.pdf"))
                    [ESendmail (py "me@example.org") [py "a@x.org"] MIMEMultipart]
                    refused)); vm_compute; reflexivity. }
  split; [|split; [|split]].
  - do 2 eexists. split; [|split; [|split]].
    + eapply (Hloop L example_template env recipient_b [recipient_c] _ _ (py "b@x.org")
                body_b 3%nat refused); [exact Rb|reflexivity|exact S].
    + reflexivity.
    + reflexivity.
    + reflexivity.
  - eexists. exact S.
  - apply (proj2 (Hone env (py "me@example.org") (py "b@x.org") (py "Application")
                    (py "<p>" ++ [0xD800] ++ py "</p>")
                    (ascii_bytes "Man") (VStr (py "CV.pdf")) [] _)).
    vm_compute. reflexivity.
  - destruct Ra as (ba & Ra & Ea), Rc as (bc & Rc & Ec).
    apply (Hthree _ L example_template env
             recipient_a recipient_b recipient_c _ _ _ ba body_b bc refused);
      try assumption; try reflexivity.
    + repeat split; try (vm_compute; reflexivity).
      eexists. repeat split; vm_compute; reflexivity.
    + repeat split; vm_compute; reflexivity.
    + repeat split; vm_compute; reflexivity.
Defined.

Lemma relay_open_failure_fails_batch_witness :
  let data := example_request (VList [recipient_a; recipient_b]) in
  let env := refusing_env example_template in
  (exists msg code added,
     send_emails data env [] = (Ok (JError msg, code), [] ++ added)
     /\ count is_sendmail added = 0%nat)
  /\ (exists e added,
        send_emails data env []
        = (Ok (batch_error e),
           ([] ++ template_events) ++ ESMTPConnect SMTP_SERVER SMTP_PORT :: added)
        /\ count is_sendmail added = 0%nat).
Proof.
  intros data env.
  assert (F : session_open_fails env data).
  { do 3 right. intros user password _ _. vm_compute. discriminate. }
  split.
  - apply (proj1 relay_open_failure_fails_batch data env [] F).
  - apply (proj2 relay_open_failure_fails_batch data
             (example_locals (VList [recipient_a; recipient_b])) example_template env []).
    + repeat split; try (vm_compute; reflexivity).
      eexists. repeat split; vm_compute; reflexivity.
    + repeat split; vm_compute; reflexivity.
    + exact F.
Defined.

Lemma pause_follows_every_send_witness :
  let env := example_env example_template second_fails in
  let run2 := send_emails (example_request (VList [recipient_a; recipient_b])) env [] in
  let run1 := send_emails (example_request (VList [recipient_a])) env [] in
  (paced (snd run2) = true
   /\ (count is_sendmail (snd run2) <= count is_sleep (snd run2))%nat
   /\ (exists m rs sm,
         fst run2 = Ok (JBatch m rs sm, 200%nat)
         /\ length rs = 2%nat
         /\ count is_sleep (snd run2) = length rs)
   /\ count is_sleep (snd run2) = 2%nat
   /\ count is_sendmail (snd run2) = 2%nat)
  /\ (count is_sleep (snd run1) = 0%nat /\ count is_sendmail (snd run1) = 1%nat).
Proof.
  intros env run2 run1.
  destruct (pause_follows_every_send
              (example_request (VList [recipient_a; recipient_b]))
              [recipient_a; recipient_b] env)
    as (_ & H2 & _); [vm_compute; reflexivity|].
  destruct (pause_follows_every_send
              (example_request (VList [recipient_a])) [recipient_a] env)
    as (_ & _ & H1); [vm_compute; reflexivity|].
  destruct H2 as (P2 & C2 & R2); [cbn; lia|].
  assert (R : exists m rs sm,
             fst run2 = Ok (JBatch m rs sm, 200%nat) /\ length rs = 2%nat)
    by (do 3 eexists; split; vm_compute; reflexivity).
  destruct R as (m & rs & sm & R & Hlen).
  split.
  - split; [exact P2|]. split; [exact C2|].
    split; [exists m, rs, sm; split; [exact R|split; [exact Hlen|exact (R2 _ _ _ _ R)]]|].
    split; vm_compute; reflexivity.
  - split; [apply H1; reflexivity|vm_compute; reflexivity].
Defined.

(** C7, as stated, fails in two ways.  For the batch, a recipient whose
    email is empty after trimming is not a validation error: the relay
    session is opened and the answer is a success with no result for that
    recipient.  And a request without a subject whose name is not a string
    is answered with the generic error, status 500, not with a validation
    error. *)
Lemma blank_recipient_email_is_not_rejected :
  let env := example_env example_template (fun _ => None) in
  let run := send_emails (example_request (VList [recipient_blank])) env [] in
  (field recipient_blank "email" "" = Ok []
   /\ ~ validation_rejects run [] JError
   /\ In (ESMTPConnect SMTP_SERVER SMTP_PORT) (snd run)
   /\ In (ELogin (py "me@example.org") (py "secret")) (snd run)
   /\ fst run = Ok (JBatch (py "Email sending completed. Success: 0, Failed: 0") []
                      (mkSummary 0 0 1), 200%nat))
  /\ (batch_field_missing example_untyped_request
      /\ send_emails example_untyped_request env []
         = (Ok (JError (py "Unexpected error: 'NoneType' object has no attribute 'strip'"),
                500%nat), [])).
Proof.
  intros env run. split.
  - split; [vm_compute; reflexivity|].
    split.
    + intros (msg & H). vm_compute in H. discriminate H.
    + repeat split; vm_compute; tauto.
  - split; [|vm_compute; reflexivity].
    right. right. unfold batch_text_keys. do 3 right. left. vm_compute. reflexivity.
Qed.

Lemma missing_required_field_is_rejected_witness :
  let env := example_env example_template (fun _ => None) in
  validation_rejects (send_emails (example_request (VList [])) env []) [] JError
  /\ validation_rejects (send_single_email example_single_request env []) [] JFailure
  /\ validation_rejects (test_email (example_test_request " " "TWFu") env []) [] JError
  /\ send_emails example_untyped_request env []
     = (Ok (JError (py "Unexpected error: 'NoneType' object has no attribute 'strip'"),
            500%nat), [])
  /\ send_single_email (VList []) env []
     = (Ok (JFailure (py "Unexpected error: 'list' object has no attribute 'get'"),
            500%nat), [])
  /\ test_email (str_dict [("email", "t@x.org")]%string) env []
     = (Ok (JError (py "Sender email is required"), 400%nat), [])
  /\ test_email (VDict {[ py "email" := VInt 7 ]}) env []
     = (Ok (JError (py "Unexpected error: 'int' object has no attribute 'strip'"),
            500%nat), []).
Proof.
  intros env.
  destruct missing_required_field_is_rejected
    as (Hbatch & Hsingle & Htest & Tbatch & Tsingle & Ttest).
  split; [|split; [|split; [|split; [|split; [|split]]]]].
  - apply (Hbatch (example_request (VList [])) env []).
    + left. eexists. split; vm_compute; reflexivity.
    + repeat constructor; eexists; vm_compute; reflexivity.
  - apply (Hsingle example_single_request env []).
    + right. right. unfold batch_text_keys. do 3 right. left. vm_compute. reflexivity.
    + split.
      * intros recipient H. vm_compute in H. injection H as <-.
        eexists. vm_compute. reflexivity.
      * repeat constructor; eexists; vm_compute; reflexivity.
  - apply (Htest (example_test_request " " "TWFu") env []).
    + right. unfold test_text_keys. left. vm_compute. reflexivity.
    + repeat constructor; eexists; vm_compute; reflexivity.
  - apply (Tbatch example_untyped_request env []
             (Exn AttributeError (py "'NoneType' object has no attribute 'strip'"))).
    vm_compute. reflexivity.
  - apply (Tsingle (VList []) env []
             (Exn AttributeError (py "'list' object has no attribute 'get'"))).
    vm_compute. reflexivity.
  - destruct (Htest (str_dict [("email", "t@x.org")]%string) env []) as (_ & H).
    + right. unfold test_text_keys. do 1 right. left. vm_compute. reflexivity.
    + destruct H as (msg & H).
      * repeat constructor; eexists; vm_compute; reflexivity.
      * rewrite H. vm_compute in H. injection H as <-. reflexivity.
  - apply (Ttest (VDict {[ py "email" := VInt 7 ]}) env []
             (Exn AttributeError (py "'int' object has no attribute 'strip'"))).
    vm_compute. reflexivity.
Defined.

Lemma test_email_renders_two_fields_witness :
  let run := test_email (example_test_request "t@x.org" "TWFu")
               (example_env (py "<p>Dear {greeting}, I apply for {job_title}.</p>")
                            (fun _ => None)) [] in
  fst run = Ok (JSuccess (py "Test email sent successfully to t@x.org"), 200%nat)
  /\ has_results_array (JSuccess (py "Test email sent successfully to t@x.org")) = false
  /\ exists msg,
       In (ESendmail (py "me@example.org") [py "t@x.org"] msg) (snd run)
       /\ html_text msg = Some (py "<p>Dear Acme Hiring Team, I apply for Engineer.</p>").
Proof.
  intros run.
  destruct (test_email_renders_two_fields (example_test_request "t@x.org" "TWFu")
              (example_env (py "<p>Dear {greeting}, I apply for {job_title}.</p>")
                           (fun _ => None)))
    as (_ & Hres & Hsent).
  assert (Hrun : fst run
                 = Ok (JSuccess (py "Test email sent successfully to t@x.org"), 200%nat))
    by (vm_compute; reflexivity).
  split; [exact Hrun|]. split; [exact (Hres _ _ Hrun)|].
  assert (Hin : exists msg, In (ESendmail (py "me@example.org") [py "t@x.org"] msg) (snd run)).
  { eexists. vm_compute. do 7 right. left. reflexivity. }
  destruct Hin as (msg & Hin). exists msg. split; [exact Hin|].
  destruct (Hsent _ _ _ Hin) as (tpl & Htpl & te & co & jt & g & rendered
                                 & H1 & H2 & H3 & H4 & H5 & H6).
  rewrite H6. f_equal.
  vm_compute in Htpl, H1, H2, H3. injection Htpl as <-. injection H1 as <-.
  injection H2 as <-. injection H3 as <-.
  vm_compute in H4. injection H4 as <-.
  vm_compute in H5. injection H5 as <-. vm_compute. reflexivity.
Defined.

(** A payload of white space passes the required-field check and decodes
    to the empty byte string: the message then goes out without an
    attachment part. *)
Lemma blank_payload_is_sent_without_attachment :
  exists msg,
    In (ESendmail (py "me@example.org") [py "t@x.org"] msg)
       (snd (test_email (example_test_request "t@x.org" " ")
               (example_env (py "<p>Dear {greeting}, I apply for {job_title}.</p>")
                            (fun _ => None)) []))
    /\ List.filter is_attachment (msg_parts msg) = [].
Proof.
  eexists. split.
  - vm_compute. do 7 right. left. reflexivity.
  - reflexivity.
Qed.

(** * Further properties of the handlers and of the message builder *)




Lemma pause_is_traffic n : forallb is_traffic (pause_after_send n) = true.
Proof. unfold pause_after_send. destruct (1 <? n)%nat; reflexivity. Qed.

Section LoopTraffic.
Variables (L : BatchLocals) (email_template : pystr) (env : Env).

(** Visiting [l1 ++ l2] is visiting [l1], then [l2] from the state and
    the trace that [l1] leaves. *)
Lemma send_loop_app_run l1 l2 :
  forall st tr,
    loop_of L email_template (l1 ++ l2) st env tr
    = bind (loop_of L email_template l1 st) (loop_of L email_template l2) env tr.
Proof.
  induction l1 as [|recipient rest IH]; intros st tr; [reflexivity|].
  cbn [app]. rewrite run_bind, !send_loop_cons.
  destruct (field recipient "email" "") as [to_email|e]; [|reflexivity].
  destruct (is_empty to_email); [rewrite IH; apply run_bind|].
  destruct (create_greeting recipient) as [greeting|e]; [|reflexivity].
  destruct (str_format env email_template _) as [body|e]; [|reflexivity].
  destruct (attempt env _ _ _ _ _ _ st tr) as [st1 tr1].
  destruct (py_len (l_recipients L)) as [n|e]; [|reflexivity].
  rewrite IH. apply run_bind.
Qed.

(** Whatever its outcome, the loop adds only pauses and submissions of the
    messages built for its recipients. *)
Lemma send_loop_events todo :
  forall st tr,
  exists added,
    snd (loop_of L email_template todo st env tr) = tr ++ added
    /\ forallb is_traffic added = true
    /\ Forall (loop_event env L email_template todo) added.
Proof.
  induction todo as [|recipient rest IH]; intros st tr.
  - exists []. rewrite app_nil_r. repeat split. constructor.
  - rewrite send_loop_cons.
    assert (Stop : exists added : list Event,
               tr = tr ++ added
               /\ forallb is_traffic added = true
               /\ Forall (loop_event env L email_template (recipient :: rest)) added).
    { exists []. rewrite app_nil_r. repeat split. constructor. }
    assert (Later : forall ev, loop_event env L email_template rest ev ->
                               loop_event env L email_template (recipient :: rest) ev).
    { intros ev [H|(r & t & b & Hin & Hr & Hb & H)]; [left; exact H|].
      right. exists r, t, b.
      split; [right; exact Hin | split; [exact Hr | split; [exact Hb | exact H]]]. }
    destruct (field recipient "email" "") as [to_email|e] eqn:He; [|exact Stop].
    destruct (is_empty to_email) eqn:Hne.
    { destruct (IH st tr) as (added & Hadd & Ht & Hall).
      exists added. repeat split; try assumption.
      eapply List.Forall_impl; [exact Later | exact Hall]. }
    destruct (create_greeting recipient) as [greeting|e] eqn:Hg; [|exact Stop].
    destruct (str_format env email_template _) as [body|e] eqn:Hf; [|exact Stop].
    assert (Hsend : encodable body = true ->
                    loop_event env L email_template (recipient :: rest)
                      (ESendmail (l_sender_email L) [to_email]
                         (request_message env (l_sender_email L) to_email (l_subject L)
                            body (l_pdf_data L) (l_pdf_filename L)))).
    { intros Hb. right. exists recipient, to_email, body.
      split; [left; reflexivity|]. split; [|split; [exact Hb | reflexivity]].
      split; [exact He|]. split; [exact Hne|].
      exists greeting. split; assumption. }
    destruct (attempt_trace env (l_sender_email L) to_email (l_subject L) body
                (l_pdf_data L) (l_pdf_filename L) st tr) as (sent & Hsent & Hshape).
    destruct (attempt env _ _ _ _ _ _ st tr) as [st1 tr1]. cbn [snd] in Hsent. subst tr1.
    assert (Hsent : forallb is_traffic sent = true
                    /\ Forall (loop_event env L email_template (recipient :: rest)) sent).
    { destruct Hshape as [(-> & _) | (-> & Hb)]; (split; [reflexivity|]);
        [constructor | constructor; [exact (Hsend Hb) | constructor]]. }
    destruct Hsent as (Hs1 & Hs2).
    destruct (py_len (l_recipients L)) as [n|e].
    + match goal with
      | |- context [loop_of L email_template rest ?s env ?t] =>
          destruct (IH s t) as (added & Hadd & Ht & Hall)
      end.
      rewrite Hadd.
      exists (sent ++ pause_after_send n ++ added).
      split; [rewrite <- !app_assoc; reflexivity|].
      split.
      * rewrite !forallb_app, Hs1, pause_is_traffic, Ht. reflexivity.
      * apply Forall_app. split; [exact Hs2|]. apply Forall_app. split.
        -- unfold pause_after_send. destruct (1 <? n)%nat; repeat constructor.
        -- eapply List.Forall_impl; [exact Later | exact Hall].
    + exists sent. split; [reflexivity|]. split; assumption.
Qed.

End LoopTraffic.

(** ** The session of one message *)

Lemma run_one_message_session sender_email app_password to_email subject body
      pdf_data pdf_filename ok failure env tr :
  one_message_session sender_email app_password to_email subject body
    pdf_data pdf_filename ok failure env tr =
  let msg := request_message env sender_email to_email subject body
               pdf_data pdf_filename in
  match smtp_connect env SMTP_SERVER SMTP_PORT with
  | Some e => (Ok (failure e), tr ++ [ESMTPConnect SMTP_SERVER SMTP_PORT])
  | None =>
      match smtp_ehlo env with
      | Some e =>
          (Ok (failure (closing env e)),
           tr ++ ESMTPConnect SMTP_SERVER SMTP_PORT
              :: firstn 1 (opening sender_email app_password) ++ [EQuit])
      | None =>
          match smtp_starttls env with
          | Some e =>
              (Ok (failure (closing env e)),
               tr ++ ESMTPConnect SMTP_SERVER SMTP_PORT
                  :: firstn 2 (opening sender_email app_password) ++ [EQuit])
          | None =>
              match smtp_login env sender_email app_password with
              | Some e =>
                  (Ok (failure (closing env e)),
                   tr ++ ESMTPConnect SMTP_SERVER SMTP_PORT
                      :: firstn 3 (opening sender_email app_password) ++ [EQuit])
              | None =>
                  match utf8_encode_error body with
                  | Some e =>
                      (Ok (failure (closing env e)),
                       tr ++ ESMTPConnect SMTP_SERVER SMTP_PORT
                          :: opening sender_email app_password ++ [EQuit])
                  | None =>
                      (Ok (match smtp_sendmail env (count is_sendmail tr)
                                   sender_email [to_email] msg with
                           | Some e => failure (closing env e)
                           | None =>
                               match exit_raises env with
                               | Some q => failure q
                               | None => ok
                               end
                           end),
                       tr ++ ESMTPConnect SMTP_SERVER SMTP_PORT
                          :: opening sender_email app_password
                          ++ [ESendmail sender_email [to_email] msg] ++ [EQuit])
                  end
              end
          end
      end
  end.
Proof.
  unfold one_message_session, try_except, any_exception, closing, opening.
  rewrite run_with_SMTP.
  destruct (smtp_connect env SMTP_SERVER SMTP_PORT) as [e|]; [reflexivity|].
  rewrite run_open.
  destruct (smtp_ehlo env) as [e|];
    [destruct (exit_raises env); unfold ret; rewrite <- !app_assoc; reflexivity|].
  destruct (smtp_starttls env) as [e|];
    [destruct (exit_raises env); unfold ret; rewrite <- !app_assoc; reflexivity|].
  destruct (smtp_login env _ _) as [e|];
    [destruct (exit_raises env); unfold ret; rewrite <- !app_assoc; reflexivity|].
  rewrite run_bind, run_send_one. cbv zeta.
  destruct (utf8_encode_error body) as [e|];
    [destruct (exit_raises env); unfold ret; rewrite <- !app_assoc; reflexivity|].
  rewrite !count_app. cbn [count List.filter is_sendmail length]. rewrite !Nat.add_0_r.
  destruct (smtp_sendmail env _ _ _ _) as [e|]; cbv beta iota;
    destruct (exit_raises env); unfold ret; rewrite <- !app_assoc; reflexivity.
Qed.

(** ** The single-send and test-send handlers up to the relay session *)

(** A single-send request that passes the checks and renders, with the
    template in place, reaches the session of its one message. *)
Lemma send_single_email_valid data L to_email email_template body env tr :
  reads_single data L to_email ->
  template_loads env tr email_template ->
  renders env L email_template (l_recipients L) to_email body ->
  send_single_email data env tr
  = single_session_of L to_email body env (tr ++ template_events).
Proof.
  intros (H0 & H1 & H2 & H3 & H4 & H5 & (pdf & H6 & H6t & H6d) & H7 & H8 & H9
          & T1 & T2 & T3 & T4 & T5 & T6 & T7) (E1 & E2 & E3)
         (_ & _ & greeting & Hg & Hf).
  unfold send_single_email, try_except.
  lift_step. rewrite H0. lift_step. rewrite H1. lift_step. rewrite H2.
  lift_step. rewrite H3. lift_step. rewrite H4. lift_step. rewrite H5.
  lift_step. rewrite H6. lift_step. rewrite H7. lift_step. rewrite H8.
  lift_step. rewrite H9.
  rewrite T1, T2, T3, T4, T5, H6t, T6, T7, H6d. cbn [negb].
  config_step. rewrite E1. template_step.
  rewrite count_app, Nat.add_1_r, E2, E3. cbv beta iota.
  rewrite <- app_assoc. unfold send_single_render_and_send.
  lift_step. rewrite Hg. rewrite run_bind_env.
  fold (full_kwargs greeting (l_job_title L) (l_name L) (l_phone_number L)
          (l_sender_email L)).
  rewrite Hf.
  match goal with
  | |- context [try_except ?m any_exception ?h env ?t] =>
      change (try_except m any_exception h env t)
        with (single_session_of L to_email body env t)
  end.
  unfold single_session_of. rewrite !run_one_message_session. cbv zeta.
  destruct (smtp_connect env SMTP_SERVER SMTP_PORT); [reflexivity|].
  destruct (smtp_ehlo env); [reflexivity|].
  destruct (smtp_starttls env); [reflexivity|].
  destruct (smtp_login env _ _); [reflexivity|].
  destruct (utf8_encode_error body); reflexivity.
Qed.

(** Every run of [send_single_email] either stops before the relay with
    an error body, or has read its locals, loaded the template and
    rendered the body. *)
Lemma send_single_email_cases data env tr :
  stops_early (send_single_email data env tr) tr JFailure
  \/ exists L to_email email_template body,
       reads_single data L to_email
       /\ template_loads env tr email_template
       /\ renders env L email_template (l_recipients L) to_email body.
Proof.
  unfold stops_early, send_single_email, try_except.
  lift_step. destruct (py_get data "recipient" (VDict ∅)) as [recipient|e] eqn:H0; [|stopped].
  lift_step. destruct (field recipient "email" "") as [to_email|e] eqn:H1; [|stopped].
  lift_step. destruct (field data "sender_email" "") as [sender_email|e] eqn:H2; [|stopped].
  lift_step. destruct (field data "app_password" "") as [app_password|e] eqn:H3; [|stopped].
  lift_step. destruct (field data "job_title" "") as [job_title|e] eqn:H4; [|stopped].
  lift_step. destruct (field data "subject" "") as [subject|e] eqn:H5; [|stopped].
  lift_step. destruct (py_get data "pdf_file" (VStr (py ""))) as [pdf_file|e] eqn:H6; [|stopped].
  lift_step. destruct (py_get data "pdf_filename" (VStr (py "CV.pdf"))) as [pdf_filename|e] eqn:H7;
    [|stopped].
  lift_step. destruct (field data "name" "") as [name|e] eqn:H8; [|stopped].
  lift_step. destruct (field data "phone_number" "") as [phone_number|e] eqn:H9; [|stopped].
  destruct (is_empty to_email) eqn:T1; [stopped|].
  destruct (is_empty sender_email) eqn:T2; [stopped|].
  destruct (is_empty app_password) eqn:T3; [stopped|].
  destruct (is_empty job_title) eqn:T4; [stopped|].
  destruct (is_empty subject) eqn:T5; [stopped|].
  destruct (truthy pdf_file) eqn:T6; cbn [negb]; [|stopped].
  destruct (is_empty name) eqn:T7; [stopped|].
  destruct (is_empty phone_number) eqn:T8; [stopped|].
  destruct (b64decode pdf_file) as [pdf_data|e] eqn:D; [|stopped].
  config_step.
  destruct (path_exists env (count is_path_exists tr) TEMPLATE_PATH) eqn:E1; [|stopped].
  template_step. rewrite count_app, Nat.add_1_r.
  destruct (path_exists env (S (count is_path_exists tr)) TEMPLATE_PATH) eqn:E2; [|stopped].
  destruct (read_text env TEMPLATE_PATH) as [email_template|e] eqn:E3; [|stopped].
  unfold send_single_render_and_send.
  lift_step. destruct (create_greeting recipient) as [greeting|e] eqn:Hg; [|stopped].
  rewrite run_bind_env.
  destruct (str_format env email_template _) as [body|e] eqn:Hf; [|stopped].
  right.
  exists (mkLocals recipient sender_email app_password job_title subject
                   pdf_data pdf_filename name phone_number), to_email, email_template, body.
  unfold reads_single, template_loads, renders. cbn.
  repeat split; try assumption.
  - exists pdf_file. repeat split; assumption.
  - exists greeting. split; assumption.
Qed.

(** A test-send request that passes the checks and renders, with the
    template in place, reaches the session of its one message. *)
Lemma test_email_valid data T email_template body env tr :
  reads_test data T ->
  template_loads env tr email_template ->
  test_renders env data T email_template body ->
  test_email data env tr = test_session_of T body env (tr ++ template_events).
Proof.
  intros (H1 & H2 & H3 & H4 & H5 & (pdf & H6 & H6t & H6d) & H7
          & T1 & T2 & T3 & T4 & T5) (E1 & E2 & E3) (company & greeting & Hc & Hg & Hf).
  unfold test_email, try_except.
  lift_step. rewrite H1. lift_step. rewrite H2.
  lift_step. rewrite H3. lift_step. rewrite H4. lift_step. rewrite H5.
  lift_step. rewrite H6. lift_step. rewrite H7.
  rewrite T1, T2, T3, T4, T5, H6t, H6d. cbn [negb].
  config_step. rewrite E1. template_step.
  rewrite count_app, Nat.add_1_r, E2, E3. cbv beta iota.
  rewrite <- app_assoc. unfold test_email_render_and_send.
  lift_step. rewrite Hc. lift_step. fold (test_recipient (t_email T) company).
  rewrite Hg. rewrite run_bind_env, Hf.
  match goal with
  | |- context [try_except ?m any_exception ?h env ?t] =>
      change (try_except m any_exception h env t)
        with (test_session_of T body env t)
  end.
  unfold test_session_of. rewrite !run_one_message_session. cbv zeta.
  destruct (smtp_connect env SMTP_SERVER SMTP_PORT); [reflexivity|].
  destruct (smtp_ehlo env); [reflexivity|].
  destruct (smtp_starttls env); [reflexivity|].
  destruct (smtp_login env _ _); [reflexivity|].
  destruct (utf8_encode_error body); reflexivity.
Qed.

(** Every run of [test_email] either stops before the relay with an error
    body, or has read its locals, loaded the template and rendered the
    body. *)
Lemma test_email_cases data env tr :
  stops_early (test_email data env tr) tr JError
  \/ exists T email_template body,
       reads_test data T
       /\ template_loads env tr email_template
       /\ test_renders env data T email_template body.
Proof.
  unfold stops_early, test_email, try_except.
  lift_step. destruct (field data "email" "") as [test_email_|e] eqn:H1; [|stopped].
  lift_step. destruct (field data "sender_email" "") as [sender_email|e] eqn:H2; [|stopped].
  lift_step. destruct (field data "app_password" "") as [app_password|e] eqn:H3; [|stopped].
  lift_step. destruct (field data "job_title" "") as [job_title|e] eqn:H4; [|stopped].
  lift_step. destruct (field data "subject" "") as [subject|e] eqn:H5; [|stopped].
  lift_step. destruct (py_get data "pdf_file" (VStr (py ""))) as [pdf_file|e] eqn:H6; [|stopped].
  lift_step. destruct (py_get data "pdf_filename" (VStr (py "CV.pdf"))) as [pdf_filename|e] eqn:H7;
    [|stopped].
  destruct (is_empty test_email_) eqn:T1; [stopped|].
  destruct (is_empty sender_email) eqn:T2; [stopped|].
  destruct (is_empty app_password) eqn:T3; [stopped|].
  destruct (is_empty job_title) eqn:T4; [stopped|].
  destruct (is_empty subject) eqn:T5; [stopped|].
  destruct (truthy pdf_file) eqn:T6; cbn [negb]; [|stopped].
  destruct (b64decode pdf_file) as [pdf_data|e] eqn:D; [|stopped].
  config_step.
  destruct (path_exists env (count is_path_exists tr) TEMPLATE_PATH) eqn:E1; [|stopped].
  template_step. rewrite count_app, Nat.add_1_r.
  destruct (path_exists env (S (count is_path_exists tr)) TEMPLATE_PATH) eqn:E2; [|stopped].
  destruct (read_text env TEMPLATE_PATH) as [email_template|e] eqn:E3; [|stopped].
  unfold test_email_render_and_send.
  lift_step. destruct (py_get data "company" (VStr (py ""))) as [company|e] eqn:Hc; [|stopped].
  lift_step. fold (test_recipient test_email_ company).
  destruct (create_greeting (test_recipient test_email_ company)) as [greeting|e] eqn:Hg;
    [|stopped].
  rewrite run_bind_env.
  destruct (str_format env email_template _) as [body|e] eqn:Hf; [|stopped].
  right.
  exists (mkTest test_email_ sender_email app_password job_title subject
                 pdf_data pdf_filename), email_template, body.
  unfold reads_test, template_loads, test_renders. cbn.
  repeat split; try assumption.
  - exists pdf_file. repeat split; assumption.
  - exists company, greeting. repeat split; assumption.
Qed.

(** ** The shape of the trace of a call *)

Lemma batch_session_events L email_template env tr :
  exists traffic s,
    snd (unexpected (batch_session_of L email_template) env tr) = tr ++ s
    /\ session_events env (l_sender_email L) (l_app_password L) traffic s
    /\ forallb is_traffic traffic = true
    /\ Forall (fun ev => exists todo,
                 py_iter (l_recipients L) = Ok todo
                 /\ loop_event env L email_template todo ev) traffic.
Proof.
  rewrite run_batch_session. cbv zeta. unfold session_events.
  destruct (smtp_connect env SMTP_SERVER SMTP_PORT) as [e|] eqn:Hc.
  { exists [], [ESMTPConnect SMTP_SERVER SMTP_PORT].
    split; [reflexivity|]. split; [left; split; [discriminate | reflexivity]|].
    split; [reflexivity | constructor]. }
  rewrite run_batch_block. cbv zeta.
  assert (Early : forall k (r : result Response) tr1,
             (1 <= k <= 3)%nat ->
             tr1 = tr ++ ESMTPConnect SMTP_SERVER SMTP_PORT
                      :: firstn k (opening (l_sender_email L) (l_app_password L)) ->
             exists traffic s,
               snd (match exit_raises env with
                    | Some e => (Ok (batch_error e), tr1 ++ [EQuit])
                    | None =>
                        match r with
                        | Ok response => (Ok response, tr1 ++ [EQuit])
                        | Raise e => (Ok (batch_error e), tr1 ++ [EQuit])
                        end
                    end) = tr ++ s
               /\ ((None <> None :> option exn
                    /\ s = [ESMTPConnect SMTP_SERVER SMTP_PORT])
                   \/ (exists k, (1 <= k <= 3)%nat
                         /\ s = ESMTPConnect SMTP_SERVER SMTP_PORT
                                :: firstn k (opening (l_sender_email L) (l_app_password L))
                                ++ [EQuit])
                   \/ s = ESMTPConnect SMTP_SERVER SMTP_PORT
                          :: opening (l_sender_email L) (l_app_password L)
                          ++ traffic ++ [EQuit])
               /\ forallb is_traffic traffic = true
               /\ Forall (fun ev => exists todo,
                            py_iter (l_recipients L) = Ok todo
                            /\ loop_event env L email_template todo ev) traffic).
  { intros k r tr1 Hk ->. exists []. eexists.
    split; [|split; [right; left; exists k; split; [exact Hk | reflexivity]|
                     split; [reflexivity | constructor]]].
    destruct (exit_raises env); [|destruct r]; cbn [snd];
      rewrite <- app_assoc; reflexivity. }
  destruct (smtp_ehlo env) as [e|];
    [apply (Early 1%nat (Raise e)); [lia | rewrite <- app_assoc; reflexivity]|].
  destruct (smtp_starttls env) as [e|];
    [apply (Early 2%nat (Raise e)); [lia | rewrite <- app_assoc; reflexivity]|].
  destruct (smtp_login env _ _) as [e|];
    [apply (Early 3%nat (Raise e)); [lia | rewrite <- app_assoc; reflexivity]|].
  destruct (py_iter (l_recipients L)) as [todo|e] eqn:Hiter;
    [|apply (Early 3%nat (Raise e)); [lia | rewrite <- app_assoc; reflexivity]].
  match goal with
  | |- context [loop_of L email_template todo ?s env ?t] =>
      destruct (send_loop_events L email_template env todo s t)
        as (added & Hadd & Htraffic & Hall);
      destruct (loop_of L email_template todo s env t) as [r tr4]
  end.
  cbn [snd] in Hadd. subst tr4. exists added. eexists.
  split; [|split; [right; right; reflexivity|split; [exact Htraffic|]]].
  - destruct r as [st|e]; [destruct (py_len _)|]; destruct (exit_raises env);
      cbn [snd]; unfold opening; rewrite <- !app_assoc; reflexivity.
  - eapply List.Forall_impl; [|exact Hall]. intros ev Hev. exists todo. split; [reflexivity | exact Hev].
Qed.

Lemma one_message_session_events sender_email app_password to_email subject body
      pdf_data pdf_filename ok failure env tr :
  exists traffic s,
    snd (one_message_session sender_email app_password to_email subject body
           pdf_data pdf_filename ok failure env tr) = tr ++ s
    /\ session_events env sender_email app_password traffic s
    /\ (traffic = []
        \/ encodable body = true
           /\ traffic = [ESendmail sender_email [to_email]
                           (request_message env sender_email to_email subject body
                              pdf_data pdf_filename)]).
Proof.
  rewrite run_one_message_session. cbv zeta. unfold session_events.
  destruct (smtp_connect env SMTP_SERVER SMTP_PORT) as [e|] eqn:Hc.
  { exists [], [ESMTPConnect SMTP_SERVER SMTP_PORT].
    split; [reflexivity|]. split; [left; split; [discriminate | reflexivity]|].
    left. reflexivity. }
  destruct (smtp_ehlo env) as [e|].
  { exists []. eexists. split; [reflexivity|].
    split; [right; left; exists 1%nat; split; [lia | reflexivity] | left; reflexivity]. }
  destruct (smtp_starttls env) as [e|].
  { exists []. eexists. split; [reflexivity|].
    split; [right; left; exists 2%nat; split; [lia | reflexivity] | left; reflexivity]. }
  destruct (smtp_login env _ _) as [e|].
  { exists []. eexists. split; [reflexivity|].
    split; [right; left; exists 3%nat; split; [lia | reflexivity] | left; reflexivity]. }
  destruct (utf8_encode_error body) as [e|] eqn:Hb.
  { exists []. eexists. split; [reflexivity|].
    split; [right; left; exists 3%nat; split; [lia | reflexivity] | left; reflexivity]. }
  eexists. eexists. split; [reflexivity|].
  split; [right; right; reflexivity|].
  right. split; [apply utf8_encode_error_none, Hb | reflexivity].
Qed.

Lemma phase_after_app a b ph :
  phase_after ph (a ++ b)
  = match phase_after ph a with
    | Some ph' => phase_after ph' b
    | None => None
    end.
Proof.
  revert ph. induction a as [|ev a IH]; intros ph; [reflexivity|].
  cbn [app phase_after]. destruct (phase_step ph ev); [apply IH | reflexivity].
Qed.

Lemma phase_after_files fs :
  forallb is_file_event fs = true -> phase_after Idle fs = Some Idle.
Proof.
  induction fs as [|ev fs IH]; [reflexivity|].
  cbn [forallb]. intros [Hev Hfs]%andb_prop.
  destruct ev; try discriminate Hev; cbn [phase_after phase_step]; exact (IH Hfs).
Qed.

Lemma phase_after_traffic traffic :
  forallb is_traffic traffic = true ->
  phase_after Authenticated traffic = Some Authenticated.
Proof.
  induction traffic as [|ev rest IH]; [reflexivity|].
  cbn [forallb]. intros [Hev Hrest]%andb_prop.
  destruct ev; try discriminate Hev; cbn [phase_after phase_step]; exact (IH Hrest).
Qed.

Lemma in_firstn {A} (x : A) k (l : list A) : In x (firstn k l) -> In x l.
Proof.
  revert l. induction k as [|k IH]; intros [|a l]; cbn [firstn In]; try tauto.
  intros [H|H]; [left; exact H | right; exact (IH l H)].
Qed.

(** A trace of the shape [call_trace] follows the protocol. *)
Lemma call_trace_follows_protocol env data ok tr :
  call_trace env data ok tr -> follows_protocol env tr.
Proof.
  intros (fs & s & -> & Hfs & Hs). unfold follows_protocol.
  rewrite phase_after_app, (phase_after_files fs Hfs).
  destruct Hs as [-> | (user & password & traffic & _ & _ & Hs & Ht & _)];
    [exists Idle; split; [reflexivity | left; reflexivity]|].
  destruct Hs as [(Hc & ->) | [(k & Hk & ->) | ->]].
  - exists Connected. split; [reflexivity | right; right; split; [reflexivity | exact Hc]].
  - exists Closed. split; [|right; left; reflexivity].
    destruct k as [|[|[|[|k]]]]; try lia; reflexivity.
  - exists Closed. split; [|right; left; reflexivity].
    unfold opening. cbn [phase_after app].
    change (phase_step Idle (ESMTPConnect SMTP_SERVER SMTP_PORT)) with (Some Connected).
    cbn [phase_after phase_step].
    rewrite phase_after_app, (phase_after_traffic traffic Ht). reflexivity.
Qed.

(** In a trace of the shape [call_trace], a login carries the trimmed
    credentials of the request. *)
Lemma call_trace_login env data ok tr user password :
  call_trace env data ok tr ->
  In (ELogin user password) tr ->
  field data "sender_email" "" = Ok user /\ field data "app_password" "" = Ok password.
Proof.
  intros (fs & s & -> & Hfs & Hs) Hin.
  apply in_app_or in Hin as [Hin|Hin].
  { rewrite forallb_forall in Hfs. apply Hfs in Hin. discriminate Hin. }
  destruct Hs as [-> | (u & p & traffic & Hu & Hp & Hs & Ht & _)]; [destruct Hin|].
  assert (Hup : In (ELogin user password) (opening u p)
                \/ In (ELogin user password) traffic).
  { destruct Hs as [(Hc & ->) | [(k & Hk & ->) | ->]].
    - destruct Hin as [H|[]]; discriminate H.
    - destruct Hin as [H|Hin]; [discriminate H|].
      apply in_app_or in Hin as [Hin|[H|[]]]; [|discriminate H].
      left. exact (in_firstn _ _ _ Hin).
    - destruct Hin as [H|Hin]; [discriminate H|].
      apply in_app_or in Hin as [Hin|Hin]; [left; exact Hin|].
      apply in_app_or in Hin as [Hin|[H|[]]]; [right; exact Hin | discriminate H]. }
  destruct Hup as [[H|[H|[H|[]]]] | Hin']; try discriminate H.
  - injection H as <- <-. split; assumption.
  - rewrite forallb_forall in Ht. apply Ht in Hin'. discriminate Hin'.
Qed.

(** In a trace of the shape [call_trace], a send is part of the traffic of
    the session. *)
Lemma call_trace_send env data ok tr f t m :
  call_trace env data ok tr ->
  In (ESendmail f t m) tr ->
  exists traffic, ok traffic /\ In (ESendmail f t m) traffic.
Proof.
  intros (fs & s & -> & Hfs & Hs) Hin.
  apply in_app_or in Hin as [Hin|Hin].
  { rewrite forallb_forall in Hfs. apply Hfs in Hin. discriminate Hin. }
  destruct Hs as [-> | (u & p & traffic & Hu & Hp & Hs & Ht & Hok)]; [destruct Hin|].
  exists traffic. split; [exact Hok|].
  destruct Hs as [(Hc & ->) | [(k & Hk & ->) | ->]].
  - destruct Hin as [H|[]]; discriminate H.
  - destruct Hin as [H|Hin]; [discriminate H|].
    apply in_app_or in Hin as [Hin|[H|[]]]; [|discriminate H].
    apply in_firstn in Hin. destruct Hin as [H|[H|[H|[]]]]; discriminate H.
  - destruct Hin as [H|Hin]; [discriminate H|].
    apply in_app_or in Hin as [[H|[H|[H|[]]]]|Hin]; try discriminate H.
    apply in_app_or in Hin as [Hin|[H|[]]]; [exact Hin | discriminate H].
Qed.

Lemma send_emails_call_trace data env :
  call_trace env data (batch_traffic env data) (snd (send_emails data env [])).
Proof.
  destruct (send_emails_cases data env [])
    as [(msg & code & tr' & Hrun & (fs & -> & Hfs) & _) | (L & tpl & HL & HT)].
  - rewrite Hrun. exists fs, []. cbn [snd app]. rewrite app_nil_r.
    split; [reflexivity | split; [exact Hfs | left; reflexivity]].
  - rewrite (send_emails_valid data L tpl env [] HL HT).
    destruct (batch_session_events L tpl env ([] ++ template_events))
      as (traffic & s & -> & Hs & Ht & Hall).
    exists template_events, s. split; [reflexivity|]. split; [reflexivity|].
    right. exists (l_sender_email L), (l_app_password L), traffic.
    split; [apply HL|]. split; [apply HL|].
    split; [exact Hs|]. split; [exact Ht|].
    exists L, tpl. split; [exact HL | split; [exact HT | exact Hall]].
Qed.

Lemma send_single_email_call_trace data env :
  call_trace env data (single_traffic env data) (snd (send_single_email data env [])).
Proof.
  destruct (send_single_email_cases data env [])
    as [(msg & code & tr' & Hrun & (fs & -> & Hfs) & _) | (L & to & tpl & body & HL & HT & HR)].
  - rewrite Hrun. exists fs, []. cbn [snd app]. rewrite app_nil_r.
    split; [reflexivity | split; [exact Hfs | left; reflexivity]].
  - rewrite (send_single_email_valid data L to tpl body env [] HL HT HR).
    unfold single_session_of.
    match goal with
    | |- context [one_message_session ?a ?b ?c ?d ?e ?f ?g ?h ?i env ?t] =>
        destruct (one_message_session_events a b c d e f g h i env t)
          as (traffic & s & -> & Hs & Ht)
    end.
    exists template_events, s. split; [reflexivity|]. split; [reflexivity|].
    right. exists (l_sender_email L), (l_app_password L), traffic.
    split; [apply HL|]. split; [apply HL|].
    split; [exact Hs|]. split; [destruct Ht as [-> | (_ & ->)]; reflexivity|].
    exists L, to, tpl, body.
    split; [exact HL | split; [exact HT | split; [exact HR | exact Ht]]].
Qed.

Lemma test_email_call_trace data env :
  call_trace env data (test_traffic env data) (snd (test_email data env [])).
Proof.
  destruct (test_email_cases data env [])
    as [(msg & code & tr' & Hrun & (fs & -> & Hfs) & _) | (T & tpl & body & HL & HT & HR)].
  - rewrite Hrun. exists fs, []. cbn [snd app]. rewrite app_nil_r.
    split; [reflexivity | split; [exact Hfs | left; reflexivity]].
  - rewrite (test_email_valid data T tpl body env [] HL HT HR).
    unfold test_session_of.
    match goal with
    | |- context [one_message_session ?a ?b ?c ?d ?e ?f ?g ?h ?i env ?t] =>
        destruct (one_message_session_events a b c d e f g h i env t)
          as (traffic & s & -> & Hs & Ht)
    end.
    exists template_events, s. split; [reflexivity|]. split; [reflexivity|].
    right. exists (t_sender_email T), (t_app_password T), traffic.
    split; [apply HL|]. split; [apply HL|].
    split; [exact Hs|]. split; [destruct Ht as [-> | (_ & ->)]; reflexivity|].
    exists T, tpl, body.
    split; [exact HL | split; [exact HT | split; [exact HR | exact Ht]]].
Qed.

(** X1.  In every call of each of the three handlers the events follow
    the order of the relay protocol: the file system is accessed before
    the connection only; there is at most one connection, to
    smtp.gmail.com port 587; the greeting, the encryption upgrade and the
    login come in this order; messages are submitted, and pauses taken,
    only after the login; and once the connection is established the call
    ends with the closing QUIT, after which nothing happens. *)
Theorem handlers_follow_relay_protocol data env :
  follows_protocol env (snd (send_emails data env []))
  /\ follows_protocol env (snd (send_single_email data env []))
  /\ follows_protocol env (snd (test_email data env [])).
Proof.
  split; [|split].
  - exact (call_trace_follows_protocol _ _ _ _ (send_emails_call_trace data env)).
  - exact (call_trace_follows_protocol _ _ _ _ (send_single_email_call_trace data env)).
  - exact (call_trace_follows_protocol _ _ _ _ (test_email_call_trace data env)).
Qed.

(** X2.  Whenever one of the three handlers logs in to the relay, it does
    so with the sender email and the app password of the request, both
    trimmed of surrounding white space. *)
Theorem login_uses_request_credentials data env user password :
  (In (ELogin user password) (snd (send_emails data env []))
   \/ In (ELogin user password) (snd (send_single_email data env []))
   \/ In (ELogin user password) (snd (test_email data env []))) ->
  field data "sender_email" "" = Ok user
  /\ field data "app_password" "" = Ok password.
Proof.
  intros [H|[H|H]].
  - exact (call_trace_login _ _ _ _ _ _ (send_emails_call_trace data env) H).
  - exact (call_trace_login _ _ _ _ _ _ (send_single_email_call_trace data env) H).
  - exact (call_trace_login _ _ _ _ _ _ (test_email_call_trace data env) H).
Qed.

Lemma login_uses_request_credentials_witness :
  field example_single_ok "sender_email" "" = Ok (py "me@example.org")
  /\ field example_single_ok "app_password" "" = Ok (py "secret").
Proof.
  apply (login_uses_request_credentials example_single_ok
           (example_env example_template (fun _ => None))).
  right. left. vm_compute. do 6 right. left. reflexivity.
Defined.

(** ** The batch handler: what was submitted and what was recorded *)


Lemma reads_batch_unique data L1 L2 : reads_batch data L1 -> reads_batch data L2 -> L1 = L2.
Proof.
  intros (A1 & A2 & A3 & A4 & A5 & (pa & A6 & _ & A6d) & A7 & A8 & A9 & _)
         (B1 & B2 & B3 & B4 & B5 & (pb & B6 & _ & B6d) & B7 & B8 & B9 & _).
  destruct L1, L2. cbn in *.
  rewrite A6 in B6. injection B6 as <-.
  f_equal; congruence.
Qed.



(** A recipient that renders is a record, so the value it was iterated
    from is a list. *)
Lemma rendered_recipient_of_list env L email_template v todo recipient to_email body :
  py_iter v = Ok todo ->
  In recipient todo ->
  renders env L email_template recipient to_email body ->
  v = VList todo.
Proof.
  intros Hi Hin (He & _). destruct v; try discriminate Hi; injection Hi as <-.
  - apply in_map_iff in Hin as (c & <- & _). discriminate He.
  - reflexivity.
  - apply in_map_iff in Hin as (kv & <- & _). discriminate He.
Qed.

(** A send of the batch handler, traced back to the recipient it was
    made for. *)
Lemma batch_send_inversion data env f t msg :
  In (ESendmail f t msg) (snd (send_emails data env [])) ->
  exists L l recipient email_template to_email body,
    reads_batch data L
    /\ l_recipients L = VList l
    /\ In recipient l
    /\ read_text env TEMPLATE_PATH = Ok email_template
    /\ renders env L email_template recipient to_email body
    /\ encodable body = true
    /\ f = l_sender_email L
    /\ t = [to_email]
    /\ msg = request_message env (l_sender_email L) to_email (l_subject L) body
               (l_pdf_data L) (l_pdf_filename L).
Proof.
  intros Hin.
  destruct (call_trace_send _ _ _ _ _ _ _ (send_emails_call_trace data env) Hin)
    as (traffic & (L & tpl & HL & HT & Hall) & Hin').
  rewrite List.Forall_forall in Hall.
  destruct (Hall _ Hin') as (todo & Hiter & [H | (r & to & body & Hr & Hren & Hb & H)]);
    [discriminate H|].
  injection H as -> -> ->.
  exists L, todo, r, tpl, to, body.
  split; [exact HL|].
  split; [exact (rendered_recipient_of_list _ _ _ _ _ _ _ _ Hiter Hr Hren)|].
  split; [exact Hr|]. split; [apply HT|]. split; [exact Hren|]. split; [exact Hb|].
  repeat split.
Qed.

(** X4.  Every message the batch handler submits is the message built for
    one recipient record of the request's list: it goes from the trimmed
    sender email to the one trimmed address of that record, and it is the
    message of [build_message] for that sender, that address, the trimmed
    subject, the template rendered with the greeting of the record and the
    job title, name, phone number and sender email of the request, and the
    decoded attachment under the file name of the request. *)
Theorem batch_submits_the_message_of_a_recipient data env f t msg :
  In (ESendmail f t msg) (snd (send_emails data env [])) ->
  exists L l recipient email_template to_email body,
    reads_batch data L
    /\ l_recipients L = VList l
    /\ In recipient l
    /\ read_text env TEMPLATE_PATH = Ok email_template
    /\ renders env L email_template recipient to_email body
    /\ f = l_sender_email L
    /\ t = [to_email]
    /\ build_message (l_sender_email L) to_email (l_subject L) body None
         (Some (l_pdf_data L)) (l_pdf_filename L) env [] = (Ok msg, []).
Proof.
  intros Hin.
  destruct (batch_send_inversion data env f t msg Hin)
    as (L & l & r & tpl & to & body & HL & Hl & Hr & Ht & Hren & Hb & Hf & Hto & ->).
  exists L, l, r, tpl, to, body.
  repeat (split; [assumption|]).
  rewrite run_build_message, (proj2 (utf8_encode_error_none body) Hb). reflexivity.
Qed.

Lemma batch_submits_the_message_of_a_recipient_witness :
  let data := example_request (VList [recipient_a; recipient_c]) in
  let env := example_env example_template (fun _ => None) in
  exists msg body,
    In (ESendmail (py "me@example.org") [py "c@x.org"] msg) (snd (send_emails data env []))
    /\ renders env (example_locals (VList [recipient_a; recipient_c])) example_template
         recipient_c (py "c@x.org") body
    /\ html_text msg = Some body.
Proof.
  intros data env.
  assert (H : exists msg,
             In (ESendmail (py "me@example.org") [py "c@x.org"] msg)
                (snd (send_emails data env [])))
    by (eexists; vm_compute; do 9 right; left; reflexivity).
  destruct H as (msg & H). exists msg.
  destruct (batch_submits_the_message_of_a_recipient data env _ _ msg H)
    as (L & l & r & tpl & to & body & HL & Hl & Hr & Ht & Hren & Hf & Hto & Hmsg).
  injection Hto as <-.
  assert (HL' : reads_batch data (example_locals (VList [recipient_a; recipient_c]))).
  { repeat split; try (vm_compute; reflexivity).
    eexists. repeat split; vm_compute; reflexivity. }
  rewrite (reads_batch_unique _ _ _ HL HL') in *.
  vm_compute in Ht. injection Ht as <-.
  injection Hl as <-.
  exists body.
  rewrite run_build_message in Hmsg.
  destruct (utf8_encode_error body); [discriminate Hmsg|]. injection Hmsg as <-.
  split; [exact H|]. split; [|apply html_text_request_message].
  destruct Hr as [<- | [<- | []]]; [|exact Hren].
  destruct Hren as (He & _). vm_compute in He. discriminate He.
Defined.

Lemma request_message_headers env sender to_email subject body pdf_data pdf_filename :
  let msg := request_message env sender to_email subject body pdf_data pdf_filename in
  get_all (msg_headers msg) "From" = [sender]
  /\ get_all (msg_headers msg) "To" = [to_email]
  /\ get_all (msg_headers msg) "Subject" = [subject].
Proof. destruct pdf_data; repeat split. Qed.

Lemma request_message_attachments env sender to_email subject body pdf_data pdf_filename :
  List.filter is_attachment
    (msg_parts (request_message env sender to_email subject body pdf_data pdf_filename))
  = match pdf_data with
    | [] => []
    | _ => [attachment_part pdf_data (format_value env pdf_filename)]
    end.
Proof. destruct pdf_data; reflexivity. Qed.

(** X5.  All the messages of one batch carry the same sender, the same
    subject and the same attachment: for any two submissions of a call,
    the envelope senders, the From and Subject headers and the attachment
    parts (payload and file name) are equal; and the To header of each
    message is its one envelope recipient. *)
Theorem batch_messages_share_sender_subject_attachment data env f1 t1 m1 f2 t2 m2 :
  In (ESendmail f1 t1 m1) (snd (send_emails data env [])) ->
  In (ESendmail f2 t2 m2) (snd (send_emails data env [])) ->
  f1 = f2
  /\ get_all (msg_headers m1) "From" = [f1]
  /\ get_all (msg_headers m2) "From" = [f1]
  /\ get_all (msg_headers m1) "Subject" = get_all (msg_headers m2) "Subject"
  /\ List.filter is_attachment (msg_parts m1) = List.filter is_attachment (msg_parts m2)
  /\ get_all (msg_headers m1) "To" = t1
  /\ get_all (msg_headers m2) "To" = t2.
Proof.
  intros H1 H2.
  destruct (batch_send_inversion data env f1 t1 m1 H1)
    as (L & l1 & r1 & tpl1 & to1 & b1 & HL & _ & _ & _ & _ & _ & -> & -> & ->).
  destruct (batch_send_inversion data env f2 t2 m2 H2)
    as (L' & l2 & r2 & tpl2 & to2 & b2 & HL' & _ & _ & _ & _ & _ & -> & -> & ->).
  rewrite (reads_batch_unique data L' L HL' HL).
  rewrite !request_message_attachments.
  pose proof (request_message_headers env (l_sender_email L) to1 (l_subject L) b1
                (l_pdf_data L) (l_pdf_filename L)) as (F1 & T1 & S1).
  pose proof (request_message_headers env (l_sender_email L) to2 (l_subject L) b2
                (l_pdf_data L) (l_pdf_filename L)) as (F2 & T2 & S2).
  rewrite F1, F2, T1, T2, S1, S2. repeat split.
Qed.

Lemma batch_messages_share_sender_subject_attachment_witness :
  let data := example_request (VList [recipient_a; recipient_c]) in
  let env := example_env example_template (fun _ => None) in
  exists m1 m2,
    In (ESendmail (py "me@example.org") [py "a@x.org"] m1) (snd (send_emails data env []))
    /\ In (ESendmail (py "me@example.org") [py "c@x.org"] m2) (snd (send_emails data env []))
    /\ List.filter is_attachment (msg_parts m1) = List.filter is_attachment (msg_parts m2)
    /\ get_all (msg_headers m1) "To" = [py "a@x.org"]
    /\ get_all (msg_headers m2) "To" = [py "c@x.org"].
Proof.
  intros data env.
  assert (H : exists m1 m2,
             In (ESendmail (py "me@example.org") [py "a@x.org"] m1)
                (snd (send_emails data env []))
             /\ In (ESendmail (py "me@example.org") [py "c@x.org"] m2)
                   (snd (send_emails data env []))).
  { do 2 eexists. split; vm_compute.
    - do 7 right. left. reflexivity.
    - do 9 right. left. reflexivity. }
  destruct H as (m1 & m2 & H1 & H2). exists m1, m2.
  destruct (batch_messages_share_sender_subject_attachment data env _ _ _ _ _ _ H1 H2)
    as (_ & _ & _ & _ & Hatt & Hto1 & Hto2).
  repeat split; assumption.
Defined.



Lemma exit_raises_reply env q :
  smtp_quit env = Some q -> is_SMTPServerDisconnected q = false ->
  exit_raises env = Some q.
Proof. intros Hq Hd. unfold exit_raises. rewrite Hq, Hd. reflexivity. Qed.

Lemma exit_raises_disconnected env q :
  smtp_quit env = Some q -> is_SMTPServerDisconnected q = true ->
  exit_raises env = None.
Proof. intros Hq Hd. unfold exit_raises. rewrite Hq, Hd. reflexivity. Qed.

(** X7.  The results of a batch are returned only if the exit of the
    session does not raise.  When the closing QUIT raises anything but
    [SMTPServerDisconnected] (the relay answers it with a reply other than
    221, say), the batch handler never answers with a results list; for a
    request that had passed validation and reached the relay, the answer
    is the single error of that exception, with status 500, whatever had
    been submitted and recorded before.  When the closing QUIT raises
    [SMTPServerDisconnected], the exit of the session swallows it: a
    request that is accepted in every other respect is answered with its
    results list, status 200, after the QUIT. *)
Theorem close_failure_discards_batch_results :
  (forall data env tr m rs sm code tr' q,
     smtp_quit env = Some q ->
     is_SMTPServerDisconnected q = false ->
     send_emails data env tr <> (Ok (JBatch m rs sm, code), tr'))
  /\ (forall data L email_template env tr q,
        reads_batch data L ->
        template_loads env tr email_template ->
        smtp_connect env SMTP_SERVER SMTP_PORT = None ->
        smtp_quit env = Some q ->
        is_SMTPServerDisconnected q = false ->
        fst (send_emails data env tr) = Ok (batch_error q))
  /\ (forall data L l email_template env tr q,
        reads_batch data L ->
        l_recipients L = VList l ->
        template_loads env tr email_template ->
        session_opens env (l_sender_email L) (l_app_password L) ->
        Forall (renderable env L email_template) l ->
        smtp_quit env = Some q ->
        is_SMTPServerDisconnected q = true ->
        exists m rs sm front,
          send_emails data env tr = (Ok (JBatch m rs sm, 200%nat), front ++ [EQuit])
          /\ List.map r_email rs = kept_emails l).
Proof.
  split; [|split].
  - intros data env tr m rs sm code tr' q Hq Hd Hrun.
    apply (exit_raises_reply _ _ Hq) in Hd.
    destruct (send_emails_cases data env tr)
      as [(msg & c & t & Hstop & _) | (L & tpl & HL & HT)];
      [rewrite Hrun in Hstop; discriminate Hstop|].
    rewrite (send_emails_valid data L tpl env tr HL HT) in Hrun.
    apply batch_accepted_run in Hrun as (todo & st & n & tr4 & _ & Hq' & _).
    congruence.
  - intros data L tpl env tr q HL HT Hc Hq Hd.
    apply (exit_raises_reply _ _ Hq) in Hd.
    rewrite (send_emails_valid data L tpl env tr HL HT), run_batch_session.
    cbv zeta. rewrite Hc, Hd.
    destruct (batch_block L tpl env _). reflexivity.
  - intros data L l tpl env tr q HL Hl HT (Hc & He & Hs & Hlog) Hall Hq Hd.
    apply (exit_raises_disconnected _ _ Hq) in Hd.
    rewrite (send_emails_valid data L tpl env tr HL HT), run_batch_session. cbv zeta.
    rewrite Hc, run_batch_block, He, Hs. cbv zeta. rewrite Hlog, Hl.
    cbn [py_iter py_len].
    assert (Hn : py_len (l_recipients L) = Ok (length l)) by (rewrite Hl; reflexivity).
    match goal with
    | |- context [loop_of L tpl l ?s env ?t] =>
        destruct (send_loop_completes L tpl env _ l Hn Hall s t) as (st' & tr4 & Hloop)
    end.
    rewrite Hloop, Hd. do 4 eexists. split; [reflexivity|].
    apply send_loop_results in Hloop as (rs & H1 & H2 & _).
    cbn [results app] in H1. rewrite H1. exact H2.
Qed.

Lemma close_failure_discards_batch_results_witness :
  let l := [recipient_a; recipient_b] in
  let data := example_request (VList l) in
  (fst (send_emails data (closing_env example_template) [])
   = Ok (JError (py "SMTP error: (421, b'Service not available')"), 500%nat)
   /\ count is_sendmail (snd (send_emails data (closing_env example_template) [])) = 2%nat)
  /\ (exists front,
        send_emails data (disconnecting_env example_template) []
        = (Ok (JBatch (py "Email sending completed. Success: 2, Failed: 0")
                 [mkResult (py "a@x.org") (py "success") (py "Email sent successfully");
                  mkResult (py "b@x.org") (py "success") (py "Email sent successfully")]
                 (mkSummary 2 0 2), 200%nat), front ++ [EQuit])).
Proof.
  intros l data.
  destruct close_failure_discards_batch_results as (_ & Hreply & Hgone).
  assert (HL : reads_batch data (example_locals (VList l))).
  { repeat split; try (vm_compute; reflexivity).
    eexists. repeat split; vm_compute; reflexivity. }
  split; [split; [|vm_compute; reflexivity]|].
  - apply (Hreply data (example_locals (VList l)) example_template
             (closing_env example_template) []
             (Exn SMTPException (py "(421, b'Service not available')")) HL).
    + repeat split; vm_compute; reflexivity.
    + reflexivity.
    + reflexivity.
    + reflexivity.
  - destruct (Hgone data (example_locals (VList l)) l example_template
                (disconnecting_env example_template) []
                (Exn SMTPServerDisconnected (py "Connection unexpectedly closed")) HL)
      as (m & rs & sm & front & Hrun & _).
    + reflexivity.
    + repeat split; vm_compute; reflexivity.
    + repeat split; vm_compute; reflexivity.
    + repeat constructor.
      * eexists. split; [vm_compute; reflexivity|]. intros _.
        eexists. repeat split; try (vm_compute; reflexivity).
        eexists. split; vm_compute; reflexivity.
      * eexists. split; [vm_compute; reflexivity|]. intros _.
        eexists. repeat split; try (vm_compute; reflexivity).
        eexists. split; vm_compute; reflexivity.
    + reflexivity.
    + reflexivity.
    + exists front. rewrite Hrun. f_equal.
      assert (E : fst (send_emails data (disconnecting_env example_template) [])
                  = Ok (JBatch (py "Email sending completed. Success: 2, Failed: 0")
                          [mkResult (py "a@x.org") (py "success")
                             (py "Email sent successfully");
                           mkResult (py "b@x.org") (py "success")
                             (py "Email sent successfully")]
                          (mkSummary 2 0 2), 200%nat))
        by (vm_compute; reflexivity).
      rewrite Hrun in E. exact E.
Defined.

Lemma kept_emails_length l : (length (kept_emails l) <= length l)%nat.
Proof.
  unfold kept_emails. rewrite <- (length_map trimmed_email l).
  apply List.filter_length_le.
Qed.

(** X8.  In every answer of the batch handler that carries results, the
    status is 200, the text of the message names the two counters of the
    summary ("Email sending completed. Success: <successful>, Failed:
    <failed>"), the counters add up to the number of results, and that
    number is at most the total of the summary. *)
Theorem batch_message_reports_the_counters data env tr m rs sm code tr' :
  send_emails data env tr = (Ok (JBatch m rs sm, code), tr') ->
  code = 200%nat
  /\ m = py "Email sending completed. Success: " ++ str_of_nat (successful sm)
         ++ py ", Failed: " ++ str_of_nat (failed sm)
  /\ (successful sm + failed sm = length rs)%nat
  /\ (length rs <= total sm)%nat.
Proof.
  intros Hrun.
  destruct (send_emails_cases data env tr)
    as [(msg & c & t & Hstop & _) | (L & tpl & HL & HT)];
    [rewrite Hrun in Hstop; discriminate Hstop|].
  rewrite (send_emails_valid data L tpl env tr HL HT) in Hrun.
  apply batch_accepted_run in Hrun
    as (todo & st & n & tr4 & _ & _ & Hiter & Hn & Hloop & _ & -> & -> & -> & ->).
  apply send_loop_results in Hloop as (rs & H1 & H2 & H3 & _ & _ & H6).
  cbn [results successful_sends failed_sends app Nat.add] in H1, H6.
  assert (Ht : truthy (l_recipients L) = true) by apply HL.
  pose proof (iterated_is_list _ _ Ht Hiter H3) as Hv.
  rewrite Hv in Hn. injection Hn as <-.
  cbn [successful failed total]. rewrite H1.
  repeat split; [exact H6|].
  rewrite <- (length_map r_email rs), H2. apply kept_emails_length.
Qed.

Lemma batch_message_reports_the_counters_witness :
  exists m rs sm tr',
    send_emails (example_request (VList [recipient_a; recipient_blank; recipient_b]))
                (example_env example_template second_fails) []
    = (Ok (JBatch m rs sm, 200%nat), tr')
    /\ m = py "Email sending completed. Success: 1, Failed: 1"
    /\ length rs = 2%nat
    /\ total sm = 3%nat.
Proof.
  assert (H : exists m rs sm code tr',
             send_emails (example_request (VList [recipient_a; recipient_blank; recipient_b]))
                         (example_env example_template second_fails) []
             = (Ok (JBatch m rs sm, code), tr')
             /\ successful sm = 1%nat /\ failed sm = 1%nat /\ total sm = 3%nat)
    by (do 5 eexists; repeat split; vm_compute; reflexivity).
  destruct H as (m & rs & sm & code & tr' & H & Hs & Hf & Ht).
  destruct (batch_message_reports_the_counters _ _ _ _ _ _ _ _ H) as (Hc & Hm & Hlen & _).
  exists m, rs, sm, tr'. rewrite Hc in H. split; [exact H|].
  rewrite Hs, Hf in Hm, Hlen. split; [exact Hm|]. split; [symmetry; exact Hlen | exact Ht].
Defined.

(** X9.  The batch loop composes: visiting the recipients [l1 ++ l2] is
    visiting [l1] and then, if that completes, visiting [l2] from the
    results, the counters and the trace that [l1] has left; if the visit of
    [l1] raises, so does the whole. *)
Theorem batch_loop_composes L email_template env l1 l2 st tr :
  loop_of L email_template (l1 ++ l2) st env tr
  = match loop_of L email_template l1 st env tr with
    | (Ok st1, tr1) => loop_of L email_template l2 st1 env tr1
    | (Raise e, tr1) => (Raise e, tr1)
    end.
Proof. rewrite send_loop_app_run. apply run_bind. Qed.

(** ** The single-send and test-send handlers *)

(** The run of a one-message session: the answer is the success unless
    the session ends with an exception, and then it is the failure of that
    exception; at most one message is submitted, and exactly one in a
    session that ends without exception. *)
Lemma one_message_session_outcome sender_email app_password to_email subject body
      pdf_data pdf_filename ok failure env tr :
  exists added,
    one_message_session sender_email app_password to_email subject body
      pdf_data pdf_filename ok failure env tr
    = (Ok (match session_raises env sender_email app_password to_email subject body
                   pdf_data pdf_filename (count is_sendmail tr) with
           | Some e => failure e
           | None => ok
           end), tr ++ added)
    /\ (count is_sendmail added <= 1)%nat
    /\ (session_raises env sender_email app_password to_email subject body
          pdf_data pdf_filename (count is_sendmail tr) = None ->
        added = [ESMTPConnect SMTP_SERVER SMTP_PORT; EEhlo; EStartTLS;
                 ELogin sender_email app_password;
                 ESendmail sender_email [to_email]
                   (request_message env sender_email to_email subject body
                      pdf_data pdf_filename);
                 EQuit]).
Proof.
  rewrite run_one_message_session. cbv zeta.
  unfold session_raises, block_raises, closing.
  destruct (smtp_connect env SMTP_SERVER SMTP_PORT) as [e|];
    [eexists; split; [reflexivity | split; [cbn; lia | discriminate]]|].
  destruct (smtp_ehlo env) as [e|];
    [eexists; split; [destruct (exit_raises env); reflexivity
                     | split; [cbn; lia | destruct (exit_raises env); discriminate]]|].
  destruct (smtp_starttls env) as [e|];
    [eexists; split; [destruct (exit_raises env); reflexivity
                     | split; [cbn; lia | destruct (exit_raises env); discriminate]]|].
  destruct (smtp_login env _ _) as [e|];
    [eexists; split; [destruct (exit_raises env); reflexivity
                     | split; [cbn; lia | destruct (exit_raises env); discriminate]]|].
  destruct (utf8_encode_error body) as [e|];
    [eexists; split; [destruct (exit_raises env); reflexivity
                     | split; [cbn; lia | destruct (exit_raises env); discriminate]]|].
  eexists. split;
    [destruct (smtp_sendmail env _ _ _ _) as [e|]; destruct (exit_raises env); reflexivity|].
  split; [cbn; lia | reflexivity].
Qed.

(** A session ends without exception exactly when every step returns and
    the body can be encoded. *)
Lemma session_raises_none env sender_email app_password to_email subject body
      pdf_data pdf_filename sent :
  session_raises env sender_email app_password to_email subject body
    pdf_data pdf_filename sent = None
  <-> session_opens env sender_email app_password
      /\ encodable body = true
      /\ smtp_sendmail env sent sender_email [to_email]
           (request_message env sender_email to_email subject body pdf_data pdf_filename)
         = None
      /\ exit_raises env = None.
Proof.
  unfold session_raises, block_raises, session_opens.
  rewrite <- utf8_encode_error_none.
  destruct (smtp_connect env SMTP_SERVER SMTP_PORT) as [e|];
    [split; [discriminate | intros ((H & _) & _); discriminate H]|].
  destruct (exit_raises env) as [q|];
    [split; [discriminate | intros (_ & _ & _ & H); discriminate H]|].
  destruct (smtp_ehlo env) as [e|];
    [split; [discriminate | intros ((_ & H & _) & _); discriminate H]|].
  destruct (smtp_starttls env) as [e|];
    [split; [discriminate | intros ((_ & _ & H & _) & _); discriminate H]|].
  destruct (smtp_login env _ _) as [e|];
    [split; [discriminate | intros ((_ & _ & _ & H) & _); discriminate H]|].
  destruct (utf8_encode_error body) as [e|];
    [split; [discriminate | intros (_ & H & _); discriminate H]|].
  split; [intros H; repeat split; exact H | intros (_ & _ & H & _); exact H].
Qed.

Lemma reads_single_unique data L1 t1 L2 t2 :
  reads_single data L1 t1 -> reads_single data L2 t2 -> L1 = L2 /\ t1 = t2.
Proof.
  intros (A0 & A1 & A2 & A3 & A4 & A5 & (pa & A6 & _ & A6d) & A7 & A8 & A9 & _)
         (B0 & B1 & B2 & B3 & B4 & B5 & (pb & B6 & _ & B6d) & B7 & B8 & B9 & _).
  split; [destruct L1, L2; cbn in *; f_equal; congruence | congruence].
Qed.

(** X10.  For a single-send request that has passed the checks (the
    template is loaded and the body rendered), the answer tells how the
    relay session ended.  The session ends without exception exactly when
    the connection, the greeting, the encryption upgrade and the login
    return, the body can be encoded as UTF-8, the submission returns and
    the exit of the session does not raise (the closing QUIT returns, or
    raises [SMTPServerDisconnected], which the exit swallows); the answer
    is then the success "Email sent successfully to <address>" with status
    200, after exactly one session with exactly one submission and no
    pause.  Otherwise the answer is the failure body "Failed to send
    email: <text of the exception>" with status 500, and at most one
    message was submitted; the exception is that of the connection if it
    fails; otherwise that of the exit of the session if it raises;
    otherwise that of the first step that raised among the greeting, the
    encryption upgrade, the login, the building of the message and the
    submission.  A success answer is given in the first case only. *)
Theorem single_send_answer_tells_the_relay_outcome data L to_email email_template body env :
  reads_single data L to_email ->
  template_loads env [] email_template ->
  renders env L email_template (l_recipients L) to_email body ->
  let msg := request_message env (l_sender_email L) to_email (l_subject L) body
               (l_pdf_data L) (l_pdf_filename L) in
  let outcome := session_raises env (l_sender_email L) (l_app_password L) to_email
                   (l_subject L) body (l_pdf_data L) (l_pdf_filename L) 0 in
  (outcome = None
   <-> session_opens env (l_sender_email L) (l_app_password L)
       /\ encodable body = true
       /\ smtp_sendmail env 0 (l_sender_email L) [to_email] msg = None
       /\ exit_raises env = None)
  /\ (outcome = None ->
      send_single_email data env []
      = (Ok (JSuccess (py "Email sent successfully to " ++ to_email), 200%nat),
         template_events
         ++ [ESMTPConnect SMTP_SERVER SMTP_PORT; EEhlo; EStartTLS;
             ELogin (l_sender_email L) (l_app_password L);
             ESendmail (l_sender_email L) [to_email] msg; EQuit]))
  /\ (forall e,
        outcome = Some e ->
        fst (send_single_email data env [])
        = Ok (JFailure (py "Failed to send email: " ++ exn_str e), 500%nat)
        /\ (count is_sendmail (snd (send_single_email data env [])) <= 1)%nat)
  /\ (forall m code, fst (send_single_email data env []) = Ok (JSuccess m, code) ->
      outcome = None).
Proof.
  intros HL HT HR msg outcome.
  split; [apply session_raises_none|].
  rewrite (send_single_email_valid data L to_email email_template body env [] HL HT HR).
  unfold single_session_of.
  match goal with
  | |- context [one_message_session ?a ?b ?c ?d ?e ?f ?g ?h ?i env ?t] =>
      destruct (one_message_session_outcome a b c d e f g h i env t)
        as (added & -> & Hcount & Hfull)
  end.
  change (count is_sendmail ([] ++ template_events)) with 0%nat in *.
  fold outcome in Hfull |- *. cbn [fst snd].
  split; [|split].
  - intros Hnone. rewrite Hnone, (Hfull Hnone). reflexivity.
  - intros e Hsome. rewrite Hsome. split; [reflexivity|].
    rewrite !count_app.
    change (count is_sendmail []) with 0%nat.
    change (count is_sendmail template_events) with 0%nat. lia.
  - intros m code. destruct outcome; [discriminate | reflexivity].
Qed.

Lemma single_send_answer_tells_the_relay_outcome_witness :
  fst (send_single_email example_single_ok
         (example_env example_template (fun _ => None)) [])
  = Ok (JSuccess (py "Email sent successfully to a@x.org"), 200%nat)
  /\ fst (send_single_email example_single_ok (refusing_env example_template) [])
     = Ok (JFailure (py "Failed to send email: (535, b'bad credentials')"), 500%nat)
  /\ fst (send_single_email example_single_ok (closing_env example_template) [])
     = Ok (JFailure (py "Failed to send email: (421, b'Service not available')"), 500%nat)
  /\ fst (send_single_email example_single_ok (disconnecting_env example_template) [])
     = Ok (JSuccess (py "Email sent successfully to a@x.org"), 200%nat).
Proof.
  assert (HL : reads_single example_single_ok (example_locals recipient_a) (py "a@x.org")).
  { repeat split; try (vm_compute; reflexivity).
    eexists. repeat split; vm_compute; reflexivity. }
  assert (HR : forall env, str_format env = example_format ->
                 exists body, renders env (example_locals recipient_a) example_template
                                recipient_a (py "a@x.org") body).
  { intros env Hf. eexists. repeat split; try (vm_compute; reflexivity).
    eexists. split; [vm_compute; reflexivity|]. rewrite Hf. vm_compute. reflexivity. }
  split; [|split; [|split]].
  - destruct (HR (example_env example_template (fun _ => None)) eq_refl) as (body & R).
    destruct (single_send_answer_tells_the_relay_outcome example_single_ok
                (example_locals recipient_a) (py "a@x.org") example_template body
                (example_env example_template (fun _ => None)) HL)
      as (_ & Hacc & _); [repeat split; vm_compute; reflexivity | exact R |].
    rewrite Hacc; [reflexivity|].
    destruct R as (_ & _ & g & Hg & Hb). vm_compute in Hg. injection Hg as <-.
    vm_compute in Hb. injection Hb as <-. vm_compute. reflexivity.
  - destruct (HR (refusing_env example_template) eq_refl) as (body & R).
    destruct (single_send_answer_tells_the_relay_outcome example_single_ok
                (example_locals recipient_a) (py "a@x.org") example_template body
                (refusing_env example_template) HL)
      as (_ & _ & Hrej & _); [repeat split; vm_compute; reflexivity | exact R |].
    apply (Hrej (Exn SMTPException (py "(535, b'bad credentials')"))).
    vm_compute. reflexivity.
  - destruct (HR (closing_env example_template) eq_refl) as (body & R).
    destruct (single_send_answer_tells_the_relay_outcome example_single_ok
                (example_locals recipient_a) (py "a@x.org") example_template body
                (closing_env example_template) HL)
      as (_ & _ & Hrej & _); [repeat split; vm_compute; reflexivity | exact R |].
    apply (Hrej (Exn SMTPException (py "(421, b'Service not available')"))).
    vm_compute. reflexivity.
  - destruct (HR (disconnecting_env example_template) eq_refl) as (body & R).
    destruct (single_send_answer_tells_the_relay_outcome example_single_ok
                (example_locals recipient_a) (py "a@x.org") example_template body
                (disconnecting_env example_template) HL)
      as (_ & Hacc & _); [repeat split; vm_compute; reflexivity | exact R |].
    rewrite Hacc; [reflexivity|].
    destruct R as (_ & _ & g & Hg & Hb). vm_compute in Hg. injection Hg as <-.
    vm_compute in Hb. injection Hb as <-. vm_compute. reflexivity.
Defined.

Lemma reads_test_unique data T1 T2 : reads_test data T1 -> reads_test data T2 -> T1 = T2.
Proof.
  intros (A1 & A2 & A3 & A4 & A5 & (pa & A6 & _ & A6d) & A7 & _)
         (B1 & B2 & B3 & B4 & B5 & (pb & B6 & _ & B6d) & B7 & _).
  destruct T1, T2; cbn in *; f_equal; congruence.
Qed.

(** X11.  For a test-send request that has passed the checks (the
    template is loaded and the body rendered with the two keyword
    arguments), the answer tells how the relay session ended: the success
    "Test email sent successfully to <address>" with status 200, after one
    session with one submission, exactly when the connection, the
    greeting, the encryption upgrade and the login return, the body can be
    encoded as UTF-8, the submission returns and the exit of the session
    does not raise; and otherwise the error body "Failed to send email:
    <text of the exception>" with status 500, at most one message having
    been submitted, for the exception of the connection if it fails,
    otherwise that of the exit of the session if it raises, otherwise
    that of the first step that raised among the greeting, the encryption
    upgrade, the login, the building of the message and the submission. *)
Theorem test_send_answer_tells_the_relay_outcome data T email_template body env :
  reads_test data T ->
  template_loads env [] email_template ->
  test_renders env data T email_template body ->
  let msg := request_message env (t_sender_email T) (t_email T) (t_subject T) body
               (t_pdf_data T) (t_pdf_filename T) in
  let outcome := session_raises env (t_sender_email T) (t_app_password T) (t_email T)
                   (t_subject T) body (t_pdf_data T) (t_pdf_filename T) 0 in
  (outcome = None
   <-> session_opens env (t_sender_email T) (t_app_password T)
       /\ encodable body = true
       /\ smtp_sendmail env 0 (t_sender_email T) [t_email T] msg = None
       /\ exit_raises env = None)
  /\ (outcome = None ->
      test_email data env []
      = (Ok (JSuccess (py "Test email sent successfully to " ++ t_email T), 200%nat),
         template_events
         ++ [ESMTPConnect SMTP_SERVER SMTP_PORT; EEhlo; EStartTLS;
             ELogin (t_sender_email T) (t_app_password T);
             ESendmail (t_sender_email T) [t_email T] msg; EQuit]))
  /\ (forall e,
        outcome = Some e ->
        fst (test_email data env [])
        = Ok (JError (py "Failed to send email: " ++ exn_str e), 500%nat)
        /\ (count is_sendmail (snd (test_email data env [])) <= 1)%nat)
  /\ (forall m code, fst (test_email data env []) = Ok (JSuccess m, code) ->
      outcome = None).
Proof.
  intros HL HT HR msg outcome.
  split; [apply session_raises_none|].
  rewrite (test_email_valid data T email_template body env [] HL HT HR).
  unfold test_session_of.
  match goal with
  | |- context [one_message_session ?a ?b ?c ?d ?e ?f ?g ?h ?i env ?t] =>
      destruct (one_message_session_outcome a b c d e f g h i env t)
        as (added & -> & Hcount & Hfull)
  end.
  change (count is_sendmail ([] ++ template_events)) with 0%nat in *.
  fold outcome in Hfull |- *. cbn [fst snd].
  split; [|split].
  - intros Hnone. rewrite Hnone, (Hfull Hnone). reflexivity.
  - intros e Hsome. rewrite Hsome. split; [reflexivity|].
    rewrite !count_app.
    change (count is_sendmail []) with 0%nat.
    change (count is_sendmail template_events) with 0%nat. lia.
  - intros m code. destruct outcome; [discriminate | reflexivity].
Qed.

Lemma test_send_answer_tells_the_relay_outcome_witness :
  fst (test_email (example_test_request "t@x.org" "TWFu")
         (example_env short_template (fun _ => None)) [])
  = Ok (JSuccess (py "Test email sent successfully to t@x.org"), 200%nat)
  /\ fst (test_email (example_test_request "t@x.org" "TWFu")
            (closing_env short_template) [])
     = Ok (JError (py "Failed to send email: (421, b'Service not available')"), 500%nat)
  /\ (fst (test_email example_test_surrogate
             (example_env short_template (fun _ => None)) [])
      = Ok (JError (py "Failed to send email: 'utf-8' codec can't encode character '\udc00' in position 8: surrogates not allowed"),
            500%nat)
      /\ count is_sendmail
           (snd (test_email example_test_surrogate
                   (example_env short_template (fun _ => None)) [])) = 0%nat).
Proof.
  pose (T := mkTest (py "t@x.org") (py "me@example.org") (py "secret") (py "Engineer")
                    (py "Application") (ascii_bytes "Man") (VStr (py "CV.pdf"))).
  assert (HL : reads_test (example_test_request "t@x.org" "TWFu") T).
  { repeat split; try (vm_compute; reflexivity).
    eexists. repeat split; vm_compute; reflexivity. }
  assert (HS : reads_test example_test_surrogate T).
  { repeat split; try (vm_compute; reflexivity).
    eexists. repeat split; vm_compute; reflexivity. }
  assert (HR : forall env, str_format env = example_format ->
                 test_renders env (example_test_request "t@x.org" "TWFu") T short_template
                   (py "<p>Dear Acme Hiring Team, I apply for Engineer.</p>")).
  { intros env Hf. eexists. eexists. split; [vm_compute; reflexivity|].
    split; [vm_compute; reflexivity|]. rewrite Hf. vm_compute. reflexivity. }
  split; [|split].
  - destruct (test_send_answer_tells_the_relay_outcome _ T short_template
                (py "<p>Dear Acme Hiring Team, I apply for Engineer.</p>")
                (example_env short_template (fun _ => None)) HL)
      as (_ & Hacc & _);
      [repeat split; vm_compute; reflexivity | apply HR; reflexivity |].
    rewrite Hacc; [reflexivity | vm_compute; reflexivity].
  - destruct (test_send_answer_tells_the_relay_outcome _ T short_template
                (py "<p>Dear Acme Hiring Team, I apply for Engineer.</p>")
                (closing_env short_template) HL)
      as (_ & _ & Hrej & _);
      [repeat split; vm_compute; reflexivity | apply HR; reflexivity |].
    apply (Hrej (Exn SMTPException (py "(421, b'Service not available')"))).
    vm_compute. reflexivity.
  - destruct (test_send_answer_tells_the_relay_outcome example_test_surrogate T
                short_template
                (py "<p>Dear " ++ [0xDC00] ++ py " Hiring Team, I apply for Engineer.</p>")
                (example_env short_template (fun _ => None)) HS)
      as (_ & _ & Hrej & _).
    + repeat split; vm_compute; reflexivity.
    + eexists. eexists. split; [vm_compute; reflexivity|].
      split; vm_compute; reflexivity.
    + split; [|vm_compute; reflexivity].
      apply (Hrej (Exn UnicodeEncodeError (py "'utf-8' codec can't encode character '\udc00' in position 8: surrogates not allowed"))).
      vm_compute. reflexivity.
Defined.

Lemma one_message_session_shape sender_email app_password to_email subject body
      pdf_data pdf_filename ok failure env tr :
  exists r added,
    one_message_session sender_email app_password to_email subject body
      pdf_data pdf_filename ok failure env tr = (Ok r, tr ++ added)
    /\ (r = ok \/ exists e, r = failure e)
    /\ (count is_sendmail added <= 1)%nat
    /\ count is_sleep added = 0%nat.
Proof.
  rewrite run_one_message_session. cbv zeta.
  destruct (smtp_connect env SMTP_SERVER SMTP_PORT) as [e|];
    [eexists _, _; split; [reflexivity | split; [right; eauto | cbn; lia]]|].
  destruct (smtp_ehlo env) as [e|];
    [eexists _, _; split; [reflexivity | split; [right; eauto | cbn; lia]]|].
  destruct (smtp_starttls env) as [e|];
    [eexists _, _; split; [reflexivity | split; [right; eauto | cbn; lia]]|].
  destruct (smtp_login env _ _) as [e|];
    [eexists _, _; split; [reflexivity | split; [right; eauto | cbn; lia]]|].
  destruct (utf8_encode_error body) as [e|];
    [eexists _, _; split; [reflexivity | split; [right; eauto | cbn; lia]]|].
  eexists _, _; split; [reflexivity|]. split; [|cbn; lia].
  destruct (smtp_sendmail env _ _ _ _) as [e|]; [right; eauto|].
  destruct (exit_raises env) as [e|]; [right; eauto | left; reflexivity].
Qed.

(** X12.  Every answer of the single-send handler carries a success flag:
    it is either success with a message and status 200, or failure with an
    error text and status 400 or 500 (never a bare error body or a results
    list).  A call submits at most one message and never pauses. *)
Theorem single_send_response_shape data env :
  let run := send_single_email data env [] in
  single_response (fst run)
  /\ (count is_sendmail (snd run) <= 1)%nat
  /\ count is_sleep (snd run) = 0%nat.
Proof.
  cbv zeta.
  destruct (send_single_email_cases data env [])
    as [(msg & code & tr' & Hrun & (fs & -> & Hfs) & Hcode) | (L & to & tpl & body & HL & HT & HR)].
  - rewrite Hrun. cbn [fst snd app].
    destruct (file_events_no_send fs Hfs) as (H1 & H2 & _).
    split; [right; eauto|]. rewrite H1, H2. split; [lia | reflexivity].
  - rewrite (send_single_email_valid data L to tpl body env [] HL HT HR).
    unfold single_session_of.
    match goal with
    | |- context [one_message_session ?a ?b ?c ?d ?e ?f ?g ?h ?i env ?t] =>
        destruct (one_message_session_shape a b c d e f g h i env t)
          as (r & added & -> & Hr & Hsend & Hsleep)
    end.
    cbn [fst snd]. rewrite !count_app, Hsleep.
    split; [|split; [exact Hsend | reflexivity]].
    destruct Hr as [-> | (e & ->)]; [left; eauto | right; eauto].
Qed.

(** In a trace of the shape [call_trace], an event that is not a file
    access belongs to a session, whose traffic satisfies [ok]. *)
Lemma call_trace_contact env data ok tr ev :
  call_trace env data ok tr ->
  In ev tr ->
  is_file_event ev = false ->
  exists traffic, ok traffic.
Proof.
  intros (fs & s & -> & Hfs & Hs) Hin Hev.
  apply in_app_or in Hin as [Hin|Hin].
  { rewrite forallb_forall in Hfs. apply Hfs in Hin. congruence. }
  destruct Hs as [-> | (u & p & traffic & _ & _ & _ & _ & Hok)]; [destruct Hin|].
  exists traffic. exact Hok.
Qed.

(** X13.  The message the single-send handler submits is the message of
    [build_message] for the trimmed sender email, the trimmed email of the
    recipient record, the trimmed subject, the template rendered with the
    five keyword arguments (the greeting of the recipient record, the job
    title, the name, the phone number and the sender email) and the
    decoded attachment under the file name of the request; it goes from
    that sender to that one address. *)
Theorem single_send_submits_the_rendered_message data env f t msg :
  In (ESendmail f t msg) (snd (send_single_email data env [])) ->
  exists L email_template to_email body,
    reads_single data L to_email
    /\ read_text env TEMPLATE_PATH = Ok email_template
    /\ renders env L email_template (l_recipients L) to_email body
    /\ f = l_sender_email L
    /\ t = [to_email]
    /\ build_message (l_sender_email L) to_email (l_subject L) body None
         (Some (l_pdf_data L)) (l_pdf_filename L) env [] = (Ok msg, []).
Proof.
  intros Hin.
  destruct (call_trace_send _ _ _ _ _ _ _ (send_single_email_call_trace data env) Hin)
    as (traffic & (L & to & tpl & body & HL & HT & HR & Ht) & Hin').
  destruct Ht as [-> | (Hb & ->)]; [destruct Hin'|].
  destruct Hin' as [H|[]]. injection H as <- <- <-.
  exists L, tpl, to, body.
  split; [exact HL|]. split; [apply HT|]. split; [exact HR|].
  split; [reflexivity|]. split; [reflexivity|].
  rewrite run_build_message, (proj2 (utf8_encode_error_none body) Hb). reflexivity.
Qed.

Lemma single_send_submits_the_rendered_message_witness :
  exists msg,
    In (ESendmail (py "me@example.org") [py "a@x.org"] msg)
       (snd (send_single_email example_single_ok
               (example_env example_template (fun _ => None)) []))
    /\ html_text msg
       = Some (py "<p>Dear Acme Hiring Team,</p><p>I apply for Engineer.</p><p>Ada, 123, me@example.org</p>").
Proof.
  assert (H : exists msg,
             In (ESendmail (py "me@example.org") [py "a@x.org"] msg)
                (snd (send_single_email example_single_ok
                        (example_env example_template (fun _ => None)) [])))
    by (eexists; vm_compute; do 7 right; left; reflexivity).
  destruct H as (msg & H). exists msg. split; [exact H|].
  destruct (single_send_submits_the_rendered_message _ _ _ _ _ H)
    as (L & tpl & to & body & HL & Ht & (_ & _ & g & Hg & Hf) & _ & Hto & Hmsg).
  injection Hto as <-.
  assert (HL' : reads_single example_single_ok (example_locals recipient_a) (py "a@x.org")).
  { repeat split; try (vm_compute; reflexivity).
    eexists. repeat split; vm_compute; reflexivity. }
  destruct (reads_single_unique _ _ _ _ _ HL HL') as [-> _].
  rewrite run_build_message in Hmsg.
  destruct (utf8_encode_error body); [discriminate Hmsg|]. injection Hmsg as <-.
  rewrite html_text_request_message. f_equal.
  vm_compute in Ht. injection Ht as <-.
  vm_compute in Hg. injection Hg as <-.
  vm_compute in Hf. injection Hf as <-. reflexivity.
Defined.

(** X14.  The single-send and the test-send handlers contact the relay
    only once the body is rendered: if the trace of a call holds any event
    other than a file access (a connection attempt, say), then the request
    had passed every check, the template was loaded, the greeting was
    built and the template was rendered without error. *)
Theorem relay_contact_requires_rendered_body data env ev :
  is_file_event ev = false ->
  (In ev (snd (send_single_email data env [])) ->
   exists L email_template to_email body,
     reads_single data L to_email
     /\ template_loads env [] email_template
     /\ renders env L email_template (l_recipients L) to_email body)
  /\ (In ev (snd (test_email data env [])) ->
      exists T email_template body,
        reads_test data T
        /\ template_loads env [] email_template
        /\ test_renders env data T email_template body).
Proof.
  intros Hev. split; intros Hin.
  - destruct (call_trace_contact _ _ _ _ _ (send_single_email_call_trace data env) Hin Hev)
      as (traffic & L & to & tpl & body & HL & HT & HR & _).
    exists L, tpl, to, body. split; [exact HL | split; [exact HT | exact HR]].
  - destruct (call_trace_contact _ _ _ _ _ (test_email_call_trace data env) Hin Hev)
      as (traffic & T & tpl & body & HL & HT & HR & _).
    exists T, tpl, body. split; [exact HL | split; [exact HT | exact HR]].
Qed.

Lemma relay_contact_requires_rendered_body_witness :
  exists T email_template body,
    reads_test (example_test_request "t@x.org" "TWFu") T
    /\ template_loads (refusing_env short_template) [] email_template
    /\ test_renders (refusing_env short_template) (example_test_request "t@x.org" "TWFu")
         T email_template body.
Proof.
  apply (proj2 (relay_contact_requires_rendered_body
                  (example_test_request "t@x.org" "TWFu") (refusing_env short_template)
                  (ESMTPConnect SMTP_SERVER SMTP_PORT) eq_refl)).
  vm_compute. do 3 right. left. reflexivity.
Defined.

(** ** Error paths of the handlers *)

(** The handler has answered with an error and the trace is unchanged. *)
Ltac no_effect :=
  cbv beta iota; unfold any_exception, ret; cbv beta iota;
  eexists _, _, []; split;
  [rewrite app_nil_r; reflexivity | left; split; [reflexivity | auto]].

(** The checks of a handler, one after the other; [exit] closes the goal
    of a check that fails. *)
Ltac run_checks exit :=
  repeat match goal with
         | |- context [if negb (truthy ?v) then _ else _] =>
             destruct (truthy v) eqn:?; cbn [negb]; [|exit]
         | |- context [if is_empty ?s then _ else _] =>
             destruct (is_empty s) eqn:?; [exit|]
         end.

(** The outcome of the configuration check and of the template load, by
    [template_problem]. *)
Ltac template_outcome H :=
  unfold template_problem in H; cbv zeta in H;
  config_step;
  match goal with
  | |- context [path_exists ?env ?n TEMPLATE_PATH] =>
      let E := fresh "E" in
      destruct (path_exists env n TEMPLATE_PATH) eqn:E; rewrite ?E in H
  end;
  cbn [negb] in H; cbv iota in H;
  [|injection H as <- <-; eexists _, _, _; split; [reflexivity | right; repeat split]];
  template_step; rewrite count_app, Nat.add_1_r;
  match goal with
  | |- context [path_exists ?env (S ?n) TEMPLATE_PATH] =>
      let E := fresh "E" in
      destruct (path_exists env (S n) TEMPLATE_PATH) eqn:E; rewrite ?E in H
  end;
  cbn [negb] in H; cbv iota in H;
  [|injection H as <- <-; eexists _, _, _;
    split; [rewrite <- app_assoc; reflexivity | right; repeat split]];
  match goal with
  | |- context [read_text ?env TEMPLATE_PATH] =>
      let E := fresh "E" in
      destruct (read_text env TEMPLATE_PATH) eqn:E; rewrite ?E in H
  end;
  [discriminate H|];
  injection H as <- <-; cbv beta iota; unfold ret; eexists _, _, _;
  split; [rewrite <- app_assoc; reflexivity | right; repeat split].

(** A handler stopped by the checks that come before the template, or by
    the template problem. *)
Lemma stopped_by_template (run : result Response * list Event) tr mk msg evs :
  (exists m code added,
     run = (Ok (mk m, code), tr ++ added)
     /\ ((added = [] /\ (code = 400 \/ code = 500)%nat)
         \/ (m = msg /\ code = 500%nat /\ added = evs))) ->
  error_without_effect run tr mk \/ run = (Ok (mk msg, 500%nat), tr ++ evs).
Proof.
  intros (m & code & added & -> & [(-> & Hcode) | (-> & -> & ->)]).
  - left. exists m, code. rewrite app_nil_r. split; [reflexivity | exact Hcode].
  - right. reflexivity.
Qed.

(** X15.  A problem with the template stops each of the three handlers
    before the relay.  If the template file is missing when the
    configuration is checked, or missing or unreadable when it is loaded,
    then the request is either refused by the checks that come first (an
    error answer, and no effect at all), or answered with status 500 and
    the text "Configuration error: Email template not found:
    email_template.html", respectively "Template loading error: ..." with
    the text of the failure; the only events are the one, two or three
    file accesses made so far. *)
Theorem template_problem_is_reported data env tr msg evs :
  template_problem env tr = Some (msg, evs) ->
  (error_without_effect (send_emails data env tr) tr JError
   \/ send_emails data env tr = (Ok (JError msg, 500%nat), tr ++ evs))
  /\ (error_without_effect (send_single_email data env tr) tr JFailure
      \/ send_single_email data env tr = (Ok (JFailure msg, 500%nat), tr ++ evs))
  /\ (error_without_effect (test_email data env tr) tr JError
      \/ test_email data env tr = (Ok (JError msg, 500%nat), tr ++ evs)).
Proof.
  intros H. split; [|split]; apply stopped_by_template.
  - unfold send_emails, try_except.
    do 9 (read_field; [|no_effect]).
    run_checks no_effect.
    destruct (b64decode _); [|no_effect].
    template_outcome H.
  - unfold send_single_email, try_except.
    do 10 (read_field; [|no_effect]).
    run_checks no_effect.
    destruct (b64decode _); [|no_effect].
    template_outcome H.
  - unfold test_email, try_except.
    do 7 (read_field; [|no_effect]).
    run_checks no_effect.
    destruct (b64decode _); [|no_effect].
    template_outcome H.
Qed.

Lemma template_problem_is_reported_witness :
  send_emails (example_request (VList [recipient_a])) no_template_env []
  = (Ok (JError (py "Configuration error: Email template not found: email_template.html"),
         500%nat), [EPathExists TEMPLATE_PATH])
  /\ send_single_email example_single_ok no_template_env []
     = (Ok (JFailure (py "Configuration error: Email template not found: email_template.html"),
            500%nat), [EPathExists TEMPLATE_PATH]).
Proof.
  destruct (template_problem_is_reported (example_request (VList [recipient_a]))
              no_template_env []
              (py "Configuration error: Email template not found: email_template.html")
              [EPathExists TEMPLATE_PATH] eq_refl)
    as ([(m & c & Hb & _) | Hb] & _); [vm_compute in Hb; discriminate Hb|].
  destruct (template_problem_is_reported example_single_ok no_template_env []
              (py "Configuration error: Email template not found: email_template.html")
              [EPathExists TEMPLATE_PATH] eq_refl)
    as (_ & [(m & c & Hs & _) | Hs] & _); [vm_compute in Hs; discriminate Hs|].
  split; assumption.
Defined.

(** A text field that is a string cannot have raised when read. *)
Ltac ill_typed :=
  exfalso;
  repeat match goal with
         | H : _ /\ _ |- _ => destruct H
         | H : text_fields_are_strings _ _ |- _ =>
             unfold text_fields_are_strings, batch_text_keys, test_text_keys in H
         | H : Forall _ (_ :: _) |- _ => inversion H; clear H; subst
         | H : exists s, field _ _ _ = Ok s |- _ => destruct H
         | H : recipient_email_is_string _ |- _ =>
             let s := fresh "s" in
             let Hs := fresh "Hs" in
             destruct (H _ ltac:(eassumption)) as (s & Hs); clear H
         end;
  congruence.

(** A check that failed shows a required field missing. *)
Ltac is_missing :=
  repeat match goal with
         | H : is_empty ?s = true |- _ => destruct s; [clear H | discriminate H]
         end;
  unfold batch_field_missing, single_field_missing, test_field_missing,
         falsy_field, blank_field;
  solve [ left; eexists; split; eassumption
        | right; left; eexists; split; eassumption
        | right; right; apply List.Exists_exists; eexists; split; [|eassumption]; cbn; tauto
        | right; apply List.Exists_exists; eexists; split; [|eassumption]; cbn; tauto
        | left; eexists; split; eassumption ].

Ltac read_exit :=
  cbv beta iota; unfold any_exception, ret; cbv beta iota;
  eexists _, _; split; [reflexivity|]; split; [auto|];
  let H := fresh "H" in intros H; ill_typed.

Ltac check_exit :=
  cbv beta iota; unfold ret;
  eexists _, _; split; [reflexivity|]; split; [auto|];
  let Ht := fresh "Ht" in
  let Hnm := fresh "Hnm" in
  intros [Ht Hnm]; exfalso; apply Hnm; is_missing.

Ltac decode_exit Hget Hdec :=
  injection Hget as ->; rewrite Hdec; unfold ret;
  eexists _, _; split; [reflexivity|]; split; [auto|]; intros _; split; reflexivity.

(** X16.  A request whose attachment payload does not decode as Base64
    is refused by each of the three handlers without any effect: the
    answer is an error with status 400 or 500 and the trace is unchanged,
    so neither the file system nor the relay is touched.  When the other
    required fields are present and the text fields are strings, the
    answer is "Invalid PDF file data: <text of the decoding error>" with
    status 400. *)
Theorem undecodable_payload_is_refused data env tr pdf_file e :
  py_get data "pdf_file" (VStr (py "")) = Ok pdf_file ->
  b64decode pdf_file = Raise e ->
  refused_as_undecodable (send_emails data env tr) tr JError e
    (text_fields_are_strings data batch_text_keys /\ ~ batch_field_missing data)
  /\ refused_as_undecodable (send_single_email data env tr) tr JFailure e
       ((recipient_email_is_string data /\ text_fields_are_strings data batch_text_keys)
        /\ ~ single_field_missing data)
  /\ refused_as_undecodable (test_email data env tr) tr JError e
       (text_fields_are_strings data test_text_keys /\ ~ test_field_missing data).
Proof.
  intros Hget Hdec.
  destruct data as [| | | | |d]; try discriminate Hget.
  unfold refused_as_undecodable. split; [|split].
  - unfold send_emails, try_except.
    read_field; [|discriminate].
    do 4 (read_field; [|read_exit]).
    read_field; [|discriminate]. read_field; [|discriminate].
    do 2 (read_field; [|read_exit]).
    run_checks check_exit.
    decode_exit Hget Hdec.
  - unfold send_single_email, try_except.
    read_field; [|discriminate].
    do 5 (read_field; [|read_exit]).
    read_field; [|discriminate]. read_field; [|discriminate].
    do 2 (read_field; [|read_exit]).
    run_checks check_exit.
    decode_exit Hget Hdec.
  - unfold test_email, try_except.
    do 5 (read_field; [|read_exit]).
    read_field; [|discriminate]. read_field; [|discriminate].
    run_checks check_exit.
    decode_exit Hget Hdec.
Qed.

Lemma undecodable_payload_is_refused_witness :
  test_email (example_test_request "t@x.org" "A")
             (example_env short_template (fun _ => None)) []
  = (Ok (JError (py "Invalid PDF file data: Invalid base64-encoded string: number of data characters (1) cannot be 1 more than a multiple of 4"),
         400%nat), []).
Proof.
  destruct (undecodable_payload_is_refused (example_test_request "t@x.org" "A")
              (example_env short_template (fun _ => None)) [] (VStr (py "A"))
              (Exn BinasciiError
                 (py "Invalid base64-encoded string: number of data characters (1) cannot be 1 more than a multiple of 4")))
    as (_ & _ & m & code & Hrun & _ & Hexact); [vm_compute; reflexivity ..|].
  destruct Hexact as [-> ->]; [|exact Hrun].
  split.
  - repeat constructor; eexists; vm_compute; reflexivity.
  - intros [(x & Hx & Hf) | Hex].
    + vm_compute in Hx. injection Hx as <-. discriminate Hf.
    + unfold test_text_keys, blank_field in Hex.
      repeat match goal with
             | H : Exists _ (_ :: _) |- _ => inversion H; clear H; subst
             | H : Exists _ [] |- _ => inversion H
             end;
      match goal with H : field _ _ _ = Ok [] |- _ => vm_compute in H; discriminate H end.
Defined.

(** ** [build_message] and [send_one] with an attachment path *)

(** X17.  In [build_message] the attachment given as bytes takes
    precedence over the attachment path: with non-empty bytes the path is
    ignored, whatever it is, so the result is the message built without a
    path and the file system is not accessed. *)
Theorem attachment_data_takes_precedence
    sender to_email subject body_text path data filename env tr :
  data <> [] ->
  build_message sender to_email subject body_text path (Some data) filename env tr
  = build_message sender to_email subject body_text None (Some data) filename env tr
  /\ snd (build_message sender to_email subject body_text path (Some data) filename env tr)
     = tr.
Proof.
  intros Hne. destruct data as [|b data]; [congruence|].
  rewrite !build_message_bytes. split; [reflexivity|].
  destruct (utf8_encode_error body_text); reflexivity.
Qed.

Lemma attachment_data_takes_precedence_witness :
  snd (build_message (py "me@example.org") (py "hr@example.org") (py "Application")
         (py "<p>Hello</p>") (Some (py "docs/missing.pdf")) (Some (ascii_bytes "%PDF"))
         (VStr (py "CV.pdf")) (files_env false) [])
  = [].
Proof.
  apply (attachment_data_takes_precedence (py "me@example.org") (py "hr@example.org")
           (py "Application") (py "<p>Hello</p>") (Some (py "docs/missing.pdf"))
           (ascii_bytes "%PDF") (VStr (py "CV.pdf")) (files_env false) []).
  vm_compute. discriminate.
Defined.

(** With a body that cannot be encoded, [build_message] raises before it
    looks at the attachment. *)
Lemma build_message_unencodable sender to_email subject body_text path data filename
      env tr e :
  utf8_encode_error body_text = Some e ->
  build_message sender to_email subject body_text path data filename env tr
  = (Raise e, tr).
Proof. intros H. unfold build_message, MIMEText, bind, lift. rewrite H. reflexivity. Qed.

Lemma run_build_message_path sender to_email subject body_text p data filename env tr :
  p <> [] ->
  opt_truthy data = false ->
  encodable body_text = true ->
  build_message sender to_email subject body_text (Some p) data filename env tr
  = if path_exists env (count is_path_exists tr) p
    then
      match read_bytes env p with
      | Ok content =>
          (Ok (attach (base_message sender to_email subject body_text)
                      (attachment_part content (path_name env p))),
           tr ++ [EPathExists p; EReadBytes p])
      | Raise e => (Raise e, tr ++ [EPathExists p; EReadBytes p])
      end
    else (Raise (Exn FileNotFoundError (py "Attachment not found: " ++ p)),
          tr ++ [EPathExists p]).
Proof.
  intros Hp Hdata Hb%utf8_encode_error_none. destruct p as [|c p]; [congruence|].
  unfold build_message, MIMEText. rewrite Hb, (run_bind_lift (Ok _)). cbv iota beta.
  rewrite Hdata. cbn [opt_truthy opt_value].
  rewrite run_bind. unfold exists_ at 1.
  destruct (path_exists env _ _); cbn [negb]; [|reflexivity].
  rewrite run_bind. unfold file_read_bytes at 1. rewrite <- app_assoc.
  destruct (read_bytes env _); reflexivity.
Qed.

(** X18.  [build_message] with an attachment path and no attachment
    bytes (none, or the empty byte string).  The HTML part is made first:
    if the body cannot be encoded as UTF-8, [build_message] raises that
    UnicodeEncodeError and the file system is not accessed.  Otherwise, if
    the file does not exist it raises FileNotFoundError "Attachment not
    found: <path>" without reading anything.  If the file exists and is
    read, the message is the specified one, with one attachment part named
    after the last component of the path, and decoding that part gives
    back the content of the file, whatever it is: unlike empty bytes, an
    empty file is attached.  If reading the file raises, so does
    [build_message]. *)
Theorem attachment_from_path
    sender to_email subject body_text p data filename env tr :
  p <> [] ->
  opt_truthy data = false ->
  let run := build_message sender to_email subject body_text (Some p) data filename env tr in
  (forall e, utf8_encode_error body_text = Some e -> run = (Raise e, tr))
  /\ (encodable body_text = true ->
      (path_exists env (count is_path_exists tr) p = false ->
       run = (Raise (Exn FileNotFoundError (py "Attachment not found: " ++ p)),
              tr ++ [EPathExists p]))
      /\ (forall content,
            path_exists env (count is_path_exists tr) p = true ->
            read_bytes env p = Ok content ->
            exists msg,
              run = (Ok msg, tr ++ [EPathExists p; EReadBytes p])
              /\ message_as_specified msg sender to_email subject body_text
                   (path_name env p)
              /\ redecoded_attachment msg = Some (Ok content))
      /\ (forall e,
            path_exists env (count is_path_exists tr) p = true ->
            read_bytes env p = Raise e ->
            run = (Raise e, tr ++ [EPathExists p; EReadBytes p]))).
Proof.
  intros Hp Hdata run. subst run. split.
  { intros e He. apply build_message_unencodable, He. }
  intros Hb.
  rewrite (run_build_message_path _ _ _ _ _ _ _ _ _ Hp Hdata Hb).
  split; [|split].
  - intros ->. reflexivity.
  - intros content -> ->. eexists. split; [reflexivity|]. split.
    + unfold message_as_specified. repeat split. eexists. repeat split.
    + rewrite redecoded_attachment_built, a2b_base64_encodebytes. reflexivity.
  - intros e -> ->. reflexivity.
Qed.

Lemma attachment_from_path_witness :
  build_message (py "me@example.org") (py "hr@example.org") (py "Application")
    (py "<p>Hello</p>") (Some (py "docs/cv.pdf")) (Some []) VNone (files_env false) []
  = (Raise (Exn FileNotFoundError (py "Attachment not found: docs/cv.pdf")),
     [EPathExists (py "docs/cv.pdf")])
  /\ (exists msg,
        build_message (py "me@example.org") (py "hr@example.org") (py "Application")
          (py "<p>Hello</p>") (Some (py "docs/cv.pdf")) None VNone (files_env true) []
        = (Ok msg, [EPathExists (py "docs/cv.pdf"); EReadBytes (py "docs/cv.pdf")])
        /\ message_as_specified msg (py "me@example.org") (py "hr@example.org")
             (py "Application") (py "<p>Hello</p>") (py "cv.pdf")
        /\ redecoded_attachment msg = Some (Ok []))
  /\ build_message (py "me@example.org") (py "hr@example.org") (py "Application")
       (py "<p>" ++ [0xDFFF; 0xD800] ++ py "</p>") (Some (py "docs/cv.pdf")) None VNone
       (files_env false) []
     = (Raise (Exn UnicodeEncodeError
                 (py "'utf-8' codec can't encode characters in position 3-4: surrogates not allowed")),
        []).
Proof.
  split; [|split].
  - apply (attachment_from_path (py "me@example.org") (py "hr@example.org")
             (py "Application") (py "<p>Hello</p>") (py "docs/cv.pdf") (Some []) VNone
             (files_env false) []);
      [vm_compute; discriminate | reflexivity | reflexivity | reflexivity].
  - apply (attachment_from_path (py "me@example.org") (py "hr@example.org")
             (py "Application") (py "<p>Hello</p>") (py "docs/cv.pdf") None VNone
             (files_env true) []); [vm_compute; discriminate | reflexivity ..].
  - apply (attachment_from_path (py "me@example.org") (py "hr@example.org")
             (py "Application") (py "<p>" ++ [0xDFFF; 0xD800] ++ py "</p>")
             (py "docs/cv.pdf") None VNone (files_env false) []);
      [vm_compute; discriminate | reflexivity | vm_compute; reflexivity].
Defined.



(** ** The greeting is trimmed *)

(** X20.  Whenever [create_greeting] returns, for any recipient value, the
    greeting is either "Hiring Team" or a company name followed by
    " Hiring Team".  In the second case the recipient is a record whose
    company is a string, and the company name of the greeting is that
    string without the white space around it: the string is the name
    between two runs of white space, and the name is not empty and neither
    starts nor ends with white space.  Whenever it raises, it raises
    AttributeError: the recipient is not an object with [get], or its
    company is not a string. *)
Theorem create_greeting_is_trimmed recipient :
  (forall g,
     create_greeting recipient = Ok g ->
     g = py "Hiring Team"
     \/ exists d s company,
          recipient = VDict d
          /\ d !! py "company" = Some (VStr s)
          /\ trims_to s company
          /\ g = company ++ py " Hiring Team"
          /\ company <> []
          /\ (forall c, hd_error company = Some c -> isspace c = false)
          /\ (forall c, hd_error (rev company) = Some c -> isspace c = false))
  /\ (forall e,
        create_greeting recipient = Raise e ->
        exn_cls e = AttributeError
        /\ ((forall d, recipient <> VDict d)
            \/ exists v, py_get recipient "company" (VStr (py "")) = Ok v
                         /\ forall c, v <> VStr c)).
Proof.
  unfold create_greeting, field. split.
  - intros g. destruct recipient; try discriminate. cbn [py_get].
    destruct (d !! py "company") as [v|] eqn:Hd.
    + cbn [rbind]. destruct v; try discriminate. cbn [py_strip rbind].
      destruct (is_empty (strip s)) eqn:E; cbn [negb]; intros H; injection H as <-.
      * left. reflexivity.
      * right. exists d, s, (strip s).
        pose proof (strip_trims s) as T.
        split; [reflexivity|]. split; [exact Hd|]. split; [exact T|].
        split; [reflexivity|].
        split; [intros H; rewrite H in E; discriminate E|].
        destruct T as (before & after & _ & _ & _ & H1 & H2). split; assumption.
    + cbn [rbind py_strip]. intros H. left.
      change (is_empty (strip (py ""))) with true in H. cbn [negb] in H.
      injection H as <-. reflexivity.
  - intros e. destruct recipient; cbn [py_get rbind];
      try (intros H; injection H as <-; split; [reflexivity | left; discriminate]).
    destruct (d !! py "company") as [v|] eqn:Hd.
    + destruct v; cbn [py_strip rbind];
        try (intros H; injection H as <-; split; [reflexivity|];
             right; eexists; split; [reflexivity | discriminate]).
      destruct (negb (is_empty (strip s))); discriminate.
    + cbn [py_strip rbind]. destruct (negb (is_empty (strip (py "")))); discriminate.
Qed.

Lemma create_greeting_is_trimmed_witness :
  let s := [32; 9] ++ py "Acme Corp" ++ [10; 32] in
  create_greeting (VDict {[ py "company" := VStr s ]}) = Ok (py "Acme Corp Hiring Team")
  /\ trims_to s (py "Acme Corp").
Proof.
  intros s.
  assert (G : create_greeting (VDict {[ py "company" := VStr s ]})
              = Ok (py "Acme Corp Hiring Team")) by (vm_compute; reflexivity).
  split; [exact G|].
  destruct (proj1 (create_greeting_is_trimmed (VDict {[ py "company" := VStr s ]}))
              (py "Acme Corp Hiring Team") G)
    as [H | (d & s' & company & Hd & Hs & Ht & Hg & _)]; [discriminate H|].
  injection Hd as <-. vm_compute in Hs. injection Hs as <-.
  change (py "Acme Corp Hiring Team") with (py "Acme Corp" ++ py " Hiring Team") in Hg.
  apply app_inv_tail in Hg. rewrite Hg. exact Ht.
Defined.

(** ** Base64: what the decoder passes over *)

Lemma a2b_loop_relevant (data : pystr) :
  forall quad_pos leftchar pads,
    a2b_loop (List.filter b64_relevant data) quad_pos leftchar pads
    = a2b_loop data quad_pos leftchar pads.
Proof.
  induction data as [|c rest IH]; intros q l p; [reflexivity|].
  cbn [List.filter]. unfold b64_relevant at 1.
  destruct (c =? BASE64_PAD) eqn:Epad.
  - cbn [orb a2b_loop]. rewrite Epad.
    destruct (2 <=? q)%nat; [|apply IH].
    destruct (4 <=? q + S p)%nat; [reflexivity | apply IH].
  - cbn [orb]. destruct (table_a2b c) as [v|] eqn:Ev.
    + cbn [a2b_loop]. rewrite Epad, Ev.
      destruct q as [|[|[|q]]]; rewrite IH; reflexivity.
    + cbn [a2b_loop]. rewrite Epad, Ev. apply IH.
Qed.

Lemma forallb_filter_ascii (f : N -> bool) (s : pystr) :
  forallb (fun c => c <? 128) s = true ->
  forallb (fun c => c <? 128) (List.filter f s) = true.
Proof.
  induction s as [|c s IH]; [reflexivity|].
  cbn [forallb List.filter]. intros [Hc Hs]%andb_prop.
  destruct (f c); [cbn [forallb]; rewrite Hc|]; exact (IH Hs).
Qed.

Lemma encodebytes_ascii (b : bytes) : forallb (fun c => c <? 128) (encodebytes b) = true.
Proof.
  unfold encodebytes. generalize (seq 0 ((length b + (MAXBINSIZE - 1)) / MAXBINSIZE)).
  intros ks. induction ks as [|k ks IH]; [reflexivity|].
  cbn [flat_map]. rewrite forallb_app, IH. unfold b2a_base64.
  rewrite forallb_app, b2a_groups_ascii. reflexivity.
Qed.

(** X21.  What [base64.b64decode] accepts as the attachment payload of a
    request.  In an ASCII string, the characters that are neither one of
    the 64 digits nor the padding sign (line breaks and blanks, say) do
    not matter: the payload decodes, or fails, exactly as the payload
    without them.  In particular a payload in the MIME layout of
    [encodebytes], with a line break after every 76 characters, decodes to
    the bytes it encodes, like the payload of [b64encode]. *)
Theorem payload_separators_are_ignored :
  (forall s,
     forallb (fun c => c <? 128) s = true ->
     b64decode (VStr (List.filter b64_relevant s)) = b64decode (VStr s))
  /\ (forall b, b64decode (VStr (encodebytes b)) = Ok b).
Proof.
  split.
  - intros s Hs. unfold b64decode.
    rewrite Hs, (forallb_filter_ascii _ _ Hs). unfold a2b_base64.
    rewrite a2b_loop_relevant. reflexivity.
  - intros b. unfold b64decode. rewrite encodebytes_ascii.
    apply a2b_base64_encodebytes.
Qed.

Lemma payload_separators_are_ignored_witness :
  b64decode (VStr (py "TW Fu")) = Ok (ascii_bytes "Man")
  /\ b64decode (VStr [84; 87; 10; 70; 117; 10]) = Ok (ascii_bytes "Man").
Proof.
  split.
  - rewrite <- (proj1 payload_separators_are_ignored (py "TW Fu")); vm_compute; reflexivity.
  - rewrite <- (proj1 payload_separators_are_ignored [84; 87; 10; 70; 117; 10]);
      vm_compute; reflexivity.
Defined.

(** ** The batch handler always answers *)

Lemma batch_session_answers L email_template env tr :
  batch_response (fst (unexpected (batch_session_of L email_template) env tr)).
Proof.
  rewrite run_batch_session. cbv zeta. unfold batch_error.
  destruct (smtp_connect env SMTP_SERVER SMTP_PORT) as [e|]; [right; eauto|].
  rewrite run_batch_block. cbv zeta.
  destruct (smtp_ehlo env) as [e|]; [destruct (exit_raises env); right; eauto|].
  destruct (smtp_starttls env) as [e|]; [destruct (exit_raises env); right; eauto|].
  destruct (smtp_login env _ _) as [e|]; [destruct (exit_raises env); right; eauto|].
  destruct (py_iter (l_recipients L)) as [todo|e];
    [|destruct (exit_raises env); right; eauto].
  destruct (loop_of L email_template todo _ env _) as [[st|e] tr4];
    [|destruct (exit_raises env); right; eauto].
  destruct (py_len (l_recipients L)) as [n|e];
    [|destruct (exit_raises env); right; eauto].
  destruct (exit_raises env); [right; eauto | left; eauto].
Qed.

Lemma batch_always_answers data env :
  batch_response (fst (send_emails data env [])).
Proof.
  destruct (send_emails_cases data env [])
    as [(msg & code & tr' & Hrun & _ & Hcode) | (L & tpl & HL & HT)].
  - rewrite Hrun. right. eauto.
  - rewrite (send_emails_valid data L tpl env [] HL HT). apply batch_session_answers.
Qed.

(** X22.  The batch handler never lets an exception escape and always
    answers in one of two shapes: a success flag with a message, the
    results and the summary, with status 200; or an error body with
    status 400 or 500.  It never answers with the bodies of the other two
    handlers. *)
Theorem batch_response_shape data env tr :
  batch_response (fst (send_emails data env tr)).
Proof.
  destruct (send_emails_cases data env tr)
    as [(msg & code & tr' & Hrun & _ & Hcode) | (L & tpl & HL & HT)].
  - rewrite Hrun. right. eauto.
  - rewrite (send_emails_valid data L tpl env tr HL HT). apply batch_session_answers.
Qed.

Lemma no_send_count tr :
  (forall f t m, ~ In (ESendmail f t m) tr) -> count is_sendmail tr = 0%nat.
Proof.
  induction tr as [|ev tr IH]; intros H; [reflexivity|].
  assert (Htr : count is_sendmail tr = 0%nat)
    by (apply IH; intros f t m Hin; apply (H f t m); right; exact Hin).
  destruct ev; try exact Htr.
  destruct (H from_addr to_addrs msg). left. reflexivity.
Qed.

(** X23.  When the [recipients] of a batch request are not a list (a
    string, an object, a number), no message is ever submitted and the
    answer is an error body: a validation error if the value is false or
    another field is missing, and otherwise the error of iterating over
    the value or of reading its first element as a record, raised after
    the relay session was opened. *)
Theorem non_list_recipients_send_nothing data v env :
  py_get data "recipients" (VList []) = Ok v ->
  (forall l, v <> VList l) ->
  count is_sendmail (snd (send_emails data env [])) = 0%nat
  /\ exists error code,
       fst (send_emails data env []) = Ok (JError error, code)
       /\ (code = 400 \/ code = 500)%nat.
Proof.
  intros Hv Hnl. split.
  - apply no_send_count. intros f t m Hin.
    destruct (batch_send_inversion data env f t m Hin)
      as (L & l & _ & _ & _ & _ & (Hrec & _) & Hl & _).
    apply (Hnl l). congruence.
  - destruct (batch_always_answers data env) as [(m & rs & sm & H) | H]; [|exact H].
    exfalso.
    destruct (send_emails data env []) as [r tr'] eqn:Hrun. cbn [fst] in H. subst r.
    destruct (send_emails_cases data env [])
      as [(msg & c & t & Hstop & _) | (L & tpl & HL & HT)];
      [rewrite Hrun in Hstop; discriminate Hstop|].
    rewrite (send_emails_valid data L tpl env [] HL HT) in Hrun.
    apply batch_accepted_run in Hrun
      as (todo & st & n & tr4 & _ & _ & Hiter & _ & Hloop & _).
    apply send_loop_results in Hloop as (rs0 & _ & _ & H3 & _).
    assert (Ht : truthy (l_recipients L) = true) by apply HL.
    pose proof (iterated_is_list _ _ Ht Hiter H3) as Hlist.
    destruct HL as (Hrec & _). apply (Hnl todo). congruence.
Qed.

Lemma non_list_recipients_send_nothing_witness :
  let run := send_emails (example_request (VStr (py "a@x.org")))
               (example_env example_template (fun _ => None)) [] in
  count is_sendmail (snd run) = 0%nat
  /\ fst run = Ok (JError (py "Unexpected error: 'str' object has no attribute 'get'"),
                   500%nat)
  /\ In (ELogin (py "me@example.org") (py "secret")) (snd run).
Proof.
  intros run.
  destruct (non_list_recipients_send_nothing (example_request (VStr (py "a@x.org")))
              (VStr (py "a@x.org")) (example_env example_template (fun _ => None)))
    as (Hcount & _); [vm_compute; reflexivity | discriminate |].
  split; [exact Hcount|]. split; [vm_compute; reflexivity|].
  vm_compute. do 6 right. left. reflexivity.
Defined.
